(** * The onion event poller ([src/onion/poller.c]) as a shallow embedding

    The poller keeps a singly linked registry of watched file descriptors,
    one [onion_poller_el] per descriptor, and talks to the kernel through
    [epoll].  The embedding below keeps the C records field by field, turns
    the linked list into a Rocq list (an element remembers the address
    [malloc] gave it, since [epoll] hands that address back in
    [event.data.ptr]), and threads the poller together with a trace of every
    externally visible action (system calls, log lines, callbacks, shutdown
    hooks, [free]) through an error monad.

    The file is built with [HAVE_PTHREADS] (without it [pthread_mutex_init]
    and [pthread_mutex_trylock] would be applied to a field that does not
    exist), so mutexes are real: a mutex is a boolean, [pthread_mutex_lock]
    on a held mutex does not return. *)

From Stdlib Require Import ZArith List String Bool Lia.
Import ListNotations.
Local Open Scope Z_scope.

(** ** C integers *)

(** [int] is 32 bits wide; [x++] and [x--] wrap around. *)
Definition int_wrap (x : Z) : Z :=
  (x + 2147483648) mod 4294967296 - 2147483648.

Definition INT_MIN : Z := -2147483648.
Definition INT_MAX : Z := 2147483647.

(** ** Constants of [<sys/epoll.h>] and [<errno.h>] *)

Module Epoll.

Definition EPOLLIN : Z := 1.
Definition EPOLLHUP : Z := 16.
Definition EPOLLONESHOT : Z := Z.shiftl 1 30.
Definition EPOLL_CTL_ADD : Z := 1.
Definition EPOLL_CTL_DEL : Z := 2.
Definition EPOLL_CTL_MOD : Z := 3.

(** [EPOLLIN | EPOLLHUP | EPOLLONESHOT], the only interest mask in the file. *)
Definition oneshot_read_hup : Z :=
  Z.lor (Z.lor EPOLLIN EPOLLHUP) EPOLLONESHOT.

End Epoll.

Definition EBUSY : Z := 16.

(** [#define MAX_EVENTS 10] *)
Definition MAX_EVENTS : Z := 10.

(** ** Data model *)

(** [struct onion_poller_el_t]; pointers are addresses, [0] is [NULL].
    [el_addr] is the address of the record itself. *)
Record onion_poller_el : Type := mk_el {
  el_addr : Z;
  el_fd : Z;
  el_f : Z;
  el_data : Z;
  el_shutdown : Z;
  el_shutdown_data : Z;
  el_delta_timeout : Z;
  el_timeout : Z;
  el_mutex : bool;
  el_active : Z
}.

(** [struct onion_poller_t]; [p_head] is the chain reached from [head]
    through [next]. *)
Record onion_poller : Type := mk_poller {
  p_fd : Z;
  p_stop : Z;
  p_n : Z;
  p_mutex : bool;
  p_npollers : Z;
  p_head : list onion_poller_el
}.

Inductive log_level : Type := DEBUG0 | DEBUG | WARNING | ERROR.

(** What the poller does to the outside, in the order it does it. *)
Inductive event : Type :=
| EvLog (lvl : log_level) (fmt : string)
| EvMalloc (a : Z)
| EvFree (a : Z)
| EvFreePoller
| EvClose (fd : Z)
| EvUsleep (usec : Z)
| EvEpollCtl (epfd op fd : Z) (ev : option (Z * Z))
| EvEpollWait (epfd maxevents timeout : Z)
| EvCallback (f data : Z)
| EvShutdown (f data : Z).

Record world : Type := mk_world {
  w_poller : onion_poller;
  w_trace : list event
}.

(** Field updates. *)
Definition set_el_mutex (b : bool) (e : onion_poller_el) : onion_poller_el :=
  mk_el (el_addr e) (el_fd e) (el_f e) (el_data e) (el_shutdown e)
        (el_shutdown_data e) (el_delta_timeout e) (el_timeout e) b (el_active e).
Definition set_el_active (v : Z) (e : onion_poller_el) : onion_poller_el :=
  mk_el (el_addr e) (el_fd e) (el_f e) (el_data e) (el_shutdown e)
        (el_shutdown_data e) (el_delta_timeout e) (el_timeout e) (el_mutex e) v.
Definition set_el_shutdown (f data : Z) (e : onion_poller_el) : onion_poller_el :=
  mk_el (el_addr e) (el_fd e) (el_f e) (el_data e) f data
        (el_delta_timeout e) (el_timeout e) (el_mutex e) (el_active e).
Definition set_el_timeout (t : Z) (e : onion_poller_el) : onion_poller_el :=
  mk_el (el_addr e) (el_fd e) (el_f e) (el_data e) (el_shutdown e)
        (el_shutdown_data e) t t (el_mutex e) (el_active e).
Definition reset_el_delta (e : onion_poller_el) : onion_poller_el :=
  mk_el (el_addr e) (el_fd e) (el_f e) (el_data e) (el_shutdown e)
        (el_shutdown_data e) (el_timeout e) (el_timeout e) (el_mutex e) (el_active e).

Definition set_p_stop (v : Z) (p : onion_poller) : onion_poller :=
  mk_poller (p_fd p) v (p_n p) (p_mutex p) (p_npollers p) (p_head p).
Definition set_p_n (v : Z) (p : onion_poller) : onion_poller :=
  mk_poller (p_fd p) (p_stop p) v (p_mutex p) (p_npollers p) (p_head p).
Definition set_p_mutex (b : bool) (p : onion_poller) : onion_poller :=
  mk_poller (p_fd p) (p_stop p) (p_n p) b (p_npollers p) (p_head p).
Definition set_p_npollers (v : Z) (p : onion_poller) : onion_poller :=
  mk_poller (p_fd p) (p_stop p) (p_n p) (p_mutex p) v (p_head p).
Definition set_p_head (l : list onion_poller_el) (p : onion_poller) : onion_poller :=
  mk_poller (p_fd p) (p_stop p) (p_n p) (p_mutex p) (p_npollers p) l.

(** The descriptors of the registry, in registry order. *)
Definition fds (p : onion_poller) : list Z := map el_fd (p_head p).

(** ** Outcomes *)

Inductive fault : Type :=
| NullPointer      (* a field of NULL is read or written *)
| DanglingPointer. (* a field of a record that is not (or no longer) allocated *)

(** A call returns, faults, does not come back (stuck in
    [pthread_mutex_lock], or inside a shutdown hook that never returns), or
    (the poll loop only) is still running when the fuel is spent. *)
Inductive outcome (A : Type) : Type :=
| Done (a : A) (w : world)
| Fault (why : fault) (w : world)
| Blocked (w : world)
| OutOfFuel (w : world).
Arguments Done {A} a w.
Arguments Fault {A} why w.
Arguments Blocked {A} w.
Arguments OutOfFuel {A} w.

Definition world_of {A : Type} (o : outcome A) : world :=
  match o with
  | Done _ w | Fault _ w | Blocked w | OutOfFuel w => w
  end.

Definition M (A : Type) : Type := world -> outcome A.

Definition ret {A : Type} (a : A) : M A := fun w => Done a w.

Definition bind {A B : Type} (m : M A) (k : A -> M B) : M B :=
  fun w =>
    match m w with
    | Done a w' => k a w'
    | Fault why w' => Fault why w'
    | Blocked w' => Blocked w'
    | OutOfFuel w' => OutOfFuel w'
    end.

Declare Scope poller_scope.
Delimit Scope poller_scope with poller.
Notation "x <- m ;; k" := (bind m (fun x => k))
  (at level 61, m at next level, right associativity) : poller_scope.
Notation "m ;; k" := (bind m (fun _ => k))
  (at level 61, right associativity) : poller_scope.
Notation "' pat <- m ;; k" := (bind m (fun x => match x with pat => k end))
  (at level 61, pat pattern, m at next level, right associativity) : poller_scope.
Local Open Scope poller_scope.

Definition get_poller : M onion_poller := fun w => Done (w_poller w) w.

Definition modify_poller (g : onion_poller -> onion_poller) : M unit :=
  fun w => Done tt (mk_world (g (w_poller w)) (w_trace w)).

Definition emit (e : event) : M unit :=
  fun w => Done tt (mk_world (w_poller w) (w_trace w ++ [e])).

Definition ONION_LOG (lvl : log_level) (fmt : string) : M unit :=
  emit (EvLog lvl fmt).

Definition fail_with {A : Type} (why : fault) : M A := fun w => Fault why w.
Definition block {A : Type} : M A := fun w => Blocked w.

Definition when (b : bool) (m : M unit) : M unit := if b then m else ret tt.

(** ** Mutexes *)

(** [poller->mutex]. *)
Definition pthread_mutex_lock_poller : M unit :=
  p <- get_poller ;;
  if p_mutex p then block else modify_poller (set_p_mutex true).

Definition pthread_mutex_unlock_poller : M unit :=
  modify_poller (set_p_mutex false).

(** [pthread_mutex_trylock] answers 0 when it took the mutex and [EBUSY]
    when somebody holds it. *)
Definition pthread_mutex_trylock_poller : M Z :=
  p <- get_poller ;;
  if p_mutex p then ret EBUSY
  else modify_poller (set_p_mutex true) ;; ret 0.

(** ** Records reached through a pointer *)

Fixpoint el_at (a : Z) (l : list onion_poller_el) : option onion_poller_el :=
  match l with
  | [] => None
  | e :: rest => if el_addr e =? a then Some e else el_at a rest
  end.

Definition update_el (a : Z) (g : onion_poller_el -> onion_poller_el)
    (l : list onion_poller_el) : list onion_poller_el :=
  map (fun e => if el_addr e =? a then g e else e) l.

(** [el->...] for a pointer [el] into the registry. *)
Definition load (a : Z) : M onion_poller_el :=
  if a =? 0 then fail_with NullPointer
  else
    p <- get_poller ;;
    match el_at a (p_head p) with
    | Some e => ret e
    | None => fail_with DanglingPointer
    end.

Definition store (a : Z) (g : onion_poller_el -> onion_poller_el) : M unit :=
  _ <- load a ;;
  modify_poller (fun p => set_p_head (update_el a g (p_head p)) p).

Definition pthread_mutex_lock_el (a : Z) : M unit :=
  e <- load a ;;
  if el_mutex e then block else store a (set_el_mutex true).

Definition pthread_mutex_unlock_el (a : Z) : M unit :=
  store a (set_el_mutex false).

(** ** Shutdown hooks

    [el->shutdown] is code of the user.  [onion_poller_free_element] calls it
    with [poller->mutex] and [el->mutex] held, the walk of
    [onion_poller_free] with [el->mutex] held while somebody else holds the
    poller mutex.  [struct onion_poller_t] and [struct onion_poller_el_t]
    are defined in this file only, so a hook reaches the poller through the
    functions of the file, and each of them starts by waiting for the
    poller mutex, except [onion_poller_stop], which writes [stop] and
    returns, [onion_poller_poll], which writes [stop] and then waits, and
    [onion_poller_free], which destroys the poller.  So a hook either
    returns, having at most written [stop], or never returns, having at
    most written [stop] before it got stuck.  A hook that destroys the
    poller under its caller is not modelled. *)
Record hook_result : Type := mk_hook {
  hook_stop : option Z;   (* the value it has written to [p->stop], if any *)
  hook_returns : bool
}.

Definition quiet_hook : hook_result := mk_hook None true.

Definition hook_writes (hr : hook_result) (p : onion_poller) : onion_poller :=
  match hook_stop hr with
  | Some v => set_p_stop v p
  | None => p
  end.

Definition after_hook (hr : hook_result) (w : world) : world :=
  mk_world (hook_writes hr (w_poller w)) (w_trace w).

(** ** The environment

    Everything the file cannot decide itself: what [malloc] and the [epoll]
    calls answer (as functions of the history so far), what a callback does
    to the world and returns, what a shutdown hook does in the world it is
    called in, and what the other threads have done to the poller by the
    time a blocking call ([epoll_wait], [usleep]) comes back. *)
Record environment : Type := mk_env {
  os_malloc : list event -> Z;
  os_epoll_create : Z -> Z;
  os_epoll_ctl : list event -> Z -> Z -> Z;
  os_epoll_wait : list event -> option (list Z);
  call_f : Z -> Z -> world -> Z * world;
  call_shutdown : Z -> Z -> world -> hook_result;
  others : list event -> onion_poller -> onion_poller
}.

(** What [onion_poller_new] comes to: a poller, NULL, or a fault; each with
    the trace so far. *)
Inductive new_outcome : Type :=
| NewPoller (p : onion_poller) (tr : list event)
| NewNull (tr : list event)
| NewFault (why : fault) (tr : list event).

(** [!l] for a chain [l]. *)
Definition is_nil {A : Type} (l : list A) : bool :=
  match l with [] => true | _ :: _ => false end.

(** The poller pointer handed to every operation is the poller of the world:
    it is a live object, never NULL. *)
Definition poller_is_null : bool := false.

Section Poller.

Variable E : environment.

Definition malloc : M Z :=
  fun w =>
    let a := os_malloc E (w_trace w) in
    Done a (mk_world (w_poller w) (w_trace w ++ [EvMalloc a])).

Definition epoll_ctl (epfd op fd : Z) (ev : option (Z * Z)) : M Z :=
  fun w =>
    Done (os_epoll_ctl E (w_trace w) op fd)
         (mk_world (w_poller w) (w_trace w ++ [EvEpollCtl epfd op fd ev])).

(** [epoll_wait] fills at most [maxevents] slots and answers how many it
    filled, or -1; the thread sleeps inside, so the poller it finds on return
    is the one the other threads left. *)
Definition epoll_wait (epfd maxevents timeout : Z) : M (Z * list Z) :=
  fun w =>
    let tr := w_trace w ++ [EvEpollWait epfd maxevents timeout] in
    let p := others E tr (w_poller w) in
    match os_epoll_wait E (w_trace w) with
    | None => Done (-1, []) (mk_world p tr)
    | Some ready =>
        let evs := firstn (Z.to_nat maxevents) ready in
        Done (Z.of_nat (List.length evs), evs) (mk_world p tr)
    end.

Definition usleep (usec : Z) : M unit :=
  fun w =>
    let tr := w_trace w ++ [EvUsleep usec] in
    Done tt (mk_world (others E tr (w_poller w)) tr).

(** [el->shutdown(el->shutdown_data)] *)
Definition call_hook (f data : Z) : M unit :=
  emit (EvShutdown f data) ;;
  fun w =>
    let hr := call_shutdown E f data w in
    if hook_returns hr then Done tt (after_hook hr w)
    else Blocked (after_hook hr w).

(** [el->f(el->data)] *)
Definition call (f data : Z) : M Z :=
  if f =? 0 then fail_with NullPointer
  else
    emit (EvCallback f data) ;;
    fun w => let '(n, w') := call_f E f data w in Done n w'.

(** ** [onion_poller_find_fd_and_lock] *)

(** The [while (next)] scan: the address of the first record with this
    descriptor, NULL when the chain ends. *)
Fixpoint find_fd (fd : Z) (next : list onion_poller_el) : Z :=
  match next with
  | [] => 0
  | e :: rest => if el_fd e =? fd then el_addr e else find_fd fd rest
  end.

Definition onion_poller_find_fd_and_lock (fd : Z) : M Z :=
  pthread_mutex_lock_poller ;;
  p <- get_poller ;;
  let next := find_fd fd (p_head p) in
  when (negb (next =? 0)) (pthread_mutex_lock_el next) ;;
  pthread_mutex_unlock_poller ;;
  ret next.

(** ** [onion_poller_new] *)

(** Started with the trace [tr] behind it.  [p->fd=epoll_create(n)] writes
    through what [malloc] returned, unchecked. *)
Definition onion_poller_new (n : Z) (tr : list event) : new_outcome :=
  let p := os_malloc E tr in
  let tr1 := tr ++ [EvMalloc p] in
  let fd := os_epoll_create E n in
  if p =? 0 then NewFault NullPointer tr1
  else if fd <? 0 then
    NewNull (tr1 ++ [EvLog ERROR "Error creating the poller. %s"; EvFreePoller])
  else NewPoller (mk_poller fd 0 0 false 0 []) tr1.

(** ** [onion_poller_free] *)

(** [while (p->npollers>0 && n>0) { ...; usleep(100000); n--; }] *)
Fixpoint wait_pollers (n : nat) : M unit :=
  match n with
  | O => ret tt
  | S n' =>
      p <- get_poller ;;
      if 0 <? p_npollers p then
        ONION_LOG DEBUG "Waiting for %d epollers (%d)" ;;
        usleep 100000 ;;
        wait_pollers n'
      else ret tt
  end.

(** The [while (next)] walk of [onion_poller_free]. *)
Fixpoint free_chain (next : list onion_poller_el) : M unit :=
  match next with
  | [] => ret tt
  | e :: tnext =>
      when (el_mutex e) block ;;
      when (negb (el_shutdown e =? 0))
           (call_hook (el_shutdown e) (el_shutdown_data e)) ;;
      emit (EvFree (el_addr e)) ;;
      free_chain tnext
  end.

Definition onion_poller_free : M unit :=
  ONION_LOG DEBUG "Free onion poller" ;;
  modify_poller (set_p_stop 1) ;;
  p <- get_poller ;;
  emit (EvClose (p_fd p)) ;;
  wait_pollers 10 ;;
  r <- pthread_mutex_trylock_poller ;;
  when (0 <? r)
       (ONION_LOG WARNING
          "When cleaning the poller object, some poller is still active; not freeing memory" ;;
        p <- get_poller ;;
        free_chain (p_head p) ;;
        pthread_mutex_unlock_poller ;;
        emit EvFreePoller) ;;
  ONION_LOG DEBUG0 "Done".

(** ** [onion_poller_add] *)

(** [while (next->next) next=next->next; next->next=nel;] from [next]. *)
Fixpoint link_last (next : onion_poller_el) (rest : list onion_poller_el)
    (nel : onion_poller_el) : list onion_poller_el :=
  match rest with
  | [] => [next; nel]
  | e :: rest' => next :: link_last e rest' nel
  end.

Definition onion_poller_add (fd f data : Z) : M Z :=
  ONION_LOG DEBUG0 "Adding fd %d for polling (%d)" ;;
  nel <- malloc ;;
  if nel =? 0 then fail_with NullPointer
  else
    let el := mk_el nel fd f data 0 0 (-1) (-1) false 0 in
    pthread_mutex_lock_poller ;;
    modify_poller (fun p =>
      match p_head p with
      | next :: rest => set_p_head (link_last next rest el) p
      | [] => set_p_head [el] p
      end) ;;
    modify_poller (fun p => set_p_n (int_wrap (p_n p + 1)) p) ;;
    pthread_mutex_unlock_poller ;;
    ret 0.

(** ** [onion_poller_go] *)

Definition onion_poller_go (fd : Z) : M Z :=
  el <- onion_poller_find_fd_and_lock fd ;;
  if el =? 0 then ret 0
  else
    store el (set_el_active 1) ;;
    p <- get_poller ;;
    r <- epoll_ctl (p_fd p) Epoll.EPOLL_CTL_ADD fd
                   (Some (Epoll.oneshot_read_hup, el)) ;;
    if r <? 0 then
      ONION_LOG ERROR "Error add descriptor to listen to. %s" ;;
      ret 1
    else
      pthread_mutex_unlock_el el ;;
      ret 1.

(** ** [onion_poller_set_shutdown], [onion_poller_set_timeout] *)

Definition onion_poller_set_shutdown (fd f data : Z) : M Z :=
  el <- onion_poller_find_fd_and_lock fd ;;
  if poller_is_null then
    ONION_LOG ERROR "Could not find fd %d" ;;
    ret 0
  else
    ONION_LOG DEBUG0 "Added shutdown callback for fd %d" ;;
    store el (set_el_shutdown f data) ;;
    pthread_mutex_unlock_el el ;;
    ret 1.

Definition onion_poller_set_timeout (fd timeout : Z) : M Z :=
  el <- onion_poller_find_fd_and_lock fd ;;
  if poller_is_null then
    ONION_LOG ERROR "Could not find fd %d" ;;
    ret 0
  else
    store el (set_el_timeout timeout) ;;
    pthread_mutex_unlock_el el ;;
    ret 1.

(** ** [onion_poller_free_element], [onion_poller_remove] *)

(** [el] has already been unlinked: it is the record itself, not a pointer
    into the registry. *)
Definition onion_poller_free_element (el : onion_poller_el) : M unit :=
  when (el_mutex el) block ;;
  p <- get_poller ;;
  r <- epoll_ctl (p_fd p) Epoll.EPOLL_CTL_DEL (el_fd el) None ;;
  when (r <? 0) (ONION_LOG ERROR "Error remove descriptor to listen to. %s") ;;
  when (negb (el_shutdown el =? 0))
       (call_hook (el_shutdown el) (el_shutdown_data el)) ;;
  emit (EvFree (el_addr el)) ;;
  modify_poller (fun p => set_p_n (int_wrap (p_n p - 1)) p).

(** The [while (el->next)] loop: [before] is the chain up to and including
    [el], [next] is what hangs from [el->next]. *)
Fixpoint remove_next (fd : Z) (before next : list onion_poller_el) : M Z :=
  match next with
  | [] =>
      pthread_mutex_unlock_poller ;;
      ONION_LOG WARNING "Trying to remove unknown fd from poller %d" ;;
      ret 0
  | t :: rest =>
      if el_fd t =? fd then
        ONION_LOG DEBUG0 "Removed from tail %p" ;;
        modify_poller (set_p_head (before ++ rest)) ;;
        onion_poller_free_element t ;;
        pthread_mutex_unlock_poller ;;
        ret 0
      else remove_next fd (before ++ [t]) rest
  end.

Definition onion_poller_remove (fd : Z) : M Z :=
  pthread_mutex_lock_poller ;;
  ONION_LOG DEBUG0 "Trying to remove fd %d (%d)" ;;
  p <- get_poller ;;
  match p_head p with
  | el :: rest =>
      if el_fd el =? fd then
        ONION_LOG DEBUG0 "Removed from head %p" ;;
        modify_poller (set_p_head rest) ;;
        onion_poller_free_element el ;;
        pthread_mutex_unlock_poller ;;
        ret 0
      else remove_next fd [el] rest
  | [] =>
      (* [el] is NULL: the first test fails on [el &&], then [el->next] is read *)
      fail_with NullPointer
  end.

(** ** [onion_poller_poll], [onion_poller_stop] *)

(** The [if (n<0) ... else ...] that follows the callback in the body of
    [for (i=0;i<nfds;i++)]; [n] is what the callback returned. *)
Definition after_callback (el n : Z) : M unit :=
  if n <? 0 then
    pthread_mutex_unlock_el el ;;
    e <- load el ;;
    _ <- onion_poller_remove (el_fd e) ;;
    ret tt
  else
    ONION_LOG DEBUG0 "Resetting poller %d" ;;
    e <- load el ;;
    p <- get_poller ;;
    r <- epoll_ctl (p_fd p) Epoll.EPOLL_CTL_MOD (el_fd e)
                   (Some (Epoll.oneshot_read_hup, el)) ;;
    when (r <? 0) (ONION_LOG ERROR "Error resetting poller, %s") ;;
    pthread_mutex_unlock_el el.

(** The body of [for (i=0;i<nfds;i++)] for [event[i].data.ptr == el]. *)
Definition dispatch (el : Z) : M unit :=
  pthread_mutex_lock_el el ;;
  store el reset_el_delta ;;
  e <- load el ;;
  n <- call (el_f e) (el_data e) ;;
  after_callback el n.

(** [for (i=0;i<nfds;i++)] over the slots [epoll_wait] filled. *)
Fixpoint dispatch_all (evs : list Z) : M unit :=
  match evs with
  | [] => ret tt
  | el :: rest => dispatch el ;; dispatch_all rest
  end.

Inductive loop_status : Type := Running | Stopped.

(** One turn of [while (!p->stop && p->head)], the test included; when the
    test fails, what follows the loop. *)
Definition poll_iteration : M loop_status :=
  p <- get_poller ;;
  if negb (p_stop p =? 0) || is_nil (p_head p)
  then
    ONION_LOG DEBUG0 "Finished polling fds" ;;
    pthread_mutex_lock_poller ;;
    modify_poller (fun p => set_p_npollers (int_wrap (p_npollers p - 1)) p) ;;
    ONION_LOG DEBUG0 "Npollers %d" ;;
    pthread_mutex_unlock_poller ;;
    ret Stopped
  else
    '(nfds, evs) <- epoll_wait (p_fd p) MAX_EVENTS (-1) ;;
    finished <-
      (if nfds <? 0 then
         ONION_LOG DEBUG "Some error happened" ;;
         p <- get_poller ;;
         if (p_fd p <? 0) || is_nil (p_head p)
         then
           ONION_LOG DEBUG "Finishing the epoll as finished: %s" ;;
           pthread_mutex_lock_poller ;;
           modify_poller
             (fun p => set_p_npollers (int_wrap (p_npollers p - 1)) p) ;;
           pthread_mutex_unlock_poller ;;
           ret true
         else ret false
       else ret false) ;;
    if finished : bool then ret Stopped
    else
      dispatch_all evs ;;
      ret Running.

Fixpoint poll_loop (fuel : nat) : M unit :=
  match fuel with
  | O => fun w => OutOfFuel w
  | S fuel' =>
      s <- poll_iteration ;;
      match s with
      | Stopped => ret tt
      | Running => poll_loop fuel'
      end
  end.

Definition onion_poller_poll (fuel : nat) : M unit :=
  ONION_LOG DEBUG0 "Start poll of fds" ;;
  modify_poller (set_p_stop 0) ;;
  pthread_mutex_lock_poller ;;
  modify_poller (fun p => set_p_npollers (int_wrap (p_npollers p + 1)) p) ;;
  ONION_LOG DEBUG0 "Npollers %d. %d listenings %p" ;;
  pthread_mutex_unlock_poller ;;
  poll_loop fuel.

Definition onion_poller_stop : M unit :=
  modify_poller (set_p_stop 1).

End Poller.

(** * Well-formed registries and sample worlds *)

(** Every live record has an address of its own, and none sits at NULL:
    what [malloc] guarantees for blocks that have not been freed. *)
Definition wf_registry (l : list onion_poller_el) : Prop :=
  NoDup (map el_addr l) /\ ~ In 0 (map el_addr l).

(** What [onion_poller_free_element] adds to a trace [tr]: the [epoll_ctl]
    that takes the descriptor out of the interest list, the error line when
    that call fails, the shutdown hook when there is one, the [free]. *)
Definition free_element_events (E : environment) (tr : list event) (epfd : Z)
    (el : onion_poller_el) : list event :=
  [EvEpollCtl epfd Epoll.EPOLL_CTL_DEL (el_fd el) None]
  ++ (if os_epoll_ctl E tr Epoll.EPOLL_CTL_DEL (el_fd el) <? 0
      then [EvLog ERROR "Error remove descriptor to listen to. %s"] else [])
  ++ (if el_shutdown el =? 0 then []
      else [EvShutdown (el_shutdown el) (el_shutdown_data el)])
  ++ [EvFree (el_addr el)].

(** The world in which [onion_poller_free_element], started on [el] with
    poller [p] and trace [tr], calls the hook of [el]. *)
Definition hook_world (E : environment) (p : onion_poller) (tr : list event)
    (el : onion_poller_el) : world :=
  mk_world p
    (tr ++ [EvEpollCtl (p_fd p) Epoll.EPOLL_CTL_DEL (el_fd el) None]
        ++ (if os_epoll_ctl E tr Epoll.EPOLL_CTL_DEL (el_fd el) <? 0
            then [EvLog ERROR "Error remove descriptor to listen to. %s"]
            else [])
        ++ [EvShutdown (el_shutdown el) (el_shutdown_data el)]).

(** What the hook of [el] does there; a record without hook counts as one
    whose hook returns at once. *)
Definition hook_answer (E : environment) (p : onion_poller) (tr : list event)
    (el : onion_poller_el) : hook_result :=
  if el_shutdown el =? 0 then quiet_hook
  else call_shutdown E (el_shutdown el) (el_shutdown_data el)
                     (hook_world E p tr el).

(** The two lines [onion_poller_remove] logs before it unlinks a record. *)
Definition remove_logs (at_head : bool) : list event :=
  [EvLog DEBUG0 "Trying to remove fd %d (%d)";
   EvLog DEBUG0 (if at_head then "Removed from head %p"
                 else "Removed from tail %p")].

(** The poller as [onion_poller_remove] has it once [el] is unlinked: the
    poller mutex taken, [pre ++ post] left. *)
Definition unlinked (p : onion_poller) (pre post : list onion_poller_el)
    : onion_poller :=
  set_p_mutex true (set_p_head (pre ++ post) p).

(** What the hook of [el] does when [onion_poller_remove], started with
    poller [p] and trace [tr], removes [el] from between [pre] and [post]. *)
Definition remove_hook (E : environment) (p : onion_poller) (tr : list event)
    (pre : list onion_poller_el) (el : onion_poller_el)
    (post : list onion_poller_el) : hook_result :=
  hook_answer E (unlinked p pre post) (tr ++ remove_logs (is_nil pre)) el.

(** What [onion_poller_remove] adds to a trace [tr] when it finds the
    descriptor, at the head or further down, and the hook, if any,
    returns. *)
Definition remove_events (E : environment) (tr : list event) (epfd : Z)
    (at_head : bool) (el : onion_poller_el) : list event :=
  remove_logs at_head
  ++ free_element_events E (tr ++ remove_logs at_head) epfd el.

(** ** The tests of the poll loop *)

(** The world a thread finds when [epoll_wait] returns. *)
Definition after_wait (E : environment) (w : world) : world :=
  let tr := w_trace w ++ [EvEpollWait (p_fd (w_poller w)) MAX_EVENTS (-1)] in
  mk_world (others E tr (w_poller w)) tr.

Definition wait_failed (E : environment) (w : world) : bool :=
  match os_epoll_wait E (w_trace w) with None => true | Some _ => false end.

(** The stop flag is set, or the registry is empty. *)
Definition stop_or_empty (p : onion_poller) : bool :=
  negb (p_stop p =? 0) || is_nil (p_head p).

(** The tests that end the loop at a turn that starts in [w], as the code
    makes them: [p->stop] is set or [p->head] is NULL when the turn starts,
    or [epoll_wait] fails and then [p->fd < 0 || !p->head].  The field
    [p->fd] is what [epoll_create] returned; whether the handle is still
    open is not what [p->fd < 0] asks. *)
Definition loop_exits (E : environment) (w : world) : bool :=
  stop_or_empty (w_poller w)
  || (wait_failed E w
      && ((p_fd (w_poller (after_wait E w)) <? 0)
          || is_nil (p_head (w_poller (after_wait E w))))).

(** The poller as the thread last saw it before leaving the loop. *)
Definition poller_at_exit (E : environment) (w : world) : onion_poller :=
  if stop_or_empty (w_poller w) then w_poller w
  else w_poller (after_wait E w).

(** ** Sequences of registry calls *)

Inductive api_call : Type :=
| Add (fd f data : Z)
| Go (fd : Z)
| Remove (fd : Z).

Definition run_call (E : environment) (c : api_call) : M Z :=
  match c with
  | Add fd f data => onion_poller_add E fd f data
  | Go fd => onion_poller_go E fd
  | Remove fd => onion_poller_remove E fd
  end.

(** The world after a sequence of calls (a call that does not return leaves
    the world in which it stopped). *)
Fixpoint run_calls (E : environment) (cs : list api_call) (w : world) : world :=
  match cs with
  | [] => w
  | c :: cs' => run_calls E cs' (world_of (run_call E c w))
  end.

(** No [Add] of the sequence names a descriptor that is in the registry at
    the time of the call. *)
Fixpoint adds_are_fresh (E : environment) (cs : list api_call) (w : world)
    : Prop :=
  match cs with
  | [] => True
  | c :: cs' =>
      match c with
      | Add fd _ _ => ~ In fd (fds (w_poller w))
      | _ => True
      end /\ adds_are_fresh E cs' (world_of (run_call E c w))
  end.

(** [m] cannot take the poller out of [P], however it ends. *)
Definition keeps (P : onion_poller -> Prop) {A : Type} (m : M A) : Prop :=
  forall w, P (w_poller w) -> P (w_poller (world_of (m w))).

(** The registry lists the descriptors [L]. *)
Definition lists (L : list Z) (p : onion_poller) : Prop := fds p = L.

(** A quiet environment: [malloc] hands out fresh addresses, every [epoll]
    call succeeds, [epoll_wait] reports nothing but an error, callbacks
    return 0 and touch nothing, shutdown hooks return and touch nothing, no
    other thread runs. *)
Definition quiet_env : environment :=
  mk_env (fun tr => 4096 + Z.of_nat (List.length tr))
         (fun _ => 3)
         (fun _ _ _ => 0)
         (fun _ => None)
         (fun _ _ w => (0, w))
         (fun _ _ _ => quiet_hook)
         (fun _ p => p).

(** The poller [onion_poller_new] returns when [epoll_create] answers 3,
    with a trace that starts after its creation. *)
Definition fresh_world : world := mk_world (mk_poller 3 0 0 false 0 []) [].

(** Two entries, descriptors 5 and 6, each with a shutdown hook. *)
Definition el5 : onion_poller_el := mk_el 4097 5 77 88 11 12 (-1) (-1) false 0.
Definition el6 : onion_poller_el := mk_el 4099 6 78 89 21 22 (-1) (-1) false 0.
Definition two_entries : world :=
  mk_world (mk_poller 3 0 2 false 0 [el5; el6]) [].

(** Descriptor 6 with a timeout of 1000 ms of which 250 are left. *)
Definition el6_late : onion_poller_el :=
  mk_el 4099 6 78 89 21 22 250 1000 false 1.
Definition late_world : world :=
  mk_world (mk_poller 3 0 2 false 1 [el5; el6_late]) [].

(** [two_entries] with one poll thread counted in and the stop flag set. *)
Definition stopped_world : world :=
  mk_world (mk_poller 3 1 2 false 1 [el5; el6]) [].

Definition is_shutdown (e : event) : bool :=
  match e with EvShutdown _ _ => true | _ => false end.

Definition is_free (e : event) : bool :=
  match e with EvFree _ => true | _ => false end.

Definition is_rearm (e : event) : bool :=
  match e with
  | EvEpollCtl _ op _ _ => op =? Epoll.EPOLL_CTL_MOD
  | _ => false
  end.

Definition is_callback (e : event) : bool :=
  match e with EvCallback _ _ => true | _ => false end.

(** The record at 4097 becomes ready once: [epoll_wait] reports it until a
    callback has run and fails afterwards; every callback returns [r]. *)
Definition once_ready_env (r : Z) : environment :=
  mk_env (os_malloc quiet_env) (os_epoll_create quiet_env)
         (os_epoll_ctl quiet_env)
         (fun tr => if existsb is_callback tr then None else Some [4097])
         (fun _ _ w => (r, w))
         (call_shutdown quiet_env)
         (others quiet_env).

(** Add descriptor 5, give it a shutdown hook and a timeout, activate it. *)
Definition setup_fd5 (E : environment) : M Z :=
  (onion_poller_add E 5 77 88 ;;
   onion_poller_set_shutdown 5 11 12 ;;
   onion_poller_set_timeout 5 1000 ;;
   onion_poller_go E 5)%poller.

(** An environment in which, while this thread sleeps in [epoll_wait],
    another one removes every entry, and the wait then fails. *)
Definition emptying_env : environment :=
  mk_env (os_malloc quiet_env) (os_epoll_create quiet_env)
         (os_epoll_ctl quiet_env) (fun _ => None) (call_f quiet_env)
         (call_shutdown quiet_env)
         (fun _ p => set_p_n 0 (set_p_head [] p)).

(** An environment whose callbacks all ask for removal: they return -1. *)
Definition closing_env : environment :=
  mk_env (os_malloc quiet_env) (os_epoll_create quiet_env)
         (os_epoll_ctl quiet_env) (os_epoll_wait quiet_env)
         (fun _ _ w => (-1, w)) (call_shutdown quiet_env) (others quiet_env).

(** An environment in which every [epoll_ctl] fails. *)
Definition failing_ctl_env : environment :=
  mk_env (os_malloc quiet_env) (os_epoll_create quiet_env)
         (fun _ _ _ => -1)
         (os_epoll_wait quiet_env) (call_f quiet_env)
         (call_shutdown quiet_env) (others quiet_env).



(** The world in which a thread sits once it is stuck on an entry's mutex
    inside [onion_poller_find_fd_and_lock]: it holds the poller mutex. *)
Definition holding_poller_mutex (w : world) : world :=
  mk_world (set_p_mutex true (w_poller w)) (w_trace w).

(** ** Further vocabulary *)

(** An environment whose [malloc] has nothing left. *)
Definition null_malloc_env : environment :=
  mk_env (fun _ => 0) (os_epoll_create quiet_env) (os_epoll_ctl quiet_env)
         (os_epoll_wait quiet_env) (call_f quiet_env)
         (call_shutdown quiet_env) (others quiet_env).

(** The record [onion_poller_add] builds at address [a]. *)
Definition new_el (a fd f data : Z) : onion_poller_el :=
  mk_el a fd f data 0 0 (-1) (-1) false 0.

(** The address [malloc] gives to an [onion_poller_add] started in [w]. *)
Definition add_address (E : environment) (w : world) : Z :=
  os_malloc E (w_trace w ++ [EvLog DEBUG0 "Adding fd %d for polling (%d)"]).

(** [n] counts the records of the registry. *)
Definition count_ok (p : onion_poller) : Prop :=
  p_n p = Z.of_nat (List.length (p_head p)).

(** No record has used up any of its timeout. *)
Definition timeouts_untouched (p : onion_poller) : Prop :=
  Forall (fun e => el_delta_timeout e = el_timeout e) (p_head p).

(** The five calls that work on the registry. *)
Inductive registry_call : Type :=
| CallAdd (fd f data : Z)
| CallGo (fd : Z)
| CallSetShutdown (fd f data : Z)
| CallSetTimeout (fd timeout : Z)
| CallRemove (fd : Z).

Definition run_registry_call (E : environment) (c : registry_call) : M Z :=
  match c with
  | CallAdd fd f data => onion_poller_add E fd f data
  | CallGo fd => onion_poller_go E fd
  | CallSetShutdown fd f data => onion_poller_set_shutdown fd f data
  | CallSetTimeout fd timeout => onion_poller_set_timeout fd timeout
  | CallRemove fd => onion_poller_remove E fd
  end.

(** What the walk of [onion_poller_free] does for one record. *)
Definition free_chain_events (e : onion_poller_el) : list event :=
  (if el_shutdown e =? 0 then []
   else [EvShutdown (el_shutdown e) (el_shutdown_data e)])
  ++ [EvFree (el_addr e)].

(** Every hook of the records of [l] returns, wherever it is called. *)
Definition hooks_return (E : environment) (l : list onion_poller_el) : Prop :=
  forall e w, In e l -> el_shutdown e <> 0 ->
    hook_returns (call_shutdown E (el_shutdown e) (el_shutdown_data e) w) = true.

(** No hook of the records of [l] writes [stop]. *)
Definition hooks_leave_stop (E : environment) (l : list onion_poller_el)
    : Prop :=
  forall e w, In e l -> el_shutdown e <> 0 ->
    hook_stop (call_shutdown E (el_shutdown e) (el_shutdown_data e) w) = None.

(** [p'] is [p] up to the stop flag. *)
Definition same_but_stop (p p' : onion_poller) : Prop :=
  p' = set_p_stop (p_stop p') p.

Definition is_usleep (e : event) : bool :=
  match e with EvUsleep _ => true | _ => false end.

(** [k] turns of the poll loop in each of which [epoll_wait] fails and the
    loop goes on. *)
Definition failed_waits (epfd : Z) (k : nat) : list event :=
  List.concat (repeat [EvEpollWait epfd MAX_EVENTS (-1);
                       EvLog DEBUG "Some error happened"] k).

(** [two_entries] with a poll thread counted in, after another thread has
    closed the epoll handle the way [onion_poller_free] does. *)
Definition closed_handle_world : world :=
  mk_world (mk_poller 3 0 2 false 1 [el5; el6])
    [EvLog DEBUG "Free onion poller"; EvClose 3].

(** [k] rounds of the wait in [onion_poller_free]. *)
Definition wait_rounds (k : nat) : list event :=
  List.concat (repeat [EvLog DEBUG "Waiting for %d epollers (%d)";
                       EvUsleep 100000] k).

(** [two_entries] after an [onion_poller_go] on 6 whose registration
    failed: the record is active and still locked. *)
Definition el6_stuck : onion_poller_el :=
  mk_el 4099 6 78 89 21 22 (-1) (-1) true 1.
Definition stuck_world : world :=
  mk_world (mk_poller 3 0 2 false 0 [el5; el6_stuck]) [].

(** [two_entries] while another thread holds the poller mutex. *)
Definition contended_world : world :=
  mk_world (mk_poller 3 0 2 true 0 [el5; el6]) [].

(** [two_entries] with the trace of the two additions behind it. *)
Definition two_entries_traced : world :=
  mk_world (w_poller two_entries)
    [EvLog DEBUG0 "Adding fd %d for polling (%d)"; EvMalloc 4097;
     EvLog DEBUG0 "Adding fd %d for polling (%d)"; EvMalloc 4099].

(** [p] has the records of [p0], in the same order, each at its address
    with its descriptor, callback and data, and the same [fd], [stop], [n]
    and [npollers]; the other fields of the records and the poller mutex
    may differ. *)
Definition same_entries (p0 p : onion_poller) : Prop :=
  map el_addr (p_head p) = map el_addr (p_head p0) /\
  map el_fd (p_head p) = map el_fd (p_head p0) /\
  map el_f (p_head p) = map el_f (p_head p0) /\
  map el_data (p_head p) = map el_data (p_head p0) /\
  p_fd p = p_fd p0 /\ p_stop p = p_stop p0 /\
  p_n p = p_n p0 /\ p_npollers p = p_npollers p0.

(** An update of a record that leaves its identity alone. *)
Definition keeps_identity (g : onion_poller_el -> onion_poller_el) : Prop :=
  forall e,
    el_addr (g e) = el_addr e /\ el_fd (g e) = el_fd e /\
    el_f (g e) = el_f e /\ el_data (g e) = el_data e.

(** An update of a record that leaves [delta_timeout == timeout] true. *)
Definition keeps_in_step (g : onion_poller_el -> onion_poller_el) : Prop :=
  forall e, el_delta_timeout e = el_timeout e ->
            el_delta_timeout (g e) = el_timeout (g e).

(** The world [onion_poller_free] is in when its wait for the poll threads
    is over: [stop] set, the handle closed, at most ten sleeps behind it. *)
Definition after_free_wait (E : environment) (w : world) : world :=
  world_of
    (wait_pollers E 10
       (mk_world (set_p_stop 1 (w_poller w))
          (w_trace w ++ [EvLog DEBUG "Free onion poller";
                         EvClose (p_fd (w_poller w))]))).

(** Descriptor 5 alone, one poll thread counted in. *)
Definition one_entry : world :=
  mk_world (mk_poller 3 0 1 false 1 [el5]) [].

(** * Facts about the embedding *)

(** ** Running the monad on a symbolic world *)

Ltac run :=
  cbn [bind ret when get_poller modify_poller emit ONION_LOG fail_with block
       pthread_mutex_lock_poller pthread_mutex_unlock_poller
       pthread_mutex_trylock_poller
       w_poller w_trace p_fd p_stop p_n p_mutex p_npollers p_head
       set_p_stop set_p_n set_p_mutex set_p_npollers set_p_head
       negb orb andb world_of].

(** Setters and projections on an explicit poller, wherever they stand. *)
Ltac norm_poller :=
  cbv [set_p_stop set_p_n set_p_mutex set_p_npollers set_p_head
       p_fd p_stop p_n p_mutex p_npollers p_head w_poller w_trace].

Arguments onion_poller_set_shutdown fd f data w : simpl never.
Arguments onion_poller_set_timeout fd timeout w : simpl never.

(** ** Arithmetic on [int] *)

Lemma int_wrap_in_range (x : Z) :
  INT_MIN <= x <= INT_MAX -> int_wrap x = x.
Proof.
  unfold INT_MIN, INT_MAX, int_wrap. intros H.
  rewrite Z.mod_small by lia. lia.
Qed.

Lemma oneshot_read_hup_bits :
  Z.testbit Epoll.oneshot_read_hup 0 = true /\
  Z.testbit Epoll.oneshot_read_hup 4 = true /\
  Z.testbit Epoll.oneshot_read_hup 30 = true /\
  Epoll.oneshot_read_hup = 1 + 16 + 2 ^ 30.
Proof. repeat split. Qed.

(** ** The registry as a list *)

Lemma find_fd_absent (fd : Z) (l : list onion_poller_el) :
  ~ In fd (map el_fd l) -> find_fd fd l = 0.
Proof.
  induction l as [|e l IH]; simpl; intros H; [reflexivity|].
  destruct (Z.eqb_spec (el_fd e) fd) as [Heq|Hne].
  - exfalso. apply H. now left.
  - apply IH. intros Hin. apply H. now right.
Qed.

Lemma find_fd_first (fd : Z) (pre : list onion_poller_el) el post :
  Forall (fun e => el_fd e <> fd) pre -> el_fd el = fd ->
  find_fd fd (pre ++ el :: post) = el_addr el.
Proof.
  intros Hpre Hfd. induction Hpre as [|e pre Hne _ IH]; simpl.
  - now rewrite (proj2 (Z.eqb_eq _ _) Hfd).
  - now rewrite (proj2 (Z.eqb_neq _ _) Hne).
Qed.

Lemma find_fd_present (fd : Z) (l : list onion_poller_el) :
  In fd (map el_fd l) ->
  exists pre el post,
    l = pre ++ el :: post /\ el_fd el = fd /\
    Forall (fun e => el_fd e <> fd) pre.
Proof.
  induction l as [|e l IH]; simpl; intros H; [contradiction|].
  destruct (Z.eq_dec (el_fd e) fd) as [Heq|Hne].
  - exists [], e, l. repeat split; [assumption|constructor].
  - destruct H as [H|H]; [contradiction|].
    destruct (IH H) as (pre & el & post & -> & Hfd & Hpre).
    exists (e :: pre), el, post. repeat split; [assumption|].
    now constructor.
Qed.

Lemma el_at_first (pre : list onion_poller_el) el post :
  ~ In (el_addr el) (map el_addr pre) ->
  el_at (el_addr el) (pre ++ el :: post) = Some el.
Proof.
  induction pre as [|e pre IH]; simpl; intros H.
  - now rewrite Z.eqb_refl.
  - destruct (Z.eqb_spec (el_addr e) (el_addr el)) as [Heq|Hne].
    + exfalso. apply H. now left.
    + apply IH. intros Hin. apply H. now right.
Qed.

Lemma update_el_other (a : Z) g (l : list onion_poller_el) :
  ~ In a (map el_addr l) -> update_el a g l = l.
Proof.
  induction l as [|e l IH]; simpl; intros H; [reflexivity|].
  destruct (Z.eqb_spec (el_addr e) a) as [Heq|Hne].
  - exfalso. apply H. now left.
  - f_equal. apply IH. intros Hin. apply H. now right.
Qed.

Lemma update_el_app (a : Z) g (l1 l2 : list onion_poller_el) :
  update_el a g (l1 ++ l2) = update_el a g l1 ++ update_el a g l2.
Proof. unfold update_el. apply map_app. Qed.

Lemma wf_registry_split (pre : list onion_poller_el) el post :
  wf_registry (pre ++ el :: post) ->
  el_addr el <> 0 /\
  ~ In (el_addr el) (map el_addr pre) /\
  ~ In (el_addr el) (map el_addr post).
Proof.
  intros [Hnd H0]. rewrite map_app in Hnd, H0. simpl in Hnd, H0.
  apply NoDup_remove_2 in Hnd.
  repeat split.
  - intros Heq. apply H0. apply in_or_app. right. left. exact Heq.
  - intros Hin. apply Hnd. apply in_or_app. now left.
  - intros Hin. apply Hnd. apply in_or_app. now right.
Qed.

Lemma update_el_first (g : onion_poller_el -> onion_poller_el)
    (pre : list onion_poller_el) el post :
  wf_registry (pre ++ el :: post) ->
  update_el (el_addr el) g (pre ++ el :: post) = pre ++ g el :: post.
Proof.
  intros Hwf. destruct (wf_registry_split _ _ _ Hwf) as (_ & Hpre & Hpost).
  rewrite update_el_app. simpl. rewrite Z.eqb_refl.
  now rewrite !update_el_other.
Qed.

Lemma link_last_app next rest nel :
  link_last next rest nel = (next :: rest) ++ [nel].
Proof.
  revert next. induction rest as [|e rest IH]; intros next; simpl.
  - reflexivity.
  - now rewrite IH.
Qed.

Lemma bind_run {A B : Type} (m : M A) (k : A -> M B) (w : world) :
  bind m k w =
  match m w with
  | Done a w' => k a w'
  | Fault why w' => Fault why w'
  | Blocked w' => Blocked w'
  | OutOfFuel w' => OutOfFuel w'
  end.
Proof. reflexivity. Qed.

(** ** Shutdown hooks *)

Lemma hook_writes_n hr p : p_n (hook_writes hr p) = p_n p.
Proof. unfold hook_writes. now destruct (hook_stop hr). Qed.

Lemma call_hook_run (E : environment) (f data : Z) (p : onion_poller) tr :
  call_hook E f data (mk_world p tr) =
  let w := mk_world p (tr ++ [EvShutdown f data]) in
  if hook_returns (call_shutdown E f data w)
  then Done tt (after_hook (call_shutdown E f data w) w)
  else Blocked (after_hook (call_shutdown E f data w) w).
Proof. reflexivity. Qed.

Section RemoveFacts.

Variable E : environment.

(** [onion_poller_free_element] on a record nobody holds: what it comes to
    depends on the hook alone. *)
Lemma free_element_unlocked (el : onion_poller_el) (p : onion_poller) tr :
  el_mutex el = false ->
  onion_poller_free_element E el (mk_world p tr) =
  if hook_returns (hook_answer E p tr el) then
    Done tt (mk_world (set_p_n (int_wrap (p_n p - 1))
                         (hook_writes (hook_answer E p tr el) p))
                      (tr ++ free_element_events E tr (p_fd p) el))
  else Blocked (after_hook (hook_answer E p tr el) (hook_world E p tr el)).
Proof.
  intros Hm.
  unfold onion_poller_free_element, free_element_events, epoll_ctl,
    hook_answer, hook_world.
  rewrite Hm. run.
  destruct (os_epoll_ctl E tr Epoll.EPOLL_CTL_DEL (el_fd el) <? 0);
    destruct (el_shutdown el =? 0); run;
    try (repeat rewrite <- app_assoc; reflexivity);
    rewrite bind_run, call_hook_run; cbv zeta;
    repeat (rewrite <- ?app_assoc; cbn [app]);
    match goal with
    | |- context [hook_returns ?h] => destruct (hook_returns h)
    end;
    try reflexivity;
    unfold after_hook, modify_poller; run; rewrite hook_writes_n;
    repeat (rewrite <- ?app_assoc; cbn [app]); reflexivity.
Qed.

Lemma free_element_locked (el : onion_poller_el) (w : world) :
  el_mutex el = true ->
  onion_poller_free_element E el w = Blocked w.
Proof.
  intros Hm. unfold onion_poller_free_element. now rewrite Hm.
Qed.

Lemma remove_next_found (fd : Z) pre el post :
  Forall (fun e => el_fd e <> fd) pre -> el_fd el = fd ->
  el_mutex el = false ->
  forall before p tr,
    remove_next E fd before (pre ++ el :: post) (mk_world p tr) =
    let tr' := tr ++ [EvLog DEBUG0 "Removed from tail %p"] in
    let p' := set_p_head (before ++ pre ++ post) p in
    if hook_returns (hook_answer E p' tr' el) then
      Done 0 (mk_world
                (set_p_mutex false
                   (set_p_n (int_wrap (p_n p - 1))
                      (hook_writes (hook_answer E p' tr' el) p')))
                (tr' ++ free_element_events E tr' (p_fd p) el))
    else Blocked (after_hook (hook_answer E p' tr' el) (hook_world E p' tr' el)).
Proof.
  intros Hpre Hfd Hm. induction Hpre as [|e pre Hne _ IH]; intros before p tr.
  - cbn [app remove_next]. rewrite (proj2 (Z.eqb_eq _ _) Hfd). run.
    rewrite bind_run, free_element_unlocked by assumption. cbv zeta.
    destruct (hook_returns _); reflexivity.
  - cbn [app remove_next]. rewrite (proj2 (Z.eqb_neq _ _) Hne).
    rewrite IH. now rewrite <- app_assoc.
Qed.

Lemma remove_next_absent (fd : Z) next :
  ~ In fd (map el_fd next) ->
  forall before p tr,
    remove_next E fd before next (mk_world p tr) =
    Done 0 (mk_world (set_p_mutex false p)
              (tr ++ [EvLog WARNING "Trying to remove unknown fd from poller %d"])).
Proof.
  induction next as [|t rest IH]; intros Hin before p tr.
  - reflexivity.
  - simpl. destruct (Z.eqb_spec (el_fd t) fd) as [Heq|Hne].
    + exfalso. apply Hin. now left.
    + apply IH. intros H. apply Hin. now right.
Qed.

End RemoveFacts.

(** ** [onion_poller_remove] *)

Lemma remove_absent_nonempty (E : environment) (fd : Z) (p : onion_poller) tr :
  p_mutex p = false -> p_head p <> [] -> ~ In fd (fds p) ->
  onion_poller_remove E fd (mk_world p tr) =
  Done 0 (mk_world p
            (tr ++ [EvLog DEBUG0 "Trying to remove fd %d (%d)";
                    EvLog WARNING "Trying to remove unknown fd from poller %d"])).
Proof.
  destruct p as [epfd stop n mx np head]. unfold fds. cbn.
  intros -> Hne Hin. unfold onion_poller_remove. run.
  destruct head as [|el rest]; [congruence|].
  simpl in Hin.
  destruct (Z.eqb_spec (el_fd el) fd) as [Heq|Hneq].
  - exfalso. apply Hin. now left.
  - rewrite remove_next_absent by (intros H; apply Hin; now right).
    cbn. now rewrite <- app_assoc.
Qed.

Lemma remove_present (E : environment) (p : onion_poller) tr pre el post :
  p_mutex p = false ->
  p_head p = pre ++ el :: post ->
  Forall (fun e => el_fd e <> el_fd el) pre ->
  el_mutex el = false ->
  onion_poller_remove E (el_fd el) (mk_world p tr) =
  if hook_returns (remove_hook E p tr pre el post) then
    Done 0
      (mk_world (set_p_n (int_wrap (p_n p - 1))
                   (set_p_head (pre ++ post)
                      (hook_writes (remove_hook E p tr pre el post) p)))
                (tr ++ remove_events E tr (p_fd p) (is_nil pre) el))
  else
    Blocked (after_hook (remove_hook E p tr pre el post)
               (hook_world E (unlinked p pre post)
                  (tr ++ remove_logs (is_nil pre)) el)).
Proof.
  destruct p as [epfd stop n mx np head]. cbn [p_mutex p_head].
  intros -> -> Hpre Hm.
  unfold onion_poller_remove, remove_events, remove_hook, remove_logs, unlinked.
  run.
  destruct pre as [|e0 pre].
  - cbn [app is_nil]. rewrite Z.eqb_refl. run.
    rewrite bind_run, free_element_unlocked by assumption. run.
    rewrite <- !app_assoc. cbn [app]. norm_poller.
    match goal with
    | |- context [hook_returns ?h] =>
        set (hr := h); destruct (hook_returns hr)
    end; [|reflexivity].
    run. unfold hook_writes. destruct (hook_stop hr); reflexivity.
  - inversion Hpre as [|? ? Hne Hpre']; subst.
    cbn [app is_nil]. rewrite (proj2 (Z.eqb_neq _ _) Hne).
    rewrite (remove_next_found E (el_fd el) pre el post Hpre' eq_refl Hm).
    cbv zeta. run. rewrite <- !app_assoc. cbn [app]. norm_poller.
    match goal with
    | |- context [hook_returns ?h] =>
        set (hr := h); destruct (hook_returns hr)
    end; [|reflexivity].
    unfold hook_writes. destruct (hook_stop hr); reflexivity.
Qed.

(** A removal waits for the record's mutex like everybody else: after the
    failed registration of C10 it stops too, the record already unlinked and
    the poller mutex held. *)
Lemma remove_next_held (E : environment) (fd : Z) pre el post :
  Forall (fun e => el_fd e <> fd) pre -> el_fd el = fd ->
  el_mutex el = true ->
  forall before p tr,
    remove_next E fd before (pre ++ el :: post) (mk_world p tr) =
    Blocked (mk_world (set_p_head (before ++ pre ++ post) p)
                      (tr ++ [EvLog DEBUG0 "Removed from tail %p"])).
Proof.
  intros Hpre Hfd Hm. induction Hpre as [|e pre Hne _ IH]; intros before p tr.
  - cbn [app remove_next]. rewrite (proj2 (Z.eqb_eq _ _) Hfd). run.
    now rewrite bind_run, free_element_locked by assumption.
  - cbn [app remove_next]. rewrite (proj2 (Z.eqb_neq _ _) Hne).
    rewrite IH. now rewrite <- app_assoc.
Qed.

Lemma remove_present_held (E : environment) (p : onion_poller) tr pre el post :
  p_mutex p = false ->
  p_head p = pre ++ el :: post ->
  Forall (fun e => el_fd e <> el_fd el) pre ->
  el_mutex el = true ->
  onion_poller_remove E (el_fd el) (mk_world p tr) =
  Blocked
    (mk_world (set_p_mutex true (set_p_head (pre ++ post) p))
       (tr ++ [EvLog DEBUG0 "Trying to remove fd %d (%d)";
               EvLog DEBUG0 (if is_nil pre then "Removed from head %p"
                             else "Removed from tail %p")])).
Proof.
  destruct p as [epfd stop n mx np head]. cbn.
  intros -> -> Hpre Hm. unfold onion_poller_remove. run.
  destruct pre as [|e0 pre].
  - cbn [app is_nil]. rewrite Z.eqb_refl. run.
    rewrite bind_run, free_element_locked by assumption.
    now rewrite <- app_assoc.
  - inversion Hpre as [|? ? Hne Hpre']; subst.
    cbn [app is_nil]. rewrite (proj2 (Z.eqb_neq _ _) Hne).
    rewrite (remove_next_held E (el_fd el) pre el post Hpre' eq_refl Hm).
    cbn. now rewrite <- app_assoc.
Qed.

(** The removal of a record nobody holds, written out. *)
Lemma remove_present_written_out (E : environment) (p : onion_poller) tr
    pre el post :
  p_mutex p = false ->
  p_head p = pre ++ el :: post ->
  Forall (fun e => el_fd e <> el_fd el) pre ->
  el_mutex el = false ->
  let tr1 := tr ++ remove_logs (is_nil pre) in
  let del := [EvEpollCtl (p_fd p) Epoll.EPOLL_CTL_DEL (el_fd el) None]
             ++ (if os_epoll_ctl E tr1 Epoll.EPOLL_CTL_DEL (el_fd el) <? 0
                 then [EvLog ERROR "Error remove descriptor to listen to. %s"]
                 else []) in
  let hook := EvShutdown (el_shutdown el) (el_shutdown_data el) in
  let hr := call_shutdown E (el_shutdown el) (el_shutdown_data el)
              (mk_world (unlinked p pre post) (tr1 ++ del ++ [hook])) in
  onion_poller_remove E (el_fd el) (mk_world p tr) =
    if el_shutdown el =? 0 then
      Done 0 (mk_world (set_p_n (int_wrap (p_n p - 1))
                          (set_p_head (pre ++ post) p))
                       (tr1 ++ del ++ [EvFree (el_addr el)]))
    else if hook_returns hr then
      Done 0 (mk_world (set_p_n (int_wrap (p_n p - 1))
                          (set_p_head (pre ++ post) (hook_writes hr p)))
                       (tr1 ++ del ++ [hook; EvFree (el_addr el)]))
    else Blocked (mk_world (hook_writes hr (unlinked p pre post))
                           (tr1 ++ del ++ [hook])).
Proof.
  intros Hpm Hh Hpre Hm. cbv zeta.
  rewrite (remove_present E p tr pre el post) by assumption.
  unfold remove_hook, hook_answer, hook_world, remove_events,
    free_element_events, after_hook.
  cbn [w_poller w_trace].
  replace (p_fd (unlinked p pre post)) with (p_fd p) by reflexivity.
  destruct (el_shutdown el =? 0) eqn:Hs.
  - cbn [hook_returns quiet_hook]. unfold hook_writes.
    cbn [hook_stop quiet_hook]. cbn [app].
    now rewrite <- ?app_assoc.
  - repeat (rewrite <- ?app_assoc; cbn [app]).
    match goal with
    | |- context [hook_returns ?h] => destruct (hook_returns h)
    end; reflexivity.
Qed.



(** C3.  The second [remove(d)] of the claim, on a registry the first one has
    emptied, does not come back with a no-op: with [head == NULL] the test
    [el && el->fd==fd] fails and [while (el->next)] reads through NULL, the
    poller mutex still held.  The same on any empty registry.  (The first
    [remove(d)] returns when the shutdown hook of the record, if it has one,
    returns; it stops inside the hook otherwise.) *)
Theorem remove_absent_on_empty_registry_faults
    (E : environment) (epfd stop n np : Z) (tr : list event) (fd : Z) :
  onion_poller_remove E fd (mk_world (mk_poller epfd stop n false np []) tr) =
    Fault NullPointer
      (mk_world (mk_poller epfd stop n true np [])
                (tr ++ [EvLog DEBUG0 "Trying to remove fd %d (%d)"])) /\
  forall a f data sh shd dt t act,
    let el := mk_el a fd f data sh shd dt t false act in
    let p := mk_poller epfd stop n false np [el] in
    if hook_returns (remove_hook E p tr [] el []) then
      exists w1 w2,
        onion_poller_remove E fd (mk_world p tr) = Done 0 w1 /\
        p_head (w_poller w1) = [] /\
        onion_poller_remove E fd w1 = Fault NullPointer w2
    else
      exists w1, onion_poller_remove E fd (mk_world p tr) = Blocked w1.
Proof.
  split; [reflexivity|].
  intros a f data sh shd dt t act el p.
  change fd with (el_fd el) at 1 3.
  rewrite (remove_present E p tr [] el []);
    [| reflexivity | reflexivity | constructor | reflexivity].
  destruct (hook_returns (remove_hook E p tr [] el [])).
  - unfold hook_writes. destruct (hook_stop (remove_hook E p tr [] el []));
      (eexists; eexists; split; [reflexivity|]; split; reflexivity).
  - eexists. reflexivity.
Qed.

(** ** Lookup *)

Lemma find_fd_and_lock_absent (fd : Z) (p : onion_poller) tr :
  p_mutex p = false -> ~ In fd (fds p) ->
  onion_poller_find_fd_and_lock fd (mk_world p tr) = Done 0 (mk_world p tr).
Proof.
  destruct p as [epfd stop n mx np head]. unfold fds. cbn.
  intros -> Hin. unfold onion_poller_find_fd_and_lock. run.
  rewrite (find_fd_absent fd head Hin). reflexivity.
Qed.

Lemma set_timeout_absent (fd timeout : Z) (p : onion_poller) tr :
  p_mutex p = false -> ~ In fd (fds p) ->
  onion_poller_set_timeout fd timeout (mk_world p tr) =
  Fault NullPointer (mk_world p tr).
Proof.
  intros Hm Hin. unfold onion_poller_set_timeout.
  rewrite bind_run, find_fd_and_lock_absent by assumption. reflexivity.
Qed.

Lemma set_shutdown_absent (fd f data : Z) (p : onion_poller) tr :
  p_mutex p = false -> ~ In fd (fds p) ->
  onion_poller_set_shutdown fd f data (mk_world p tr) =
  Fault NullPointer
    (mk_world p (tr ++ [EvLog DEBUG0 "Added shutdown callback for fd %d"])).
Proof.
  intros Hm Hin. unfold onion_poller_set_shutdown.
  rewrite bind_run, find_fd_and_lock_absent by assumption. reflexivity.
Qed.

(** C1.  On a descriptor that is not in the registry neither function
    returns 0: the guard tests [poller], not [el], so both go on to write
    through the NULL that the lookup returned.  Shown on the empty registry
    (any descriptor) and on the registry holding 5 and 6 (descriptor 7). *)
Theorem set_shutdown_set_timeout_unknown_fd_fault
    (epfd stop n np : Z) (tr : list event) (fd f data timeout : Z) :
  let w := mk_world (mk_poller epfd stop n false np []) tr in
  onion_poller_set_timeout fd timeout w = Fault NullPointer w /\
  onion_poller_set_shutdown fd f data w =
    Fault NullPointer
      (mk_world (w_poller w)
         (tr ++ [EvLog DEBUG0 "Added shutdown callback for fd %d"])) /\
  onion_poller_set_timeout 7 timeout two_entries =
    Fault NullPointer two_entries /\
  onion_poller_set_shutdown 7 f data two_entries =
    Fault NullPointer
      (mk_world (w_poller two_entries)
         [EvLog DEBUG0 "Added shutdown callback for fd %d"]).
Proof.
  assert (H7 : ~ In 7 (fds (w_poller two_entries))).
  { cbn. intros [H|[H|[]]]; discriminate. }
  cbn zeta. split; [|split; [|split]].
  - apply set_timeout_absent; [reflexivity | intros []].
  - apply set_shutdown_absent; [reflexivity | intros []].
  - apply (set_timeout_absent 7 timeout _ []); [reflexivity | exact H7].
  - apply (set_shutdown_absent 7 f data _ []); [reflexivity | exact H7].
Qed.

(** ** Reading and writing a record of the registry *)

Lemma wf_registry_replace (pre : list onion_poller_el) el el' post :
  wf_registry (pre ++ el :: post) -> el_addr el' = el_addr el ->
  wf_registry (pre ++ el' :: post).
Proof.
  unfold wf_registry. rewrite !map_app. simpl. now intros H ->.
Qed.

Lemma load_first (p : onion_poller) tr pre el post :
  wf_registry (pre ++ el :: post) -> p_head p = pre ++ el :: post ->
  load (el_addr el) (mk_world p tr) = Done el (mk_world p tr).
Proof.
  intros Hwf Hh. destruct (wf_registry_split _ _ _ Hwf) as (H0 & Hpre & _).
  unfold load. rewrite (proj2 (Z.eqb_neq _ _) H0). run.
  rewrite Hh, el_at_first by assumption. reflexivity.
Qed.

Lemma store_first (g : onion_poller_el -> onion_poller_el)
    (p : onion_poller) tr pre el post :
  wf_registry (pre ++ el :: post) -> p_head p = pre ++ el :: post ->
  store (el_addr el) g (mk_world p tr) =
  Done tt (mk_world (set_p_head (pre ++ g el :: post) p) tr).
Proof.
  intros Hwf Hh. unfold store.
  rewrite bind_run, (load_first p tr pre el post Hwf Hh).
  unfold modify_poller. cbn [w_poller w_trace].
  now rewrite Hh, update_el_first.
Qed.

Lemma lock_el_free (p : onion_poller) tr pre el post :
  wf_registry (pre ++ el :: post) -> p_head p = pre ++ el :: post ->
  el_mutex el = false ->
  pthread_mutex_lock_el (el_addr el) (mk_world p tr) =
  Done tt (mk_world (set_p_head (pre ++ set_el_mutex true el :: post) p) tr).
Proof.
  intros Hwf Hh Hm. unfold pthread_mutex_lock_el.
  rewrite bind_run, (load_first p tr pre el post Hwf Hh), Hm.
  now apply store_first.
Qed.

Lemma lock_el_held (p : onion_poller) tr pre el post :
  wf_registry (pre ++ el :: post) -> p_head p = pre ++ el :: post ->
  el_mutex el = true ->
  pthread_mutex_lock_el (el_addr el) (mk_world p tr) = Blocked (mk_world p tr).
Proof.
  intros Hwf Hh Hm. unfold pthread_mutex_lock_el.
  now rewrite bind_run, (load_first p tr pre el post Hwf Hh), Hm.
Qed.

Lemma unlock_el_first (p : onion_poller) tr pre el post :
  wf_registry (pre ++ el :: post) -> p_head p = pre ++ el :: post ->
  pthread_mutex_unlock_el (el_addr el) (mk_world p tr) =
  Done tt (mk_world (set_p_head (pre ++ set_el_mutex false el :: post) p) tr).
Proof. intros. now apply store_first. Qed.

Lemma find_fd_and_lock_free (fd : Z) (p : onion_poller) tr pre el post :
  p_mutex p = false ->
  wf_registry (pre ++ el :: post) -> p_head p = pre ++ el :: post ->
  Forall (fun e => el_fd e <> fd) pre -> el_fd el = fd ->
  el_mutex el = false ->
  onion_poller_find_fd_and_lock fd (mk_world p tr) =
  Done (el_addr el)
       (mk_world (set_p_head (pre ++ set_el_mutex true el :: post) p) tr).
Proof.
  intros Hpm Hwf Hh Hpre Hfd Hm.
  destruct (wf_registry_split _ _ _ Hwf) as (H0 & _ & _).
  destruct p as [epfd stop n mx np head]. cbn in Hpm, Hh. subst mx head.
  unfold onion_poller_find_fd_and_lock. run.
  rewrite (find_fd_first fd pre el post Hpre Hfd).
  rewrite (proj2 (Z.eqb_neq _ _) H0). run.
  rewrite bind_run, (lock_el_free _ tr pre el post Hwf) by (assumption || reflexivity).
  reflexivity.
Qed.

Lemma find_fd_and_lock_held (fd : Z) (p : onion_poller) tr pre el post :
  p_mutex p = false ->
  wf_registry (pre ++ el :: post) -> p_head p = pre ++ el :: post ->
  Forall (fun e => el_fd e <> fd) pre -> el_fd el = fd ->
  el_mutex el = true ->
  onion_poller_find_fd_and_lock fd (mk_world p tr) =
  Blocked (mk_world (set_p_mutex true p) tr).
Proof.
  intros Hpm Hwf Hh Hpre Hfd Hm.
  destruct (wf_registry_split _ _ _ Hwf) as (H0 & _ & _).
  destruct p as [epfd stop n mx np head]. cbn in Hpm, Hh. subst mx head.
  unfold onion_poller_find_fd_and_lock. run.
  rewrite (find_fd_first fd pre el post Hpre Hfd).
  rewrite (proj2 (Z.eqb_neq _ _) H0). run.
  rewrite bind_run, (lock_el_held _ tr pre el post Hwf) by (assumption || reflexivity).
  reflexivity.
Qed.

Lemma find_fd_and_lock_poller_held (fd : Z) (w : world) :
  p_mutex (w_poller w) = true ->
  onion_poller_find_fd_and_lock fd w = Blocked w.
Proof.
  intros H. unfold onion_poller_find_fd_and_lock, pthread_mutex_lock_poller.
  rewrite !bind_run. cbn [get_poller]. now rewrite H.
Qed.

(** ** [onion_poller_go] *)

Lemma two_entries_wf : wf_registry (p_head (w_poller two_entries)).
Proof.
  split.
  - cbn. repeat constructor; cbn; intuition discriminate.
  - cbn. intuition discriminate.
Qed.

Lemma go_present (E : environment) (fd : Z) (p : onion_poller) tr pre el post :
  p_mutex p = false ->
  wf_registry (pre ++ el :: post) -> p_head p = pre ++ el :: post ->
  Forall (fun e => el_fd e <> fd) pre -> el_fd el = fd ->
  el_mutex el = false ->
  onion_poller_go E fd (mk_world p tr) =
  Done 1
    (mk_world
       (set_p_head
          (pre ++ set_el_mutex (os_epoll_ctl E tr Epoll.EPOLL_CTL_ADD fd <? 0)
                               (set_el_active 1 el) :: post) p)
       (tr ++ EvEpollCtl (p_fd p) Epoll.EPOLL_CTL_ADD fd
                         (Some (Epoll.oneshot_read_hup, el_addr el))
           :: (if os_epoll_ctl E tr Epoll.EPOLL_CTL_ADD fd <? 0
               then [EvLog ERROR "Error add descriptor to listen to. %s"]
               else []))).
Proof.
  intros Hpm Hwf Hh Hpre Hfd Hm.
  destruct (wf_registry_split _ _ _ Hwf) as (H0 & _ & _).
  unfold onion_poller_go.
  rewrite bind_run, (find_fd_and_lock_free fd p tr pre el post) by assumption.
  rewrite (proj2 (Z.eqb_neq _ _) H0).
  assert (Hwf1 : wf_registry (pre ++ set_el_mutex true el :: post))
    by (apply (wf_registry_replace pre el); [assumption | reflexivity]).
  rewrite bind_run.
  rewrite (store_first (set_el_active 1) _ tr pre (set_el_mutex true el) post Hwf1)
    by reflexivity.
  unfold epoll_ctl. run.
  destruct (os_epoll_ctl E tr Epoll.EPOLL_CTL_ADD fd <? 0).
  - run. rewrite <- app_assoc. reflexivity.
  - assert (Hwf2 : wf_registry
                     (pre ++ set_el_active 1 (set_el_mutex true el) :: post))
      by (apply (wf_registry_replace pre el); [assumption | reflexivity]).
    rewrite bind_run.
    rewrite (unlock_el_first _ _ pre (set_el_active 1 (set_el_mutex true el))
               post Hwf2) by reflexivity.
    reflexivity.
Qed.




(** C10.  When [epoll_ctl(EPOLL_CTL_ADD)] fails, [onion_poller_go] returns
    (with 1) through the [return] that sits before
    [pthread_mutex_unlock(&el->mutex)]: the record stays locked with nobody
    left to unlock it.  From then on [onion_poller_go],
    [onion_poller_set_shutdown] and [onion_poller_set_timeout] on that
    descriptor stop in [onion_poller_find_fd_and_lock] (holding the poller
    mutex), and the poll loop stops when it dispatches an event of that
    record. *)
Theorem go_failed_registration_leaves_entry_locked_for_ever
    (E : environment) (w : world) (fd : Z)
    (pre : list onion_poller_el) (el : onion_poller_el)
    (post : list onion_poller_el) :
  p_mutex (w_poller w) = false ->
  wf_registry (p_head (w_poller w)) ->
  p_head (w_poller w) = pre ++ el :: post ->
  Forall (fun e => el_fd e <> fd) pre -> el_fd el = fd ->
  el_mutex el = false ->
  os_epoll_ctl E (w_trace w) Epoll.EPOLL_CTL_ADD fd < 0 ->
  exists w',
    onion_poller_go E fd w = Done 1 w' /\
    p_mutex (w_poller w') = false /\
    (exists el', el_at (el_addr el) (p_head (w_poller w')) = Some el' /\
                 el_mutex el' = true) /\
    (forall E', onion_poller_go E' fd w' = Blocked (holding_poller_mutex w')) /\
    (forall f data,
        onion_poller_set_shutdown fd f data w' =
        Blocked (holding_poller_mutex w')) /\
    (forall timeout,
        onion_poller_set_timeout fd timeout w' =
        Blocked (holding_poller_mutex w')) /\
    (forall E', dispatch E' (el_addr el) w' = Blocked w').
Proof.
  destruct w as [p tr]. cbn [w_poller w_trace].
  intros Hpm Hwf Hh Hpre Hfd Hm Hfail. rewrite Hh in Hwf.
  rewrite (go_present E fd p tr pre el post) by assumption.
  rewrite (proj2 (Z.ltb_lt _ _) Hfail).
  set (el' := set_el_mutex true (set_el_active 1 el)).
  assert (Hwf' : wf_registry (pre ++ el' :: post))
    by (apply (wf_registry_replace pre el); [assumption | reflexivity]).
  destruct (wf_registry_split _ _ _ Hwf') as (_ & Hnin & _).
  eexists. split; [reflexivity|].
  unfold holding_poller_mutex. cbn [w_poller w_trace].
  split; [destruct p; cbn in *; assumption|].
  split; [exists el'; split; [apply (el_at_first pre el' post Hnin) | reflexivity]|].
  assert (Hlookup : forall tr',
    onion_poller_find_fd_and_lock fd
      (mk_world (set_p_head (pre ++ el' :: post) p) tr') =
    Blocked (mk_world (set_p_mutex true (set_p_head (pre ++ el' :: post) p)) tr')).
  { intros tr'. apply (find_fd_and_lock_held fd _ tr' pre el' post);
      assumption || reflexivity. }
  split; [|split; [|split]].
  - intros E'. unfold onion_poller_go. now rewrite bind_run, Hlookup.
  - intros f data. unfold onion_poller_set_shutdown.
    now rewrite bind_run, Hlookup.
  - intros timeout. unfold onion_poller_set_timeout.
    now rewrite bind_run, Hlookup.
  - intros E'. unfold dispatch.
    rewrite bind_run.
    now rewrite (lock_el_held _ _ pre el' post Hwf').
Qed.

Lemma go_failed_registration_witness :
  exists w',
    onion_poller_go failing_ctl_env 6 two_entries = Done 1 w' /\
    onion_poller_go quiet_env 6 w' = Blocked (holding_poller_mutex w') /\
    onion_poller_set_shutdown 6 21 22 w' = Blocked (holding_poller_mutex w') /\
    onion_poller_set_timeout 6 1000 w' = Blocked (holding_poller_mutex w') /\
    dispatch quiet_env (el_addr el6) w' = Blocked w'.
Proof.
  destruct (go_failed_registration_leaves_entry_locked_for_ever
              failing_ctl_env two_entries 6 [el5] el6 [])
    as (w' & Hrun & _ & _ & Hgo & Hsh & Hto & Hd).
  - reflexivity.
  - exact two_entries_wf.
  - reflexivity.
  - repeat constructor. discriminate.
  - reflexivity.
  - reflexivity.
  - reflexivity.
  - exists w'. repeat split; [exact Hrun | apply Hgo | apply Hsh | apply Hto | apply Hd].
Defined.

(** ** [onion_poller_free] *)

(** C2.  [pthread_mutex_trylock] answers 0 when it gets the mutex, so the
    test [> 0] sends the quiet case past the cleanup:
    - no poll thread, poller mutex free (any registry): nothing but the
      [close] happens, no shutdown hook runs, nothing is freed, and the
      mutex stays locked;
    - one poll thread left, poller mutex free: the same after the ten
      waits, and no warning is logged;
    - one poll thread left and the poller mutex held: after the ten waits
      the warning is logged, and then both hooks run, in registry order,
      and both records and the poller are freed. *)
Theorem free_cleans_up_only_when_trylock_fails
    (E : environment) (epfd stop n : Z) (head : list onion_poller_el)
    (tr : list event) :
  onion_poller_free E (mk_world (mk_poller epfd stop n false 0 head) tr) =
    Done tt
      (mk_world (mk_poller epfd 1 n true 0 head)
         (tr ++ [EvLog DEBUG "Free onion poller"; EvClose epfd;
                 EvLog DEBUG0 "Done"])) /\
  (let waits :=
     List.concat (repeat [EvLog DEBUG "Waiting for %d epollers (%d)";
                     EvUsleep 100000] 10) in
   onion_poller_free quiet_env
     (mk_world (mk_poller 3 0 2 false 1 [el5; el6]) []) =
     Done tt
       (mk_world (mk_poller 3 1 2 true 1 [el5; el6])
          ([EvLog DEBUG "Free onion poller"; EvClose 3] ++ waits ++
           [EvLog DEBUG0 "Done"])) /\
   onion_poller_free quiet_env
     (mk_world (mk_poller 3 0 2 true 1 [el5; el6]) []) =
     Done tt
       (mk_world (mk_poller 3 1 2 false 1 [el5; el6])
          ([EvLog DEBUG "Free onion poller"; EvClose 3] ++ waits ++
           [EvLog WARNING
              "When cleaning the poller object, some poller is still active; not freeing memory";
            EvShutdown 11 12; EvFree 4097;
            EvShutdown 21 22; EvFree 4099;
            EvFreePoller;
            EvLog DEBUG0 "Done"]))).
Proof.
  split.
  - cbv -[app]. now rewrite <- !app_assoc.
  - split; reflexivity.
Qed.

(** ** Dispatch of one ready event *)

Lemma dispatch_until_callback (E : environment) (p : onion_poller) tr
    pre el post :
  wf_registry (pre ++ el :: post) -> p_head p = pre ++ el :: post ->
  el_mutex el = false -> el_f el <> 0 ->
  dispatch E (el_addr el) (mk_world p tr) =
  (let '(n, w2) :=
     call_f E (el_f el) (el_data el)
       (mk_world
          (set_p_head (pre ++ set_el_mutex true (reset_el_delta el) :: post) p)
          (tr ++ [EvCallback (el_f el) (el_data el)])) in
   after_callback E (el_addr el) n w2).
Proof.
  intros Hwf Hh Hm Hf. unfold dispatch.
  rewrite bind_run, (lock_el_free p tr pre el post) by assumption.
  assert (Hwf1 : wf_registry (pre ++ set_el_mutex true el :: post))
    by (apply (wf_registry_replace pre el); [assumption | reflexivity]).
  rewrite bind_run.
  rewrite (store_first reset_el_delta _ tr pre (set_el_mutex true el) post Hwf1)
    by reflexivity.
  assert (Hwf2 : wf_registry
                   (pre ++ reset_el_delta (set_el_mutex true el) :: post))
    by (apply (wf_registry_replace pre el); [assumption | reflexivity]).
  rewrite bind_run.
  rewrite (load_first _ tr pre (reset_el_delta (set_el_mutex true el)) post Hwf2)
    by reflexivity.
  unfold call. cbn [el_f el_data reset_el_delta set_el_mutex].
  rewrite (proj2 (Z.eqb_neq _ _) Hf). rewrite !bind_run. run.
  change (reset_el_delta (set_el_mutex true el))
    with (set_el_mutex true (reset_el_delta el)).
  destruct (call_f E (el_f el) (el_data el) _) as [n w2]. reflexivity.
Qed.

Lemma after_callback_negative (E : environment) (n : Z) (p : onion_poller) tr
    pre el post :
  n < 0 -> p_mutex p = false ->
  wf_registry (pre ++ el :: post) -> p_head p = pre ++ el :: post ->
  Forall (fun e => el_fd e <> el_fd el) pre ->
  after_callback E (el_addr el) n (mk_world p tr) =
  (_ <- onion_poller_remove E (el_fd el) ;; ret tt)
    (mk_world (set_p_head (pre ++ set_el_mutex false el :: post) p) tr).
Proof.
  intros Hn Hpm Hwf Hh Hpre. unfold after_callback.
  rewrite (proj2 (Z.ltb_lt _ _) Hn).
  rewrite bind_run, (unlock_el_first p tr pre el post) by assumption.
  assert (Hwf1 : wf_registry (pre ++ set_el_mutex false el :: post))
    by (apply (wf_registry_replace pre el); [assumption | reflexivity]).
  rewrite bind_run.
  rewrite (load_first _ tr pre (set_el_mutex false el) post Hwf1) by reflexivity.
  reflexivity.
Qed.

Lemma after_callback_nonnegative (E : environment) (n : Z) (p : onion_poller)
    tr pre el post :
  0 <= n ->
  wf_registry (pre ++ el :: post) -> p_head p = pre ++ el :: post ->
  let tr1 := tr ++ [EvLog DEBUG0 "Resetting poller %d"] in
  after_callback E (el_addr el) n (mk_world p tr) =
  Done tt
    (mk_world (set_p_head (pre ++ set_el_mutex false el :: post) p)
       (tr1 ++ EvEpollCtl (p_fd p) Epoll.EPOLL_CTL_MOD (el_fd el)
                          (Some (Epoll.oneshot_read_hup, el_addr el))
            :: (if os_epoll_ctl E tr1 Epoll.EPOLL_CTL_MOD (el_fd el) <? 0
                then [EvLog ERROR "Error resetting poller, %s"] else []))).
Proof.
  intros Hn Hwf Hh tr1. unfold after_callback.
  rewrite (proj2 (Z.ltb_ge _ _) Hn). run.
  rewrite bind_run, (load_first p _ pre el post Hwf Hh).
  unfold epoll_ctl. run. fold tr1.
  destruct (os_epoll_ctl E tr1 Epoll.EPOLL_CTL_MOD (el_fd el) <? 0); run.
  - rewrite (unlock_el_first p _ pre el post Hwf Hh).
    now rewrite <- !app_assoc.
  - now rewrite (unlock_el_first p _ pre el post Hwf Hh).
Qed.

(** C5.  Dispatch of a ready event whose [data.ptr] is the (free) record
    [el].  The callback [el->f] runs on a world [w1] in which [el] is locked
    and its [delta_timeout] already equals its [timeout].  Let the callback
    return [n] and leave the world [w2], in which the record, now [el2], is
    still there.
    - If [0 <= n], dispatch returns having called [epoll_ctl(EPOLL_CTL_MOD)]
      once on the descriptor with [EPOLLIN|EPOLLHUP|EPOLLONESHOT] (plus an
      error line if that failed) and unlocked the record, which stays in
      the registry; nothing is removed or freed.
    - If [n < 0], the poller mutex being free and [el2] the first record of
      its descriptor, it unlocks the record and does one
      [onion_poller_remove] of the descriptor: the record is unlinked, then
      [EPOLL_CTL_DEL], then the shutdown hook if any, and, when the hook
      returns (or there is none), the [free] and [n] one less; when the
      hook does not return, dispatch stops inside it.  There is no
      [EPOLL_CTL_MOD]. *)
Theorem dispatch_resets_timeout_then_removes_or_rearms
    (E : environment) (w : world)
    (pre : list onion_poller_el) (el : onion_poller_el)
    (post : list onion_poller_el)
    (n : Z) (w2 : world)
    (pre2 : list onion_poller_el) (el2 : onion_poller_el)
    (post2 : list onion_poller_el) :
  wf_registry (p_head (w_poller w)) ->
  p_head (w_poller w) = pre ++ el :: post ->
  el_mutex el = false -> el_f el <> 0 ->
  let el1 := set_el_mutex true (reset_el_delta el) in
  let w1 := mk_world (set_p_head (pre ++ el1 :: post) (w_poller w))
                     (w_trace w ++ [EvCallback (el_f el) (el_data el)]) in
  call_f E (el_f el) (el_data el) w1 = (n, w2) ->
  wf_registry (p_head (w_poller w2)) ->
  p_head (w_poller w2) = pre2 ++ el2 :: post2 ->
  el_addr el2 = el_addr el ->
  let p2 := w_poller w2 in
  let tr2 := w_trace w2 in
  el_delta_timeout el1 = el_timeout el /\
  el_timeout el1 = el_timeout el /\
  (0 <= n ->
   let tr3 := tr2 ++ [EvLog DEBUG0 "Resetting poller %d"] in
   dispatch E (el_addr el) w =
     Done tt
       (mk_world
          (set_p_head (pre2 ++ set_el_mutex false el2 :: post2) p2)
          (tr3 ++ EvEpollCtl (p_fd p2) Epoll.EPOLL_CTL_MOD (el_fd el2)
                             (Some (Epoll.oneshot_read_hup, el_addr el))
               :: (if os_epoll_ctl E tr3 Epoll.EPOLL_CTL_MOD (el_fd el2) <? 0
                   then [EvLog ERROR "Error resetting poller, %s"]
                   else [])))) /\
  (n < 0 ->
   p_mutex p2 = false ->
   Forall (fun e => el_fd e <> el_fd el2) pre2 ->
   let tr3 := tr2 ++
              [EvLog DEBUG0 "Trying to remove fd %d (%d)";
               EvLog DEBUG0 (match pre2 with
                             | [] => "Removed from head %p"
                             | _ :: _ => "Removed from tail %p"
                             end)] in
   let p_unlinked := set_p_mutex true (set_p_head (pre2 ++ post2) p2) in
   let del := [EvEpollCtl (p_fd p2) Epoll.EPOLL_CTL_DEL (el_fd el2) None]
              ++ (if os_epoll_ctl E tr3 Epoll.EPOLL_CTL_DEL (el_fd el2) <? 0
                  then [EvLog ERROR "Error remove descriptor to listen to. %s"]
                  else []) in
   let hook := EvShutdown (el_shutdown el2) (el_shutdown_data el2) in
   let hr := call_shutdown E (el_shutdown el2) (el_shutdown_data el2)
               (mk_world p_unlinked (tr3 ++ del ++ [hook])) in
   dispatch E (el_addr el) w =
     if el_shutdown el2 =? 0 then
       Done tt (mk_world (set_p_n (int_wrap (p_n p2 - 1))
                            (set_p_head (pre2 ++ post2) p2))
                         (tr3 ++ del ++ [EvFree (el_addr el)]))
     else if hook_returns hr then
       Done tt (mk_world (set_p_n (int_wrap (p_n p2 - 1))
                            (set_p_head (pre2 ++ post2) (hook_writes hr p2)))
                         (tr3 ++ del ++ [hook; EvFree (el_addr el)]))
     else Blocked (mk_world (hook_writes hr p_unlinked) (tr3 ++ del ++ [hook]))).
Proof.
  destruct w as [p tr]. destruct w2 as [p2 tr2]. cbn [w_poller w_trace].
  intros Hwf Hh Hm Hf Hcall Hwf2 Hh2 Haddr.
  split; [reflexivity|]. split; [reflexivity|].
  rewrite Hh in Hwf. rewrite Hh2 in Hwf2.
  rewrite (dispatch_until_callback E p tr pre el post) by assumption.
  rewrite Hcall. rewrite <- Haddr. split.
  - intros Hn. now apply after_callback_nonnegative.
  - intros Hn Hpm2 Hpre2. cbv zeta.
    rewrite (after_callback_negative E n p2 tr2 pre2 el2 post2) by assumption.
    rewrite bind_run.
    change (el_fd el2) with (el_fd (set_el_mutex false el2)) at 1.
    rewrite (remove_present_written_out E _ tr2 pre2 (set_el_mutex false el2)
               post2);
      [| destruct p2; cbn in *; assumption
       | reflexivity
       | exact Hpre2
       | reflexivity].
    cbv zeta. unfold unlinked, remove_logs.
    cbn [el_fd el_shutdown el_shutdown_data el_addr set_el_mutex].
    destruct p2 as [epfd stop n2 mx np head]. norm_poller.
    destruct (el_shutdown el2 =? 0).
    + destruct pre2; reflexivity.
    + destruct pre2; cbn [is_nil];
        match goal with
        | |- context [hook_returns ?h] =>
            set (hr := h); destruct (hook_returns hr)
        end;
        unfold hook_writes; destruct (hook_stop hr); reflexivity.
Qed.

Lemma late_world_wf : wf_registry (p_head (w_poller late_world)).
Proof.
  split.
  - cbn. repeat constructor; cbn; intuition discriminate.
  - cbn. intuition discriminate.
Qed.

Lemma dispatch_witness :
  dispatch quiet_env (el_addr el6_late) late_world =
    Done tt
      (mk_world
         (mk_poller 3 0 2 false 1
            [el5; mk_el 4099 6 78 89 21 22 1000 1000 false 1])
         [EvCallback 78 89;
          EvLog DEBUG0 "Resetting poller %d";
          EvEpollCtl 3 Epoll.EPOLL_CTL_MOD 6
                     (Some (Epoll.oneshot_read_hup, 4099))]) /\
  dispatch closing_env (el_addr el6_late) late_world =
    Done tt
      (mk_world (mk_poller 3 0 1 false 1 [el5])
         [EvCallback 78 89;
          EvLog DEBUG0 "Trying to remove fd %d (%d)";
          EvLog DEBUG0 "Removed from tail %p";
          EvEpollCtl 3 Epoll.EPOLL_CTL_DEL 6 None;
          EvShutdown 21 22;
          EvFree 4099]).
Proof.
  pose (el1 := set_el_mutex true (reset_el_delta el6_late)).
  pose (w1 := mk_world (mk_poller 3 0 2 false 1 [el5; el1]) [EvCallback 78 89]).
  assert (Hwf1 : wf_registry [el5; el1])
    by apply (wf_registry_replace [el5] el6_late _ [] late_world_wf eq_refl).
  split.
  - refine (proj1 (proj2 (proj2
      (dispatch_resets_timeout_then_removes_or_rearms
         quiet_env late_world [el5] el6_late [] 0 w1 [el5] el1 []
         late_world_wf eq_refl eq_refl _ eq_refl Hwf1 eq_refl eq_refl))) _).
    + discriminate.
    + lia.
  - refine (proj2 (proj2 (proj2
      (dispatch_resets_timeout_then_removes_or_rearms
         closing_env late_world [el5] el6_late [] (-1) w1 [el5] el1 []
         late_world_wf eq_refl eq_refl _ eq_refl Hwf1 eq_refl eq_refl)))
      _ eq_refl _).
    + discriminate.
    + lia.
    + repeat constructor. discriminate.
Defined.

(** ** One turn of the poll loop *)

Lemma then_running_not_stopped (m : M unit) (w w' : world) :
  (m ;; ret Running) w <> Done Stopped w'.
Proof.
  rewrite bind_run. destruct (m w); cbn; discriminate.
Qed.

Lemma poll_iteration_cases (E : environment) (w : world) :
  p_mutex (w_poller w) = false ->
  p_mutex (w_poller (after_wait E w)) = false ->
  poll_iteration E w =
  if stop_or_empty (w_poller w) then
    Done Stopped
      (mk_world
         (set_p_npollers (int_wrap (p_npollers (w_poller w) - 1)) (w_poller w))
         (w_trace w ++ [EvLog DEBUG0 "Finished polling fds";
                        EvLog DEBUG0 "Npollers %d"]))
  else
    let w1 := after_wait E w in
    match os_epoll_wait E (w_trace w) with
    | None =>
        if (p_fd (w_poller w1) <? 0) || is_nil (p_head (w_poller w1)) then
          Done Stopped
            (mk_world
               (set_p_npollers (int_wrap (p_npollers (w_poller w1) - 1))
                               (w_poller w1))
               (w_trace w1 ++ [EvLog DEBUG "Some error happened";
                               EvLog DEBUG "Finishing the epoll as finished: %s"]))
        else
          Done Running
            (mk_world (w_poller w1)
                      (w_trace w1 ++ [EvLog DEBUG "Some error happened"]))
    | Some ready =>
        (dispatch_all E (firstn 10 ready) ;; ret Running) w1
    end.
Proof.
  destruct w as [p tr]. unfold after_wait. cbn [w_poller w_trace].
  intros Hpm Hpm1.
  destruct p as [epfd stop n mx np head]. cbn in Hpm. subst mx.
  unfold poll_iteration, stop_or_empty.
  rewrite bind_run. cbn [get_poller w_poller p_stop p_head p_fd].
  destruct (negb (stop =? 0) || is_nil head).
  - run. now rewrite <- !app_assoc.
  - rewrite bind_run. unfold epoll_wait at 1.
    cbn [w_poller w_trace p_fd] in Hpm1 |- *.
    destruct (os_epoll_wait E tr) as [ready|].
    + replace (Z.of_nat (List.length (firstn (Z.to_nat MAX_EVENTS) ready)) <? 0)
        with false by (symmetry; apply Z.ltb_ge; apply Nat2Z.is_nonneg).
      reflexivity.
    + revert Hpm1.
      match goal with
      | |- context [others E ?t ?q] => generalize (others E t q)
      end.
      intros [epfd1 stop1 n1 mx1 np1 head1] Hpm1. cbn in Hpm1. subst mx1.
      cbn [Z.ltb Z.compare]. rewrite !bind_run. run.
      destruct ((epfd1 <? 0) || is_nil head1); run.
      * now rewrite <- !app_assoc.
      * reflexivity.
Qed.

(** X21.  One turn of [while (!p->stop && p->head)], started with the poller
    mutex free (and free again when [epoll_wait] returns):
    - it ends the loop exactly when the stop flag is set, or the registry is
      empty, or [epoll_wait] fails and then [p->fd < 0] or the registry is
      empty; a loop with fuel for that turn then returns;
    - when it ends the loop, [npollers] is one less than the thread last
      saw it, and nothing else of the poller has changed;
    - when the loop test passes there is one [epoll_wait], asked for at most
      [MAX_EVENTS = 10] events: at most ten events are dispatched, and a
      failed wait that does not end the loop is logged and leaves the loop
      running. *)
Theorem poll_iteration_stops_exactly_on_exit_condition
    (E : environment) (w : world) :
  p_mutex (w_poller w) = false ->
  p_mutex (w_poller (after_wait E w)) = false ->
  ((exists w', poll_iteration E w = Done Stopped w') <-> loop_exits E w = true) /\
  (forall w', poll_iteration E w = Done Stopped w' ->
     w_poller w' =
       set_p_npollers (int_wrap (p_npollers (poller_at_exit E w) - 1))
                      (poller_at_exit E w)) /\
  (forall fuel, loop_exits E w = true ->
     exists w', poll_loop E (S fuel) w = Done tt w') /\
  (stop_or_empty (w_poller w) = false ->
     w_trace (after_wait E w) =
       w_trace w ++ [EvEpollWait (p_fd (w_poller w)) 10 (-1)] /\
     match os_epoll_wait E (w_trace w) with
     | Some ready =>
         (List.length (firstn 10 ready) <= 10)%nat /\
         poll_iteration E w =
           (dispatch_all E (firstn 10 ready) ;; ret Running) (after_wait E w)
     | None =>
         loop_exits E w = false ->
         poll_iteration E w =
           Done Running
             (mk_world (w_poller (after_wait E w))
                (w_trace (after_wait E w) ++ [EvLog DEBUG "Some error happened"]))
     end).
Proof.
  intros Hpm Hpm1.
  pose proof (poll_iteration_cases E w Hpm Hpm1) as Hit.
  unfold loop_exits, poller_at_exit, wait_failed.
  destruct (stop_or_empty (w_poller w)) eqn:Htest; cbn [orb];
    [| cbv zeta in Hit;
       destruct (os_epoll_wait E (w_trace w)) as [ready|]; cbn [andb];
       [| destruct ((p_fd (w_poller (after_wait E w)) <? 0)
                    || is_nil (p_head (w_poller (after_wait E w))))]].
  all: split; [split | split; [| split]].
  (* the loop ends only if the condition holds *)
  all: try (intros [w' Hw]; rewrite Hit in Hw;
            first [ reflexivity | discriminate Hw
                  | now apply then_running_not_stopped in Hw ]).
  (* and ends if it holds *)
  all: try (intros Hx; first [ discriminate Hx | eexists; exact Hit ]).
  (* [npollers] on the way out *)
  all: try (intros w' Hw; rewrite Hit in Hw;
            first [ now inversion Hw | discriminate Hw
                  | now apply then_running_not_stopped in Hw ]).
  (* the loop returns *)
  all: try (intros fuel Hx;
            first [ discriminate Hx
                  | cbn [poll_loop]; rewrite bind_run, Hit; eexists; reflexivity ]).
  (* the wait *)
  all: intros Hx; first [ discriminate Hx | split; [reflexivity|] ].
  - split; [apply firstn_le_length | exact Hit].
  - discriminate.
  - intros _. exact Hit.
Qed.

Lemma poll_iteration_witness :
  ((exists w', poll_iteration quiet_env two_entries = Done Stopped w') <->
   loop_exits quiet_env two_entries = true) /\
  poll_iteration quiet_env two_entries =
    Done Running
      (mk_world (w_poller two_entries)
         [EvEpollWait 3 10 (-1); EvLog DEBUG "Some error happened"]) /\
  (forall w', poll_iteration quiet_env stopped_world = Done Stopped w' ->
              w_poller w' = mk_poller 3 1 2 false 0 [el5; el6]) /\
  (exists w', poll_loop quiet_env 1 stopped_world = Done tt w').
Proof.
  destruct (poll_iteration_stops_exactly_on_exit_condition
              quiet_env two_entries eq_refl eq_refl) as (Hiff & _ & _ & Hrun).
  destruct (poll_iteration_stops_exactly_on_exit_condition
              quiet_env stopped_world eq_refl eq_refl) as (_ & Hnp & Hloop & _).
  split; [exact Hiff|]. split; [exact (proj2 (Hrun eq_refl) eq_refl)|].
  split; [exact Hnp | exact (Hloop 0%nat eq_refl)].
Defined.

(** ** [onion_poller_poll] *)

(** C9.  [onion_poller_poll] writes [p->stop = 0] first and counts itself in
    afterwards:
    - whatever [stop] was, the loop starts from a world with [stop == 0]
      and [npollers] one more, so its first test fails only on an empty
      registry;
    - if the poller mutex is held, the thread stops at the lock with [stop]
      already cleared and [npollers] not yet touched;
    - a poll started after [onion_poller_stop] runs exactly as a poll
      started without it. *)
Theorem poll_clears_stop_before_counting_itself
    (E : environment) (fuel : nat) (epfd stop n np : Z)
    (head : list onion_poller_el) (tr : list event) :
  let w := fun mx => mk_world (mk_poller epfd stop n mx np head) tr in
  let entered :=
    mk_world (mk_poller epfd 0 n false (int_wrap (np + 1)) head)
             (tr ++ [EvLog DEBUG0 "Start poll of fds";
                     EvLog DEBUG0 "Npollers %d. %d listenings %p"]) in
  onion_poller_poll E fuel (w false) = poll_loop E fuel entered /\
  stop_or_empty (w_poller entered) = is_nil head /\
  onion_poller_poll E fuel (w true) =
    Blocked (mk_world (mk_poller epfd 0 n true np head)
                      (tr ++ [EvLog DEBUG0 "Start poll of fds"])) /\
  onion_poller_poll E fuel (world_of (onion_poller_stop (w false))) =
    onion_poller_poll E fuel (w false).
Proof.
  cbv zeta. unfold onion_poller_poll. repeat split.
  - run. now rewrite <- app_assoc.
Qed.

(** ** What the registry calls can do to the list of descriptors *)

Section Keeps.

Variable P : onion_poller -> Prop.

Lemma keeps_ret {A : Type} (a : A) : keeps P (ret a).
Proof. intros w H. exact H. Qed.

Lemma keeps_bind {A B : Type} (m : M A) (k : A -> M B) :
  keeps P m -> (forall a, keeps P (k a)) -> keeps P (bind m k).
Proof.
  intros Hm Hk w H. specialize (Hm w H). rewrite bind_run.
  destruct (m w) as [a w'| | |]; cbn in *; try assumption.
  now apply Hk.
Qed.

Lemma keeps_emit (e : event) : keeps P (emit e).
Proof. intros w H. exact H. Qed.

Lemma keeps_log lvl fmt : keeps P (ONION_LOG lvl fmt).
Proof. apply keeps_emit. Qed.

Lemma keeps_get_poller : keeps P get_poller.
Proof. intros w H. exact H. Qed.

Lemma keeps_fail_with {A : Type} why : keeps P (@fail_with A why).
Proof. intros w H. exact H. Qed.

Lemma keeps_block {A : Type} : keeps P (@block A).
Proof. intros w H. exact H. Qed.

Lemma keeps_modify_poller (g : onion_poller -> onion_poller) :
  (forall p, P p -> P (g p)) -> keeps P (modify_poller g).
Proof. intros Hg w H. cbn. now apply Hg. Qed.

Lemma keeps_when (b : bool) (m : M unit) : keeps P m -> keeps P (when b m).
Proof. destruct b; [trivial | intros _; apply keeps_ret]. Qed.

Lemma keeps_epoll_ctl (E : environment) epfd op fd ev :
  keeps P (epoll_ctl E epfd op fd ev).
Proof. intros w H. exact H. Qed.

Lemma keeps_malloc (E : environment) : keeps P (malloc E).
Proof. intros w H. exact H. Qed.

Lemma keeps_usleep (E : environment) (usec : Z) :
  (forall tr p, P p -> P (others E tr p)) -> keeps P (usleep E usec).
Proof. intros Ho w H. cbn. now apply Ho. Qed.

Lemma keeps_wait_pollers (E : environment) (n : nat) :
  (forall tr p, P p -> P (others E tr p)) -> keeps P (wait_pollers E n).
Proof.
  intros Ho. induction n as [|n IH]; [apply keeps_ret|].
  cbn [wait_pollers]. apply keeps_bind; [apply keeps_get_poller|]. intros p.
  destruct (0 <? p_npollers p); [|apply keeps_ret].
  apply keeps_bind; [apply keeps_log|]. intros _.
  apply keeps_bind; [now apply keeps_usleep | intros _; exact IH].
Qed.

(** A shutdown hook can only take the poller out of what a write to [stop]
    takes it out of. *)
Lemma keeps_call_hook (E : environment) (f data : Z) :
  (forall v p, P p -> P (set_p_stop v p)) -> keeps P (call_hook E f data).
Proof.
  intros Hs [p tr] H. rewrite call_hook_run. cbv zeta.
  assert (Hw : forall hr, P (hook_writes hr p)).
  { intros hr. unfold hook_writes. destruct (hook_stop hr); [now apply Hs | exact H]. }
  destruct (hook_returns _); apply Hw.
Qed.

Lemma keeps_free_chain (E : environment) (l : list onion_poller_el) :
  (forall v p, P p -> P (set_p_stop v p)) -> keeps P (free_chain E l).
Proof.
  intros Hs. induction l as [|e l IH]; [apply keeps_ret|].
  cbn [free_chain].
  apply keeps_bind; [apply keeps_when, keeps_block|]. intros _.
  apply keeps_bind; [now apply keeps_when, keeps_call_hook|]. intros _.
  apply keeps_bind; [apply keeps_emit | intros _; exact IH].
Qed.

(** What survives a write to [stop], to the mutex, and the other threads,
    survives [onion_poller_free]. *)
Lemma keeps_free (E : environment) :
  (forall tr p, P p -> P (others E tr p)) ->
  (forall v p, P p -> P (set_p_stop v p)) ->
  (forall b p, P p -> P (set_p_mutex b p)) ->
  keeps P (onion_poller_free E).
Proof.
  intros Ho Hs Hm. unfold onion_poller_free.
  apply keeps_bind; [apply keeps_log|]. intros _.
  apply keeps_bind; [apply keeps_modify_poller, Hs|]. intros _.
  apply keeps_bind; [apply keeps_get_poller|]. intros p.
  apply keeps_bind; [apply keeps_emit|]. intros _.
  apply keeps_bind; [now apply keeps_wait_pollers|]. intros _.
  apply keeps_bind.
  { unfold pthread_mutex_trylock_poller.
    apply keeps_bind; [apply keeps_get_poller|]. intros p1.
    destruct (p_mutex p1); [apply keeps_ret|].
    apply keeps_bind; [apply keeps_modify_poller, Hm|]. intros _.
    apply keeps_ret. }
  intros r.
  apply keeps_bind; [|intros _; apply keeps_log].
  apply keeps_when.
  apply keeps_bind; [apply keeps_log|]. intros _.
  apply keeps_bind; [apply keeps_get_poller|]. intros p1.
  apply keeps_bind; [now apply keeps_free_chain|]. intros _.
  apply keeps_bind; [apply keeps_modify_poller, Hm|]. intros _.
  apply keeps_emit.
Qed.

End Keeps.

Section KeepsDescriptors.

Variable L : list Z.

Lemma update_el_fds (a : Z) (g : onion_poller_el -> onion_poller_el)
    (l : list onion_poller_el) :
  (forall e, el_fd (g e) = el_fd e) ->
  map el_fd (update_el a g l) = map el_fd l.
Proof.
  intros Hg. unfold update_el. rewrite map_map. apply map_ext.
  intros e. destruct (el_addr e =? a); [apply Hg | reflexivity].
Qed.

Lemma keeps_load (a : Z) : keeps (lists L) (load a).
Proof.
  unfold load. destruct (a =? 0); [apply keeps_fail_with|].
  apply keeps_bind; [apply keeps_get_poller|]. intros p.
  destruct (el_at a (p_head p)); [apply keeps_ret | apply keeps_fail_with].
Qed.

Lemma keeps_store (a : Z) (g : onion_poller_el -> onion_poller_el) :
  (forall e, el_fd (g e) = el_fd e) -> keeps (lists L) (store a g).
Proof.
  intros Hg. apply keeps_bind; [apply keeps_load|]. intros _.
  apply keeps_modify_poller. intros p Hp. unfold lists, fds in *. cbn.
  now rewrite update_el_fds.
Qed.

Lemma keeps_lock_poller : keeps (lists L) pthread_mutex_lock_poller.
Proof.
  apply keeps_bind; [apply keeps_get_poller|]. intros p.
  destruct (p_mutex p); [apply keeps_block|].
  apply keeps_modify_poller. trivial.
Qed.

Lemma keeps_unlock_poller : keeps (lists L) pthread_mutex_unlock_poller.
Proof. apply keeps_modify_poller. trivial. Qed.

Lemma keeps_lock_el (a : Z) : keeps (lists L) (pthread_mutex_lock_el a).
Proof.
  apply keeps_bind; [apply keeps_load|]. intros e.
  destruct (el_mutex e); [apply keeps_block | now apply keeps_store].
Qed.

Lemma keeps_unlock_el (a : Z) : keeps (lists L) (pthread_mutex_unlock_el a).
Proof. now apply keeps_store. Qed.

Lemma keeps_find_fd_and_lock (fd : Z) :
  keeps (lists L) (onion_poller_find_fd_and_lock fd).
Proof.
  apply keeps_bind; [apply keeps_lock_poller|]. intros _.
  apply keeps_bind; [apply keeps_get_poller|]. intros p.
  apply keeps_bind; [apply keeps_when, keeps_lock_el|]. intros _.
  apply keeps_bind; [apply keeps_unlock_poller|]. intros _.
  apply keeps_ret.
Qed.

Lemma keeps_go (E : environment) (fd : Z) : keeps (lists L) (onion_poller_go E fd).
Proof.
  apply keeps_bind; [apply keeps_find_fd_and_lock|]. intros el.
  destruct (el =? 0); [apply keeps_ret|].
  apply keeps_bind; [now apply keeps_store|]. intros _.
  apply keeps_bind; [apply keeps_get_poller|]. intros p.
  apply keeps_bind; [apply keeps_epoll_ctl|]. intros r.
  destruct (r <? 0).
  - apply keeps_bind; [apply keeps_log|]. intros _. apply keeps_ret.
  - apply keeps_bind; [apply keeps_unlock_el|]. intros _. apply keeps_ret.
Qed.

Lemma keeps_free_element (E : environment) (el : onion_poller_el) :
  keeps (lists L) (onion_poller_free_element E el).
Proof.
  apply keeps_bind; [apply keeps_when, keeps_block|]. intros _.
  apply keeps_bind; [apply keeps_get_poller|]. intros p.
  apply keeps_bind; [apply keeps_epoll_ctl|]. intros r.
  apply keeps_bind; [apply keeps_when, keeps_log|]. intros _.
  apply keeps_bind;
    [apply keeps_when, keeps_call_hook; intros v p0 H; exact H|]. intros _.
  apply keeps_bind; [apply keeps_emit|]. intros _.
  apply keeps_modify_poller. trivial.
Qed.

(** From the moment the record is unlinked, [onion_poller_remove] does not
    touch the chain any more. *)
Lemma keeps_after_unlink (E : environment) (el : onion_poller_el) :
  keeps (lists L)
    (onion_poller_free_element E el ;; pthread_mutex_unlock_poller ;; ret 0).
Proof.
  apply keeps_bind; [apply keeps_free_element|]. intros _.
  apply keeps_bind; [apply keeps_unlock_poller|]. intros _.
  apply keeps_ret.
Qed.

End KeepsDescriptors.

Lemma NoDup_snoc (l : list Z) (x : Z) :
  NoDup l -> ~ In x l -> NoDup (l ++ [x]).
Proof.
  induction 1 as [|y l Hy Hl IH]; cbn; intros Hx.
  - constructor; [intros [] | constructor].
  - constructor.
    + intros Hin. apply in_app_or in Hin. destruct Hin as [Hin|[Heq|[]]].
      * contradiction.
      * apply Hx. now left.
    + apply IH. intros Hin. apply Hx. now right.
Qed.

(** [onion_poller_add] leaves the descriptors as they are (when it does not
    get as far as linking the record) or appends its own. *)
Lemma add_fds (E : environment) (fd f data : Z) (w : world) :
  let l' := fds (w_poller (world_of (onion_poller_add E fd f data w))) in
  l' = fds (w_poller w) \/ l' = fds (w_poller w) ++ [fd].
Proof.
  destruct w as [[epfd stop n mx np head] tr].
  unfold onion_poller_add, malloc. cbn.
  destruct (os_malloc E _ =? 0); cbn; [now left|].
  destruct mx; cbn; [now left|].
  right. unfold fds. cbn.
  destruct head as [|next rest]; cbn; [reflexivity|].
  rewrite link_last_app. cbn. now rewrite map_app.
Qed.

Lemma add_returns_appended (E : environment) (fd f data : Z) (w w' : world) r :
  onion_poller_add E fd f data w = Done r w' ->
  r = 0 /\ fds (w_poller w') = fds (w_poller w) ++ [fd].
Proof.
  destruct w as [[epfd stop n mx np head] tr].
  unfold onion_poller_add, malloc. cbn.
  destruct (os_malloc E _ =? 0); cbn; [discriminate|].
  destruct mx; cbn; [discriminate|].
  intros H. inversion H; subst. split; [reflexivity|].
  unfold fds. cbn.
  destruct head as [|next rest]; cbn; [reflexivity|].
  rewrite link_last_app. cbn. now rewrite map_app.
Qed.

(** [onion_poller_remove] leaves the descriptors as they are or takes one
    occurrence of its own out. *)
Lemma remove_next_fds (E : environment) (fd : Z) (next : list onion_poller_el) :
  forall before w,
    let l' := fds (w_poller (world_of (remove_next E fd before next w))) in
    l' = fds (w_poller w) \/
    exists pre post,
      map el_fd (before ++ next) = pre ++ fd :: post /\ l' = pre ++ post.
Proof.
  induction next as [|t rest IH]; intros before w; cbn zeta.
  - left. reflexivity.
  - cbn [remove_next]. destruct (Z.eqb_spec (el_fd t) fd) as [Heq|Hne].
    + right. exists (map el_fd before), (map el_fd rest). split.
      * rewrite map_app. cbn. now rewrite Heq.
      * rewrite bind_run. cbn [ONION_LOG emit]. rewrite bind_run.
        cbn [modify_poller w_poller w_trace].
        rewrite <- map_app.
        apply (keeps_after_unlink (map el_fd (before ++ rest)) E t).
        reflexivity.
    + specialize (IH (before ++ [t]) w). cbn zeta in IH.
      rewrite <- app_assoc in IH. exact IH.
Qed.

Lemma remove_fds (E : environment) (fd : Z) (w : world) :
  let l := fds (w_poller w) in
  let l' := fds (w_poller (world_of (onion_poller_remove E fd w))) in
  l' = l \/ exists pre post, l = pre ++ fd :: post /\ l' = pre ++ post.
Proof.
  destruct w as [[epfd stop n mx np head] tr]. cbn zeta.
  unfold onion_poller_remove.
  destruct mx; [now left|]. run.
  destruct head as [|el rest]; [now left|].
  destruct (Z.eqb_spec (el_fd el) fd) as [Heq|Hne].
  - right. exists [], (map el_fd rest). split.
    + unfold fds. cbn. now rewrite Heq.
    + rewrite bind_run. cbn [ONION_LOG emit]. rewrite bind_run.
      cbn [modify_poller w_poller w_trace].
      apply (keeps_after_unlink (map el_fd rest) E el). reflexivity.
  - exact (remove_next_fds E fd rest [el] _).
Qed.

Lemma run_call_keeps_distinct (E : environment) (c : api_call) (w : world) :
  NoDup (fds (w_poller w)) ->
  match c with
  | Add fd _ _ => ~ In fd (fds (w_poller w))
  | _ => True
  end ->
  NoDup (fds (w_poller (world_of (run_call E c w)))).
Proof.
  intros Hnd Hfresh. destruct c as [fd f data|fd|fd]; cbn [run_call].
  - destruct (add_fds E fd f data w) as [-> | ->].
    + assumption.
    + now apply NoDup_snoc.
  - now rewrite (keeps_go (fds (w_poller w)) E fd w eq_refl).
  - destruct (remove_fds E fd w) as [-> | (pre & post & Hl & ->)].
    + assumption.
    + rewrite Hl in Hnd. now apply NoDup_remove_1 in Hnd.
Qed.

(** C7, as the code has it.  A registry whose descriptors are all different
    keeps them different through any sequence of add, activate and remove
    in which no add names a descriptor that is in the registry at that
    moment; and an add that returns has appended its descriptor to the
    registry, whether it was there or not. *)
Theorem descriptors_stay_distinct_while_adds_are_fresh
    (E : environment) (cs : list api_call) (w : world) :
  NoDup (fds (w_poller w)) ->
  adds_are_fresh E cs w ->
  NoDup (fds (w_poller (run_calls E cs w))) /\
  (forall fd f data r w',
     onion_poller_add E fd f data w = Done r w' ->
     fds (w_poller w') = fds (w_poller w) ++ [fd]).
Proof.
  intros Hnd Hfresh. split.
  - revert w Hnd Hfresh. induction cs as [|c cs IH]; intros w Hnd Hfresh.
    + exact Hnd.
    + destruct Hfresh as [Hc Hrest]. cbn [run_calls].
      apply IH; [|exact Hrest].
      now apply run_call_keeps_distinct.
  - intros fd f data r w' H. now apply add_returns_appended in H.
Qed.

Lemma descriptors_stay_distinct_witness :
  NoDup (fds (w_poller
           (run_calls quiet_env
              [Add 5 77 88; Add 6 78 89; Go 5; Remove 5; Add 5 77 88]
              fresh_world))).
Proof.
  refine (proj1 (descriptors_stay_distinct_while_adds_are_fresh
                   quiet_env
                   [Add 5 77 88; Add 6 78 89; Go 5; Remove 5; Add 5 77 88]
                   fresh_world _ _)).
  - constructor.
  - cbn. repeat split; intuition discriminate.
Defined.

(** C7, as the claim has it, fails: [onion_poller_add] never looks for the
    descriptor, so adding 5 twice to a new poller leaves two records for
    descriptor 5. *)
Lemma add_twice_registers_descriptor_twice :
  exists w',
    (onion_poller_add quiet_env 5 77 88 ;; onion_poller_add quiet_env 5 77 88)
      fresh_world = Done 0 w' /\
    fds (w_poller w') = [5; 5] /\
    ~ NoDup (fds (w_poller w')).
Proof.
  exists (world_of
            ((onion_poller_add quiet_env 5 77 88 ;;
              onion_poller_add quiet_env 5 77 88) fresh_world)).
  split; [vm_compute; reflexivity|]. split; [vm_compute; reflexivity|].
  intros H. vm_compute in H. inversion H as [|x l Hin _]; subst.
  apply Hin. now left.
Qed.

(** ** More on the calls above *)

Lemma new_poller_is_fresh (n : Z) :
  onion_poller_new quiet_env n [] =
    NewPoller (w_poller fresh_world) [EvMalloc 4096] /\
  forall E tr,
    os_malloc E tr <> 0 -> os_epoll_create E n < 0 ->
    exists tr', onion_poller_new E n tr = NewNull tr'.
Proof.
  split; [reflexivity|].
  intros E tr Ha H. unfold onion_poller_new.
  rewrite (proj2 (Z.eqb_neq _ _) Ha), (proj2 (Z.ltb_lt _ _) H).
  eexists. reflexivity.
Qed.

(** [onion_poller_add] keeps the registry well formed as long as [malloc]
    answers with a block that is not in use. *)
Lemma add_keeps_wf (E : environment) (fd f data : Z) (w w' : world) r :
  wf_registry (p_head (w_poller w)) ->
  (let a := os_malloc E (w_trace w ++
                         [EvLog DEBUG0 "Adding fd %d for polling (%d)"]) in
   ~ In a (map el_addr (p_head (w_poller w)))) ->
  onion_poller_add E fd f data w = Done r w' ->
  wf_registry (p_head (w_poller w')).
Proof.
  destruct w as [[epfd stop n mx np head] tr].
  unfold onion_poller_add, malloc. cbn.
  intros [Hnd H0] Hfresh.
  destruct (Z.eqb_spec (os_malloc E (tr ++ [EvLog DEBUG0 "Adding fd %d for polling (%d)"])) 0)
    as [Heq|Hne]; cbn; [discriminate|].
  destruct mx; cbn; [discriminate|].
  intros H. inversion H; subst; clear H. cbn.
  destruct head as [|next rest]; cbn [set_p_head p_head].
  - split; cbn.
    + repeat constructor. intros [].
    + intros [Heq|[]]. exact (Hne Heq).
  - rewrite link_last_app. unfold wf_registry. rewrite map_app. cbn [map].
    split.
    + apply NoDup_snoc; assumption.
    + intros Hin. apply in_app_or in Hin. destruct Hin as [Hin|[Heq|[]]].
      * now apply H0.
      * exact (Hne Heq).
Qed.

(** ** Two runs from start to end *)

(** Descriptor 5 is added, configured and activated, becomes ready once, and
    its callback returns 0: the callback has run once, the descriptor has
    been re-armed and is still registered, and the loop is still waiting. *)
Example run_callback_returns_zero :
  (setup_fd5 (once_ready_env 0) ;; onion_poller_poll (once_ready_env 0) 3)
    fresh_world =
  OutOfFuel
    (mk_world
       (mk_poller 3 0 1 false 1 [mk_el 4097 5 77 88 11 12 1000 1000 false 1])
       [EvLog DEBUG0 "Adding fd %d for polling (%d)";
        EvMalloc 4097;
        EvLog DEBUG0 "Added shutdown callback for fd %d";
        EvEpollCtl 3 Epoll.EPOLL_CTL_ADD 5 (Some (Epoll.oneshot_read_hup, 4097));
        EvLog DEBUG0 "Start poll of fds";
        EvLog DEBUG0 "Npollers %d. %d listenings %p";
        EvEpollWait 3 10 (-1);
        EvCallback 77 88;
        EvLog DEBUG0 "Resetting poller %d";
        EvEpollCtl 3 Epoll.EPOLL_CTL_MOD 5 (Some (Epoll.oneshot_read_hup, 4097));
        EvEpollWait 3 10 (-1);
        EvLog DEBUG "Some error happened";
        EvEpollWait 3 10 (-1);
        EvLog DEBUG "Some error happened"]).
Proof. vm_compute. reflexivity. Qed.

(** The same with a callback that returns -1: the descriptor is removed
    within the turn, its shutdown hook runs once between the
    [EPOLL_CTL_DEL] and the [free], and the loop ends on the empty registry
    with [npollers] back at 0. *)
Example run_callback_returns_negative :
  (setup_fd5 (once_ready_env (-1)) ;; onion_poller_poll (once_ready_env (-1)) 3)
    fresh_world =
  Done tt
    (mk_world
       (mk_poller 3 0 0 false 0 [])
       [EvLog DEBUG0 "Adding fd %d for polling (%d)";
        EvMalloc 4097;
        EvLog DEBUG0 "Added shutdown callback for fd %d";
        EvEpollCtl 3 Epoll.EPOLL_CTL_ADD 5 (Some (Epoll.oneshot_read_hup, 4097));
        EvLog DEBUG0 "Start poll of fds";
        EvLog DEBUG0 "Npollers %d. %d listenings %p";
        EvEpollWait 3 10 (-1);
        EvCallback 77 88;
        EvLog DEBUG0 "Trying to remove fd %d (%d)";
        EvLog DEBUG0 "Removed from head %p";
        EvEpollCtl 3 Epoll.EPOLL_CTL_DEL 5 None;
        EvShutdown 11 12;
        EvFree 4097;
        EvLog DEBUG0 "Finished polling fds";
        EvLog DEBUG0 "Npollers %d"]).
Proof. vm_compute. reflexivity. Qed.

(** The events of a removal, counted: the shutdown hook once if there is
    one and never otherwise, one [free], no [EPOLL_CTL_MOD]. *)
Lemma remove_events_counted (E : environment) tr epfd at_head el :
  let evs := remove_events E tr epfd at_head el in
  filter is_shutdown evs =
    (if el_shutdown el =? 0 then []
     else [EvShutdown (el_shutdown el) (el_shutdown_data el)]) /\
  filter is_free evs = [EvFree (el_addr el)] /\
  filter is_rearm evs = [].
Proof.
  unfold remove_events, free_element_events. cbn zeta.
  destruct at_head;
    destruct (os_epoll_ctl E _ Epoll.EPOLL_CTL_DEL (el_fd el) <? 0);
    destruct (el_shutdown el =? 0); repeat split.
Qed.

(** The second removal of C3 from the start: add 5, remove 5, remove 5. *)
Example run_remove_twice :
  (onion_poller_add quiet_env 5 77 88 ;;
   onion_poller_remove quiet_env 5 ;;
   onion_poller_remove quiet_env 5) fresh_world =
  Fault NullPointer
    (mk_world (mk_poller 3 0 0 true 0 [])
       [EvLog DEBUG0 "Adding fd %d for polling (%d)";
        EvMalloc 4097;
        EvLog DEBUG0 "Trying to remove fd %d (%d)";
        EvLog DEBUG0 "Removed from head %p";
        EvEpollCtl 3 Epoll.EPOLL_CTL_DEL 5 None;
        EvFree 4097;
        EvLog DEBUG0 "Trying to remove fd %d (%d)"]).
Proof. vm_compute. reflexivity. Qed.

(** The way out of the loop through the failed wait: the registry has been
    emptied by another thread while this one slept in [epoll_wait]. *)
Example run_wait_fails_on_emptied_registry :
  loop_exits emptying_env stopped_world = true /\
  loop_exits emptying_env two_entries = true /\
  poll_iteration emptying_env two_entries =
    Done Stopped
      (mk_world (mk_poller 3 0 0 false (-1) [])
         [EvEpollWait 3 10 (-1);
          EvLog DEBUG "Some error happened";
          EvLog DEBUG "Finishing the epoll as finished: %s"]).
Proof. repeat split. Qed.

(** * Further properties of the registry calls *)

(** ** What a call that returns has done *)

Lemma int_wrap_add_sub (x : Z) :
  INT_MIN <= x <= INT_MAX -> int_wrap (int_wrap (x + 1) - 1) = x.
Proof.
  unfold INT_MIN, INT_MAX, int_wrap. intros H.
  replace ((x + 1 + 2147483648) mod 4294967296 - 2147483648 - 1 + 2147483648)
    with ((x + 1 + 2147483648) mod 4294967296 - 1) by lia.
  rewrite Zminus_mod_idemp_l.
  replace (x + 1 + 2147483648 - 1) with (x + 2147483648) by lia.
  rewrite Z.mod_small by lia. lia.
Qed.

Lemma add_runs (E : environment) (fd f data : Z) (p : onion_poller) tr :
  let a := add_address E (mk_world p tr) in
  onion_poller_add E fd f data (mk_world p tr) =
  let tr' := tr ++ [EvLog DEBUG0 "Adding fd %d for polling (%d)"; EvMalloc a] in
  if a =? 0 then Fault NullPointer (mk_world p tr')
  else if p_mutex p then Blocked (mk_world p tr')
  else Done 0 (mk_world
                 (set_p_n (int_wrap (p_n p + 1))
                    (set_p_head (p_head p ++ [new_el a fd f data]) p))
                 tr').
Proof.
  destruct p as [epfd stop n mx np head].
  unfold add_address, onion_poller_add, malloc, new_el.
  cbn -[Z.eqb int_wrap].
  rewrite <- app_assoc. cbn [app].
  destruct (os_malloc E _ =? 0); [reflexivity|].
  destruct mx; cbn -[int_wrap]; [reflexivity|].
  destruct head as [|next rest]; cbn -[int_wrap]; [reflexivity|].
  now rewrite link_last_app.
Qed.

(** X1.  With the poller mutex free and a block from [malloc],
    [onion_poller_add] returns 0 and has linked one new record behind the
    ones that were there: the descriptor, callback and data it was given,
    no shutdown hook, both timeouts -1, unlocked, not active; [n] is one
    more and nothing else has changed. *)
Theorem add_appends_unconfigured_inactive_entry
    (E : environment) (fd f data : Z) (w : world) :
  p_mutex (w_poller w) = false ->
  add_address E w <> 0 ->
  exists w',
    onion_poller_add E fd f data w = Done 0 w' /\
    p_head (w_poller w') =
      p_head (w_poller w) ++
      [mk_el (add_address E w) fd f data 0 0 (-1) (-1) false 0] /\
    p_n (w_poller w') = int_wrap (p_n (w_poller w) + 1) /\
    (INT_MIN <= p_n (w_poller w) < INT_MAX ->
     p_n (w_poller w') = p_n (w_poller w) + 1) /\
    p_fd (w_poller w') = p_fd (w_poller w) /\
    p_stop (w_poller w') = p_stop (w_poller w) /\
    p_npollers (w_poller w') = p_npollers (w_poller w) /\
    p_mutex (w_poller w') = false /\
    w_trace w' =
      w_trace w ++ [EvLog DEBUG0 "Adding fd %d for polling (%d)";
                    EvMalloc (add_address E w)].
Proof.
  destruct w as [p tr]. cbn [w_poller w_trace]. intros Hpm Ha.
  rewrite add_runs. cbv zeta.
  rewrite (proj2 (Z.eqb_neq _ _) Ha), Hpm.
  eexists. split; [reflexivity|].
  destruct p as [epfd stop n mx np head]. cbn in Hpm |- *.
  repeat split; try assumption.
  intros H. apply int_wrap_in_range. unfold INT_MIN, INT_MAX in *. lia.
Qed.

Lemma add_appends_witness :
  exists w',
    onion_poller_add quiet_env 5 77 88 fresh_world = Done 0 w' /\
    p_head (w_poller w') = [mk_el 4097 5 77 88 0 0 (-1) (-1) false 0] /\
    p_n (w_poller w') = 1.
Proof.
  destruct (add_appends_unconfigured_inactive_entry quiet_env 5 77 88 fresh_world)
    as (w' & Hrun & Hh & Hn & _).
  - reflexivity.
  - discriminate.
  - exists w'. repeat split; assumption.
Defined.

(** X2.  [onion_poller_add] does not test what [malloc] returned: on NULL it
    writes [nel->fd] through it and faults, before it has taken the poller
    mutex or touched the registry. *)
Theorem add_faults_when_malloc_fails
    (E : environment) (fd f data : Z) (w : world) :
  add_address E w = 0 ->
  onion_poller_add E fd f data w =
  Fault NullPointer
    (mk_world (w_poller w)
       (w_trace w ++ [EvLog DEBUG0 "Adding fd %d for polling (%d)";
                      EvMalloc 0])).
Proof.
  destruct w as [p tr]. cbn [w_poller w_trace]. intros Ha.
  rewrite add_runs. cbv zeta. now rewrite Ha.
Qed.

Lemma add_faults_witness :
  onion_poller_add null_malloc_env 5 77 88 two_entries =
  Fault NullPointer
    (mk_world (w_poller two_entries)
       [EvLog DEBUG0 "Adding fd %d for polling (%d)"; EvMalloc 0]).
Proof.
  exact (add_faults_when_malloc_fails null_malloc_env 5 77 88 two_entries eq_refl).
Defined.

(** ** Configuring an entry *)

Lemma set_timeout_present (fd timeout : Z) (p : onion_poller) tr pre el post :
  p_mutex p = false ->
  wf_registry (pre ++ el :: post) -> p_head p = pre ++ el :: post ->
  Forall (fun e => el_fd e <> fd) pre -> el_fd el = fd ->
  el_mutex el = false ->
  onion_poller_set_timeout fd timeout (mk_world p tr) =
  Done 1 (mk_world (set_p_head (pre ++ set_el_timeout timeout el :: post) p) tr).
Proof.
  intros Hpm Hwf Hh Hpre Hfd Hm. unfold onion_poller_set_timeout.
  rewrite bind_run, (find_fd_and_lock_free fd p tr pre el post) by assumption.
  cbn [poller_is_null].
  assert (Hwf1 : wf_registry (pre ++ set_el_mutex true el :: post))
    by (apply (wf_registry_replace pre el); [assumption | reflexivity]).
  rewrite bind_run.
  rewrite (store_first (set_el_timeout timeout) _ tr pre (set_el_mutex true el)
             post Hwf1) by reflexivity.
  assert (Hwf2 : wf_registry
                   (pre ++ set_el_timeout timeout (set_el_mutex true el) :: post))
    by (apply (wf_registry_replace pre el); [assumption | reflexivity]).
  rewrite bind_run.
  rewrite (unlock_el_first _ tr pre
             (set_el_timeout timeout (set_el_mutex true el)) post Hwf2)
    by reflexivity.
  destruct p, el; cbn in *; subst; reflexivity.
Qed.

Lemma set_shutdown_present (fd f data : Z) (p : onion_poller) tr pre el post :
  p_mutex p = false ->
  wf_registry (pre ++ el :: post) -> p_head p = pre ++ el :: post ->
  Forall (fun e => el_fd e <> fd) pre -> el_fd el = fd ->
  el_mutex el = false ->
  onion_poller_set_shutdown fd f data (mk_world p tr) =
  Done 1 (mk_world (set_p_head (pre ++ set_el_shutdown f data el :: post) p)
                   (tr ++ [EvLog DEBUG0 "Added shutdown callback for fd %d"])).
Proof.
  intros Hpm Hwf Hh Hpre Hfd Hm. unfold onion_poller_set_shutdown.
  rewrite bind_run, (find_fd_and_lock_free fd p tr pre el post) by assumption.
  cbn [poller_is_null]. run.
  assert (Hwf1 : wf_registry (pre ++ set_el_mutex true el :: post))
    by (apply (wf_registry_replace pre el); [assumption | reflexivity]).
  rewrite bind_run.
  rewrite (store_first (set_el_shutdown f data) _ _ pre (set_el_mutex true el)
             post Hwf1) by reflexivity.
  assert (Hwf2 : wf_registry
                   (pre ++ set_el_shutdown f data (set_el_mutex true el) :: post))
    by (apply (wf_registry_replace pre el); [assumption | reflexivity]).
  rewrite bind_run.
  rewrite (unlock_el_first _ _ pre
             (set_el_shutdown f data (set_el_mutex true el)) post Hwf2)
    by reflexivity.
  destruct p, el; cbn in *; subst; reflexivity.
Qed.

(** X3.  On a descriptor of the registry whose first record [el] is free,
    [onion_poller_set_timeout] returns 1 and has written the timeout into
    both [timeout] and [delta_timeout] of that record; the record is
    unlocked again, and no other record, no other field and nothing of the
    poller or the trace has changed. *)
Theorem set_timeout_writes_both_timeouts_of_first_entry
    (fd timeout : Z) (w : world)
    (pre : list onion_poller_el) (el : onion_poller_el)
    (post : list onion_poller_el) :
  p_mutex (w_poller w) = false ->
  wf_registry (p_head (w_poller w)) ->
  p_head (w_poller w) = pre ++ el :: post ->
  Forall (fun e => el_fd e <> fd) pre -> el_fd el = fd ->
  el_mutex el = false ->
  onion_poller_set_timeout fd timeout w =
  Done 1
    (mk_world
       (set_p_head
          (pre ++ mk_el (el_addr el) (el_fd el) (el_f el) (el_data el)
                        (el_shutdown el) (el_shutdown_data el)
                        timeout timeout false (el_active el) :: post)
          (w_poller w))
       (w_trace w)).
Proof.
  destruct w as [p tr]. cbn [w_poller w_trace].
  intros Hpm Hwf Hh Hpre Hfd Hm. rewrite Hh in Hwf.
  rewrite (set_timeout_present fd timeout p tr pre el post) by assumption.
  unfold set_el_timeout. now rewrite Hm.
Qed.

Lemma set_timeout_witness :
  onion_poller_set_timeout 6 1000 two_entries =
  Done 1
    (mk_world
       (mk_poller 3 0 2 false 0
          [el5; mk_el 4099 6 78 89 21 22 1000 1000 false 0])
       []).
Proof.
  refine (set_timeout_writes_both_timeouts_of_first_entry
            6 1000 two_entries [el5] el6 []
            eq_refl two_entries_wf eq_refl _ eq_refl eq_refl).
  repeat constructor. discriminate.
Defined.

(** X4.  On a descriptor of the registry whose first record [el] is free,
    [onion_poller_set_shutdown] returns 1 and has written the hook and its
    data into that record, replacing any earlier hook; the record is
    unlocked again and nothing else has changed. *)
Theorem set_shutdown_records_hook_of_first_entry
    (fd f data : Z) (w : world)
    (pre : list onion_poller_el) (el : onion_poller_el)
    (post : list onion_poller_el) :
  p_mutex (w_poller w) = false ->
  wf_registry (p_head (w_poller w)) ->
  p_head (w_poller w) = pre ++ el :: post ->
  Forall (fun e => el_fd e <> fd) pre -> el_fd el = fd ->
  el_mutex el = false ->
  onion_poller_set_shutdown fd f data w =
  Done 1
    (mk_world
       (set_p_head
          (pre ++ mk_el (el_addr el) (el_fd el) (el_f el) (el_data el)
                        f data
                        (el_delta_timeout el) (el_timeout el) false
                        (el_active el) :: post)
          (w_poller w))
       (w_trace w ++ [EvLog DEBUG0 "Added shutdown callback for fd %d"])).
Proof.
  destruct w as [p tr]. cbn [w_poller w_trace].
  intros Hpm Hwf Hh Hpre Hfd Hm. rewrite Hh in Hwf.
  rewrite (set_shutdown_present fd f data p tr pre el post) by assumption.
  unfold set_el_shutdown. now rewrite Hm.
Qed.

Lemma set_shutdown_witness :
  onion_poller_set_shutdown 6 31 32 two_entries =
  Done 1
    (mk_world
       (mk_poller 3 0 2 false 0
          [el5; mk_el 4099 6 78 89 31 32 (-1) (-1) false 0])
       [EvLog DEBUG0 "Added shutdown callback for fd %d"]).
Proof.
  refine (set_shutdown_records_hook_of_first_entry
            6 31 32 two_entries [el5] el6 []
            eq_refl two_entries_wf eq_refl _ eq_refl eq_refl).
  repeat constructor. discriminate.
Defined.

(** ** Lookup *)

(** X5.  [onion_poller_find_fd_and_lock], started with the poller mutex
    free on a well-formed registry.  If the descriptor is not there it
    returns NULL and has changed nothing.  Whenever it returns, the poller
    mutex is free again and the trace is as before; it returns NULL only
    for a descriptor that is not there, and a non-NULL result is the
    address of the first record of that descriptor, which was free and is
    now locked, with nothing else changed. *)
Theorem find_fd_and_lock_returns_first_entry_locked (fd : Z) (w : world) :
  p_mutex (w_poller w) = false ->
  wf_registry (p_head (w_poller w)) ->
  (~ In fd (fds (w_poller w)) ->
   onion_poller_find_fd_and_lock fd w = Done 0 w) /\
  (forall r w',
     onion_poller_find_fd_and_lock fd w = Done r w' ->
     p_mutex (w_poller w') = false /\
     w_trace w' = w_trace w /\
     (r = 0 -> ~ In fd (fds (w_poller w)) /\ w' = w) /\
     (r <> 0 ->
      exists pre el post,
        p_head (w_poller w) = pre ++ el :: post /\
        Forall (fun e => el_fd e <> fd) pre /\
        el_fd el = fd /\ el_addr el = r /\ el_mutex el = false /\
        w_poller w' =
          set_p_head (pre ++ set_el_mutex true el :: post) (w_poller w))).
Proof.
  destruct w as [p tr]. cbn [w_poller w_trace]. intros Hpm Hwf.
  split; [intros Hin; now apply find_fd_and_lock_absent|].
  intros r w' Hrun.
  destruct (in_dec Z.eq_dec fd (fds p)) as [Hin|Hnin].
  - destruct (find_fd_present fd (p_head p) Hin)
      as (pre & el & post & Hh & Hfd & Hpre).
    rewrite Hh in Hwf.
    destruct (wf_registry_split _ _ _ Hwf) as (H0 & _ & _).
    destruct (el_mutex el) eqn:Hm.
    + rewrite (find_fd_and_lock_held fd p tr pre el post) in Hrun by assumption.
      discriminate.
    + rewrite (find_fd_and_lock_free fd p tr pre el post) in Hrun by assumption.
      inversion Hrun; subst; clear Hrun. cbn [w_poller w_trace].
      split; [destruct p; cbn in *; assumption|].
      split; [reflexivity|]. split.
      * intros Hr. contradiction.
      * intros _. exists pre, el, post.
        split; [assumption|]. split; [assumption|].
        split; [reflexivity|]. split; [reflexivity|].
        split; [assumption | reflexivity].
  - rewrite find_fd_and_lock_absent in Hrun by assumption.
    inversion Hrun; subst; clear Hrun. cbn [w_poller w_trace].
    split; [assumption|]. split; [reflexivity|]. split.
    + intros _. split; [assumption | reflexivity].
    + intros Hr. now contradiction Hr.
Qed.

Lemma find_fd_and_lock_witness :
  onion_poller_find_fd_and_lock 7 two_entries = Done 0 two_entries /\
  (forall r w',
     onion_poller_find_fd_and_lock 6 two_entries = Done r w' ->
     p_mutex (w_poller w') = false /\ w_trace w' = w_trace two_entries).
Proof.
  destruct (find_fd_and_lock_returns_first_entry_locked 7 two_entries
              eq_refl two_entries_wf) as (Habs & _).
  destruct (find_fd_and_lock_returns_first_entry_locked 6 two_entries
              eq_refl two_entries_wf) as (_ & Hret).
  split.
  - apply Habs. cbn. intros [H|[H|[]]]; discriminate.
  - intros r w' Hrun. destruct (Hret r w' Hrun) as (H1 & H2 & _).
    split; assumption.
Defined.

(** ** Removing *)

Lemma remove_returns (E : environment) (fd : Z) (p : onion_poller) tr r w' :
  onion_poller_remove E fd (mk_world p tr) = Done r w' ->
  r = 0 /\ p_mutex p = false /\
  ((~ In fd (fds p) /\ p_head p <> [] /\
    w' = mk_world p
           (tr ++ [EvLog DEBUG0 "Trying to remove fd %d (%d)";
                   EvLog WARNING "Trying to remove unknown fd from poller %d"]))
   \/
   (exists pre el post,
      p_head p = pre ++ el :: post /\
      Forall (fun e => el_fd e <> fd) pre /\ el_fd el = fd /\
      el_mutex el = false /\
      hook_returns (remove_hook E p tr pre el post) = true /\
      w' = mk_world
             (set_p_n (int_wrap (p_n p - 1))
                (set_p_head (pre ++ post)
                   (hook_writes (remove_hook E p tr pre el post) p)))
             (tr ++ remove_events E tr (p_fd p) (is_nil pre) el))).
Proof.
  intros Hrun.
  destruct (p_mutex p) eqn:Hpm.
  { exfalso. destruct p as [epfd stop n mx np head]. cbn in Hpm. subst mx.
    discriminate Hrun. }
  destruct (in_dec Z.eq_dec fd (fds p)) as [Hin|Hnin].
  - destruct (find_fd_present fd (p_head p) Hin)
      as (pre & el & post & Hh & Hfd & Hpre).
    subst fd.
    destruct (el_mutex el) eqn:Hm.
    + rewrite (remove_present_held E p tr pre el post) in Hrun by assumption.
      discriminate.
    + rewrite (remove_present E p tr pre el post) in Hrun by assumption.
      destruct (hook_returns (remove_hook E p tr pre el post)) eqn:Hret;
        [|discriminate Hrun].
      inversion Hrun; subst; clear Hrun.
      split; [reflexivity|]. split; [reflexivity|]. right.
      exists pre, el, post.
      split; [assumption|]. split; [assumption|]. split; [reflexivity|].
      split; [assumption|]. split; [assumption | reflexivity].
  - destruct (p_head p) as [|e0 rest] eqn:Hh.
    + exfalso. destruct p as [epfd stop n mx np head]. cbn in Hpm, Hh.
      subst mx head. discriminate Hrun.
    + assert (Hne : p_head p <> []) by (rewrite Hh; discriminate).
      rewrite (remove_absent_nonempty E fd p tr Hpm Hne Hnin) in Hrun.
      inversion Hrun; subst; clear Hrun.
      split; [reflexivity|]. split; [reflexivity|]. left.
      split; [assumption|]. split; [discriminate | reflexivity].
Qed.

(** X6.  On a registry that is not empty and does not hold the descriptor,
    [onion_poller_remove] (poller mutex free) returns 0 having logged a
    warning and nothing else: no [epoll_ctl], no hook, no [free], and the
    poller is exactly as it was. *)
Theorem remove_unknown_fd_on_nonempty_registry_only_warns
    (E : environment) (fd : Z) (w : world) :
  p_mutex (w_poller w) = false ->
  p_head (w_poller w) <> [] ->
  ~ In fd (fds (w_poller w)) ->
  onion_poller_remove E fd w =
  Done 0
    (mk_world (w_poller w)
       (w_trace w ++
        [EvLog DEBUG0 "Trying to remove fd %d (%d)";
         EvLog WARNING "Trying to remove unknown fd from poller %d"])).
Proof.
  destruct w as [p tr]. cbn [w_poller w_trace]. intros Hpm Hne Hin.
  now apply remove_absent_nonempty.
Qed.

Lemma remove_unknown_fd_witness :
  onion_poller_remove quiet_env 7 two_entries =
  Done 0
    (mk_world (w_poller two_entries)
       [EvLog DEBUG0 "Trying to remove fd %d (%d)";
        EvLog WARNING "Trying to remove unknown fd from poller %d"]).
Proof.
  refine (remove_unknown_fd_on_nonempty_registry_only_warns
            quiet_env 7 two_entries eq_refl _ _).
  - discriminate.
  - cbn. intros [H|[H|[]]]; discriminate.
Defined.

Lemma count_occ_remove_middle (pre post : list Z) (x d : Z) :
  count_occ Z.eq_dec (pre ++ x :: post) d =
  (count_occ Z.eq_dec (pre ++ post) d + (if Z.eq_dec x d then 1 else 0))%nat.
Proof.
  rewrite !count_occ_app. cbn. destruct (Z.eq_dec x d); lia.
Qed.

(** X7.  The value [onion_poller_remove] returns says nothing: it is 0
    whenever the call returns.  What a returning call has done to the
    registry is to take out one record of the descriptor, the first, if there
    was one: the descriptor occurs once less (so it is still registered if
    it had been added twice), every other descriptor occurs as often as
    before, and a descriptor that was not there leaves the registry as it
    was. *)
Theorem remove_returns_zero_and_takes_out_one_occurrence
    (E : environment) (fd : Z) (w : world) (r : Z) (w' : world) :
  onion_poller_remove E fd w = Done r w' ->
  r = 0 /\
  (forall d, d <> fd ->
     count_occ Z.eq_dec (fds (w_poller w')) d =
     count_occ Z.eq_dec (fds (w_poller w)) d) /\
  (In fd (fds (w_poller w)) ->
     S (count_occ Z.eq_dec (fds (w_poller w')) fd) =
     count_occ Z.eq_dec (fds (w_poller w)) fd) /\
  (~ In fd (fds (w_poller w)) -> w_poller w' = w_poller w).
Proof.
  destruct w as [p tr]. cbn [w_poller w_trace]. intros Hrun.
  destruct (remove_returns E fd p tr r w' Hrun)
    as (Hr & _ & [(Hnin & _ & ->)
                 | (pre & el & post & Hh & Hpre & Hfd & _ & _ & ->)]).
  - split; [assumption|]. cbn [w_poller].
    split; [reflexivity|]. split; [contradiction | reflexivity].
  - assert (Hin : In fd (fds p)).
    { unfold fds. rewrite Hh, map_app. apply in_or_app. right. left. exact Hfd. }
    assert (Hfds : fds p = map el_fd pre ++ fd :: map el_fd post).
    { unfold fds. rewrite Hh, map_app. cbn. now rewrite Hfd. }
    assert (Hfds' : forall q,
              fds (set_p_n (int_wrap (p_n p - 1))
                     (set_p_head (pre ++ post) q)) =
              map el_fd pre ++ map el_fd post).
    { intros q. unfold fds. cbn. apply map_app. }
    split; [assumption|]. cbn [w_poller]. rewrite Hfds, Hfds'.
    split; [|split].
    + intros d Hd. rewrite count_occ_remove_middle.
      destruct (Z.eq_dec fd d); [congruence | lia].
    + intros _. rewrite count_occ_remove_middle.
      destruct (Z.eq_dec fd fd); [lia | congruence].
    + intros Hnin. exfalso. apply Hnin. apply in_or_app. right. now left.
Qed.

Lemma remove_one_occurrence_witness :
  exists w2 w3,
    (onion_poller_add quiet_env 5 77 88 ;; onion_poller_add quiet_env 5 77 88)
      fresh_world = Done 0 w2 /\
    onion_poller_remove quiet_env 5 w2 = Done 0 w3 /\
    S (count_occ Z.eq_dec (fds (w_poller w3)) 5) =
      count_occ Z.eq_dec (fds (w_poller w2)) 5 /\
    fds (w_poller w3) = [5].
Proof.
  pose (w2 := world_of ((onion_poller_add quiet_env 5 77 88 ;;
                         onion_poller_add quiet_env 5 77 88) fresh_world)).
  pose (w3 := world_of (onion_poller_remove quiet_env 5 w2)).
  assert (Hrun : onion_poller_remove quiet_env 5 w2 = Done 0 w3)
    by (vm_compute; reflexivity).
  destruct (remove_returns_zero_and_takes_out_one_occurrence
              quiet_env 5 w2 0 w3 Hrun) as (_ & _ & Hone & _).
  exists w2, w3.
  split; [vm_compute; reflexivity|]. split; [exact Hrun|].
  split; [apply Hone; vm_compute; now left | vm_compute; reflexivity].
Defined.

(** ** Adding, then removing or activating *)

Lemma not_in_fds_forall (fd : Z) (l : list onion_poller_el) :
  ~ In fd (map el_fd l) -> Forall (fun e => el_fd e <> fd) l.
Proof.
  induction l as [|e l IH]; cbn; intros H; constructor.
  - intros Heq. apply H. now left.
  - apply IH. intros Hin. apply H. now right.
Qed.

Lemma wf_registry_snoc (l : list onion_poller_el) (e : onion_poller_el) :
  wf_registry l -> el_addr e <> 0 -> ~ In (el_addr e) (map el_addr l) ->
  wf_registry (l ++ [e]).
Proof.
  intros [Hnd H0] Hne Hfresh. unfold wf_registry. rewrite map_app. cbn [map].
  split.
  - now apply NoDup_snoc.
  - intros Hin. apply in_app_or in Hin. destruct Hin as [Hin|[Heq|[]]].
    + now apply H0.
    + now apply Hne.
Qed.

(** X8.  Adding a descriptor that is not in the registry and removing it
    again gives the poller back exactly as it was (registry, [n], mutex), for
    any [n] an [int] can hold; the record [malloc] gave is freed, the only
    [epoll_ctl] is the [EPOLL_CTL_DEL] of the removal, and no shutdown hook
    runs, since a new record has none. *)
Theorem add_then_remove_restores_the_poller
    (E : environment) (fd f data : Z) (w : world) :
  p_mutex (w_poller w) = false ->
  add_address E w <> 0 ->
  ~ In fd (fds (w_poller w)) ->
  INT_MIN <= p_n (w_poller w) <= INT_MAX ->
  exists w',
    (onion_poller_add E fd f data ;; onion_poller_remove E fd) w = Done 0 w' /\
    w_poller w' = w_poller w /\
    w_trace w' =
      let a := add_address E w in
      let tr1 := w_trace w ++
                 [EvLog DEBUG0 "Adding fd %d for polling (%d)"; EvMalloc a;
                  EvLog DEBUG0 "Trying to remove fd %d (%d)";
                  EvLog DEBUG0 (if is_nil (p_head (w_poller w))
                                then "Removed from head %p"
                                else "Removed from tail %p")] in
      tr1 ++ [EvEpollCtl (p_fd (w_poller w)) Epoll.EPOLL_CTL_DEL fd None]
          ++ (if os_epoll_ctl E tr1 Epoll.EPOLL_CTL_DEL fd <? 0
              then [EvLog ERROR "Error remove descriptor to listen to. %s"]
              else [])
          ++ [EvFree a].
Proof.
  destruct w as [p tr]. cbn [w_poller w_trace]. intros Hpm Ha Hnin Hn.
  rewrite bind_run, add_runs. cbv zeta.
  rewrite (proj2 (Z.eqb_neq _ _) Ha), Hpm.
  set (a := add_address E (mk_world p tr)).
  change fd with (el_fd (new_el a fd f data)) at 2.
  rewrite (remove_present E _ _ (p_head p) (new_el a fd f data) []);
    [| destruct p; cbn in *; assumption
     | reflexivity
     | now apply not_in_fds_forall
     | reflexivity].
  eexists. split; [reflexivity|]. cbn [w_poller w_trace]. split.
  - destruct p as [epfd stop n mx np head]. cbn in Hpm, Hn |- *. subst mx.
    now rewrite app_nil_r, int_wrap_add_sub.
  - unfold remove_events, free_element_events.
    cbn [el_fd el_shutdown el_addr new_el Z.eqb app].
    destruct p as [epfd stop n mx np head]. cbn [p_fd p_head set_p_n set_p_head].
    now rewrite <- !app_assoc.
Qed.

Lemma add_then_remove_witness :
  exists w',
    (onion_poller_add quiet_env 7 70 71 ;; onion_poller_remove quiet_env 7)
      two_entries_traced = Done 0 w' /\
    w_poller w' = w_poller two_entries.
Proof.
  destruct (add_then_remove_restores_the_poller quiet_env 7 70 71
              two_entries_traced)
    as (w' & Hrun & Hp & _).
  - reflexivity.
  - discriminate.
  - cbn. intros [H|[H|[]]]; discriminate.
  - unfold INT_MIN, INT_MAX. cbn. lia.
  - exists w'. split; assumption.
Defined.

(** X9.  A descriptor that has just been added is found: [onion_poller_go]
    right after [onion_poller_add] (descriptor not yet registered, [malloc]
    answering with a block that is not in use) returns 1, has marked the
    new record active and has handed its address to [epoll] with
    [EPOLLIN|EPOLLHUP|EPOLLONESHOT]; the records that were there are
    untouched. *)
Theorem add_then_go_activates_the_new_entry
    (E : environment) (fd f data : Z) (w : world) :
  p_mutex (w_poller w) = false ->
  wf_registry (p_head (w_poller w)) ->
  add_address E w <> 0 ->
  ~ In (add_address E w) (map el_addr (p_head (w_poller w))) ->
  ~ In fd (fds (w_poller w)) ->
  let a := add_address E w in
  let tr1 := w_trace w ++
             [EvLog DEBUG0 "Adding fd %d for polling (%d)"; EvMalloc a] in
  let failed := os_epoll_ctl E tr1 Epoll.EPOLL_CTL_ADD fd <? 0 in
  exists w',
    (onion_poller_add E fd f data ;; onion_poller_go E fd) w = Done 1 w' /\
    p_head (w_poller w') =
      p_head (w_poller w) ++ [mk_el a fd f data 0 0 (-1) (-1) failed 1] /\
    w_trace w' =
      tr1 ++ EvEpollCtl (p_fd (w_poller w)) Epoll.EPOLL_CTL_ADD fd
                        (Some (Epoll.oneshot_read_hup, a))
          :: (if failed
              then [EvLog ERROR "Error add descriptor to listen to. %s"]
              else []).
Proof.
  destruct w as [p tr]. cbn [w_poller w_trace].
  intros Hpm Hwf Ha Hfresh Hnin. cbv zeta.
  rewrite bind_run, add_runs. cbv zeta.
  rewrite (proj2 (Z.eqb_neq _ _) Ha), Hpm.
  set (a := add_address E (mk_world p tr)) in *.
  rewrite (go_present E fd _ _ (p_head p) (new_el a fd f data) []);
    [| destruct p; cbn in *; assumption
     | now apply wf_registry_snoc
     | reflexivity
     | now apply not_in_fds_forall
     | reflexivity
     | reflexivity].
  eexists. split; [reflexivity|]. cbn [w_poller w_trace].
  destruct p as [epfd stop n mx np head]. cbn. split; reflexivity.
Qed.

Lemma add_then_go_witness :
  exists w',
    (onion_poller_add quiet_env 7 70 71 ;; onion_poller_go quiet_env 7)
      two_entries_traced = Done 1 w' /\
    p_head (w_poller w') =
      [el5; el6; mk_el 4101 7 70 71 0 0 (-1) (-1) false 1].
Proof.
  destruct (add_then_go_activates_the_new_entry
              quiet_env 7 70 71 two_entries_traced)
    as (w' & Hrun & Hh & _).
  - reflexivity.
  - exact two_entries_wf.
  - discriminate.
  - cbn. intros [H|[H|[]]]; discriminate.
  - cbn. intros [H|[H|[]]]; discriminate.
  - exists w'. split; assumption.
Defined.

(** ** Properties of the poller that survive the calls *)

Section KeepsThroughUpdates.

(** [P] does not look at the poller mutex, and survives the record updates
    in [G], among them locking and unlocking a record. *)
Variable P : onion_poller -> Prop.
Variable G : (onion_poller_el -> onion_poller_el) -> Prop.
Hypothesis P_mutex : forall b p, P p -> P (set_p_mutex b p).
Hypothesis P_update :
  forall a g p, G g -> P p -> P (set_p_head (update_el a g (p_head p)) p).
Hypothesis G_mutex : forall b, G (set_el_mutex b).

Lemma gkeeps_load (a : Z) : keeps P (load a).
Proof.
  unfold load. destruct (a =? 0); [apply keeps_fail_with|].
  apply keeps_bind; [apply keeps_get_poller|]. intros p.
  destruct (el_at a (p_head p)); [apply keeps_ret | apply keeps_fail_with].
Qed.

Lemma gkeeps_store (a : Z) (g : onion_poller_el -> onion_poller_el) :
  G g -> keeps P (store a g).
Proof.
  intros Hg. apply keeps_bind; [apply gkeeps_load|]. intros _.
  apply keeps_modify_poller. intros p Hp. now apply P_update.
Qed.

Lemma gkeeps_lock_poller : keeps P pthread_mutex_lock_poller.
Proof.
  apply keeps_bind; [apply keeps_get_poller|]. intros p.
  destruct (p_mutex p); [apply keeps_block|].
  apply keeps_modify_poller. apply P_mutex.
Qed.

Lemma gkeeps_unlock_poller : keeps P pthread_mutex_unlock_poller.
Proof. apply keeps_modify_poller. apply P_mutex. Qed.

Lemma gkeeps_lock_el (a : Z) : keeps P (pthread_mutex_lock_el a).
Proof.
  apply keeps_bind; [apply gkeeps_load|]. intros e.
  destruct (el_mutex e); [apply keeps_block | now apply gkeeps_store].
Qed.

Lemma gkeeps_unlock_el (a : Z) : keeps P (pthread_mutex_unlock_el a).
Proof. now apply gkeeps_store. Qed.

Lemma gkeeps_find_fd_and_lock (fd : Z) :
  keeps P (onion_poller_find_fd_and_lock fd).
Proof.
  apply keeps_bind; [apply gkeeps_lock_poller|]. intros _.
  apply keeps_bind; [apply keeps_get_poller|]. intros p.
  apply keeps_bind; [apply keeps_when, gkeeps_lock_el|]. intros _.
  apply keeps_bind; [apply gkeeps_unlock_poller|]. intros _.
  apply keeps_ret.
Qed.

Lemma gkeeps_go (E : environment) (fd : Z) :
  G (set_el_active 1) -> keeps P (onion_poller_go E fd).
Proof.
  intros Hg.
  apply keeps_bind; [apply gkeeps_find_fd_and_lock|]. intros el.
  destruct (el =? 0); [apply keeps_ret|].
  apply keeps_bind; [now apply gkeeps_store|]. intros _.
  apply keeps_bind; [apply keeps_get_poller|]. intros p.
  apply keeps_bind; [apply keeps_epoll_ctl|]. intros r.
  destruct (r <? 0).
  - apply keeps_bind; [apply keeps_log|]. intros _. apply keeps_ret.
  - apply keeps_bind; [apply gkeeps_unlock_el|]. intros _. apply keeps_ret.
Qed.

Lemma gkeeps_set_timeout (fd timeout : Z) :
  G (set_el_timeout timeout) -> keeps P (onion_poller_set_timeout fd timeout).
Proof.
  intros Hg. unfold onion_poller_set_timeout.
  apply keeps_bind; [apply gkeeps_find_fd_and_lock|]. intros el.
  cbn [poller_is_null].
  apply keeps_bind; [now apply gkeeps_store|]. intros _.
  apply keeps_bind; [apply gkeeps_unlock_el|]. intros _. apply keeps_ret.
Qed.

Lemma gkeeps_set_shutdown (fd f data : Z) :
  G (set_el_shutdown f data) -> keeps P (onion_poller_set_shutdown fd f data).
Proof.
  intros Hg. unfold onion_poller_set_shutdown.
  apply keeps_bind; [apply gkeeps_find_fd_and_lock|]. intros el.
  cbn [poller_is_null].
  apply keeps_bind; [apply keeps_log|]. intros _.
  apply keeps_bind; [now apply gkeeps_store|]. intros _.
  apply keeps_bind; [apply gkeeps_unlock_el|]. intros _. apply keeps_ret.
Qed.

(** [P] also survives a change of [n] and a write to [stop], which is all
    a shutdown hook can do to the poller: then it survives what
    [onion_poller_remove] does once the record is unlinked. *)
Hypothesis P_n : forall v p, P p -> P (set_p_n v p).
Hypothesis P_stop : forall v p, P p -> P (set_p_stop v p).

Lemma gkeeps_free_element (E : environment) (el : onion_poller_el) :
  keeps P (onion_poller_free_element E el).
Proof.
  apply keeps_bind; [apply keeps_when, keeps_block|]. intros _.
  apply keeps_bind; [apply keeps_get_poller|]. intros p.
  apply keeps_bind; [apply keeps_epoll_ctl|]. intros r.
  apply keeps_bind; [apply keeps_when, keeps_log|]. intros _.
  apply keeps_bind; [apply keeps_when, keeps_call_hook, P_stop|]. intros _.
  apply keeps_bind; [apply keeps_emit|]. intros _.
  apply keeps_modify_poller. intros p' Hp'. now apply P_n.
Qed.

Lemma gkeeps_after_unlink (E : environment) (el : onion_poller_el) :
  keeps P
    (onion_poller_free_element E el ;; pthread_mutex_unlock_poller ;; ret 0).
Proof.
  apply keeps_bind; [apply gkeeps_free_element|]. intros _.
  apply keeps_bind; [apply gkeeps_unlock_poller|]. intros _.
  apply keeps_ret.
Qed.

End KeepsThroughUpdates.

Lemma update_el_map {B : Type} (h : onion_poller_el -> B) (a : Z)
    (g : onion_poller_el -> onion_poller_el) (l : list onion_poller_el) :
  (forall e, h (g e) = h e) -> map h (update_el a g l) = map h l.
Proof.
  intros Hg. unfold update_el. rewrite map_map. apply map_ext.
  intros e. destruct (el_addr e =? a); [apply Hg | reflexivity].
Qed.

Lemma same_entries_refl (p : onion_poller) : same_entries p p.
Proof. repeat split. Qed.

Lemma same_entries_update (p0 : onion_poller) a g p :
  keeps_identity g -> same_entries p0 p ->
  same_entries p0 (set_p_head (update_el a g (p_head p)) p).
Proof.
  intros Hg (Ha & Hfd & Hf & Hd & H). unfold same_entries. cbn.
  rewrite !update_el_map by (intros e; apply (Hg e)).
  repeat split; try assumption; apply H.
Qed.

Lemma same_entries_mutex (p0 : onion_poller) b p :
  same_entries p0 p -> same_entries p0 (set_p_mutex b p).
Proof. intros H. exact H. Qed.

Lemma identity_kept_by_lock (b : bool) : keeps_identity (set_el_mutex b).
Proof. intros e. repeat split. Qed.

Lemma go_keeps_entries (E : environment) (fd : Z) (w : world) :
  same_entries (w_poller w) (w_poller (world_of (onion_poller_go E fd w))).
Proof.
  apply (gkeeps_go (same_entries (w_poller w)) keeps_identity
           (same_entries_mutex _) (same_entries_update _)
           identity_kept_by_lock E fd).
  - intros e. repeat split.
  - apply same_entries_refl.
Qed.

Lemma set_shutdown_keeps_entries (fd f data : Z) (w : world) :
  same_entries (w_poller w)
    (w_poller (world_of (onion_poller_set_shutdown fd f data w))).
Proof.
  apply (gkeeps_set_shutdown (same_entries (w_poller w)) keeps_identity
           (same_entries_mutex _) (same_entries_update _)
           identity_kept_by_lock fd f data).
  - intros e. repeat split.
  - apply same_entries_refl.
Qed.

Lemma set_timeout_keeps_entries (fd timeout : Z) (w : world) :
  same_entries (w_poller w)
    (w_poller (world_of (onion_poller_set_timeout fd timeout w))).
Proof.
  apply (gkeeps_set_timeout (same_entries (w_poller w)) keeps_identity
           (same_entries_mutex _) (same_entries_update _)
           identity_kept_by_lock fd timeout).
  - intros e. repeat split.
  - apply same_entries_refl.
Qed.

(** X10.  [onion_poller_go], [onion_poller_set_shutdown] and
    [onion_poller_set_timeout] never add, drop, move or re-address a record,
    never change a record's descriptor, callback or data, and never change
    [n], [stop], [npollers] or the epoll handle of the poller: this holds
    for the world they leave however they end (returned, blocked or
    faulted), for every descriptor, found or not. *)
Theorem configuring_calls_keep_entries_and_counters
    (E : environment) (w : world) (fd f data timeout : Z) :
  same_entries (w_poller w) (w_poller (world_of (onion_poller_go E fd w))) /\
  same_entries (w_poller w)
    (w_poller (world_of (onion_poller_set_shutdown fd f data w))) /\
  same_entries (w_poller w)
    (w_poller (world_of (onion_poller_set_timeout fd timeout w))).
Proof.
  split; [apply go_keeps_entries|].
  split; [apply set_shutdown_keeps_entries | apply set_timeout_keeps_entries].
Qed.

Lemma same_entries_count (p0 p : onion_poller) :
  same_entries p0 p -> count_ok p0 -> count_ok p.
Proof.
  intros (Ha & _ & _ & _ & _ & _ & Hn & _) Hc. unfold count_ok in *.
  rewrite Hn, Hc. f_equal.
  rewrite <- (length_map el_addr (p_head p0)), <- (length_map el_addr (p_head p)).
  now rewrite Ha.
Qed.

(** X11.  [n] is the number of records: if [n] equals the length of the
    registry (and is below [INT_MAX]), it still does after any of the five
    registry calls that returns. *)
Theorem registry_calls_keep_the_count
    (E : environment) (c : registry_call) (w : world) (r : Z) (w' : world) :
  count_ok (w_poller w) ->
  p_n (w_poller w) < INT_MAX ->
  run_registry_call E c w = Done r w' ->
  count_ok (w_poller w').
Proof.
  destruct w as [p tr]. cbn [w_poller]. intros Hc Hmax Hrun.
  destruct c as [fd f data|fd|fd f data|fd timeout|fd]; cbn [run_registry_call] in Hrun.
  - rewrite add_runs in Hrun. cbv zeta in Hrun.
    destruct (add_address E _ =? 0); [discriminate|].
    destruct (p_mutex p); [discriminate|].
    inversion Hrun; subst; clear Hrun. unfold count_ok in *. cbn.
    rewrite length_app. cbn [List.length].
    rewrite int_wrap_in_range by (unfold INT_MIN, INT_MAX in *; lia). lia.
  - apply (same_entries_count p); [|assumption].
    pose proof (go_keeps_entries E fd (mk_world p tr)) as H.
    rewrite Hrun in H. exact H.
  - apply (same_entries_count p); [|assumption].
    pose proof (set_shutdown_keeps_entries fd f data (mk_world p tr)) as H.
    rewrite Hrun in H. exact H.
  - apply (same_entries_count p); [|assumption].
    pose proof (set_timeout_keeps_entries fd timeout (mk_world p tr)) as H.
    rewrite Hrun in H. exact H.
  - destruct (remove_returns E fd p tr r w' Hrun)
      as (_ & _ & [(_ & _ & ->) | (pre & el & post & Hh & _ & _ & _ & _ & ->)]).
    + exact Hc.
    + unfold count_ok in *. cbn. rewrite Hh in Hc.
      rewrite length_app in Hc |- *. cbn [List.length] in Hc.
      rewrite int_wrap_in_range by (unfold INT_MIN, INT_MAX in *; lia). lia.
Qed.

Lemma registry_calls_keep_the_count_witness :
  count_ok
    (w_poller
       (world_of (run_registry_call quiet_env (CallRemove 6) two_entries))).
Proof.
  apply (registry_calls_keep_the_count quiet_env (CallRemove 6) two_entries 0).
  - reflexivity.
  - reflexivity.
  - vm_compute. reflexivity.
Defined.

Lemma remove_next_head (E : environment) (fd : Z) (next : list onion_poller_el) :
  forall before w,
    let h' := p_head (w_poller (world_of (remove_next E fd before next w))) in
    h' = p_head (w_poller w) \/
    exists pre el post, before ++ next = pre ++ el :: post /\ h' = pre ++ post.
Proof.
  induction next as [|t rest IH]; intros before w; cbn zeta.
  - left. reflexivity.
  - cbn [remove_next]. destruct (el_fd t =? fd).
    + right. exists before, t, rest. split; [reflexivity|].
      rewrite bind_run. cbn [ONION_LOG emit]. rewrite bind_run.
      cbn [modify_poller w_poller w_trace].
      apply (gkeeps_after_unlink (fun p => p_head p = before ++ rest));
        [intros b p H; exact H | intros v p H; exact H
         | intros v p H; exact H | reflexivity].
    + specialize (IH (before ++ [t]) w). cbn zeta in IH.
      rewrite <- app_assoc in IH. exact IH.
Qed.

Lemma remove_head (E : environment) (fd : Z) (w : world) :
  let h := p_head (w_poller w) in
  let h' := p_head (w_poller (world_of (onion_poller_remove E fd w))) in
  h' = h \/ exists pre el post, h = pre ++ el :: post /\ h' = pre ++ post.
Proof.
  destruct w as [[epfd stop n mx np head] tr]. cbn zeta.
  unfold onion_poller_remove.
  destruct mx; [now left|]. run.
  destruct head as [|el rest]; [now left|].
  destruct (el_fd el =? fd).
  - right. exists [], el, rest. split; [reflexivity|].
    rewrite bind_run. cbn [ONION_LOG emit]. rewrite bind_run.
    cbn [modify_poller w_poller w_trace].
    apply (gkeeps_after_unlink (fun p => p_head p = [] ++ rest));
      [intros b p H; exact H | intros v p H; exact H
       | intros v p H; exact H | reflexivity].
  - exact (remove_next_head E fd rest [el] _).
Qed.

Lemma in_step_update (a : Z) (g : onion_poller_el -> onion_poller_el)
    (p : onion_poller) :
  keeps_in_step g -> timeouts_untouched p ->
  timeouts_untouched (set_p_head (update_el a g (p_head p)) p).
Proof.
  intros Hg Hp. unfold timeouts_untouched in *. cbn [p_head set_p_head].
  unfold update_el. apply Forall_map.
  apply (Forall_impl _ (P := fun e => el_delta_timeout e = el_timeout e));
    [|exact Hp].
  intros e He. destruct (el_addr e =? a); [now apply Hg | exact He].
Qed.

(** X12.  No registry call makes a timeout run down: if every record has
    [delta_timeout == timeout], that is still so in the world any of the
    five calls leaves, however it ends.  ([onion_poller_add] starts a record
    at -1/-1, [onion_poller_set_timeout] writes both fields, nothing else
    writes either.) *)
Theorem registry_calls_leave_timeouts_in_step
    (E : environment) (c : registry_call) (w : world) :
  timeouts_untouched (w_poller w) ->
  timeouts_untouched (w_poller (world_of (run_registry_call E c w))).
Proof.
  assert (Hm : forall b, keeps_in_step (set_el_mutex b))
    by (intros b e He; exact He).
  assert (Hmx : forall b p, timeouts_untouched p ->
                            timeouts_untouched (set_p_mutex b p))
    by (intros b p H; exact H).
  intros Hp.
  destruct c as [fd f data|fd|fd f data|fd timeout|fd]; cbn [run_registry_call].
  - destruct w as [p tr]. rewrite add_runs. cbv zeta.
    destruct (add_address E _ =? 0); [exact Hp|].
    destruct (p_mutex p); [exact Hp|].
    unfold timeouts_untouched in *. cbn.
    apply Forall_app. split; [exact Hp|]. now repeat constructor.
  - apply (gkeeps_go timeouts_untouched keeps_in_step Hmx in_step_update Hm E fd);
      [intros e He; exact He | exact Hp].
  - apply (gkeeps_set_shutdown timeouts_untouched keeps_in_step Hmx
             in_step_update Hm fd f data);
      [intros e He; exact He | exact Hp].
  - apply (gkeeps_set_timeout timeouts_untouched keeps_in_step Hmx
             in_step_update Hm fd timeout);
      [intros e He; reflexivity | exact Hp].
  - unfold timeouts_untouched in *.
    destruct (remove_head E fd w) as [-> | (pre & el & post & Hh & ->)].
    + exact Hp.
    + rewrite Hh in Hp. apply Forall_app in Hp. destruct Hp as [Hpre Hrest].
      apply Forall_app. split; [exact Hpre|]. now inversion Hrest.
Qed.

Lemma registry_calls_leave_timeouts_in_step_witness :
  timeouts_untouched
    (w_poller
       (world_of (run_registry_call quiet_env (CallSetTimeout 6 1000)
                                    two_entries))).
Proof.
  apply (registry_calls_leave_timeouts_in_step
           quiet_env (CallSetTimeout 6 1000) two_entries).
  repeat constructor.
Defined.

(** ** The loop on a closed handle *)

(** A turn in which the wait fails, [stop] is clear and the registry is not
    empty leaves the loop running as long as [p->fd] is not negative. *)
Lemma poll_iteration_failed_wait (E : environment) (p : onion_poller) tr :
  0 <= p_fd p -> p_stop p = 0 -> p_head p <> [] ->
  os_epoll_wait E tr = None ->
  others E (tr ++ [EvEpollWait (p_fd p) MAX_EVENTS (-1)]) p = p ->
  poll_iteration E (mk_world p tr) =
  Done Running (mk_world p (tr ++ failed_waits (p_fd p) 1)).
Proof.
  intros Hfd Hstop Hne Hwait Hothers.
  unfold poll_iteration. rewrite bind_run. cbn [get_poller w_poller].
  rewrite Hstop. destruct (p_head p) as [|e l] eqn:Hh; [congruence|].
  cbn [Z.eqb negb is_nil orb]. rewrite bind_run.
  unfold epoll_wait. cbn [w_poller w_trace]. rewrite Hwait, Hothers.
  change (-1 <? 0) with true. cbv iota. rewrite bind_run.
  rewrite bind_run. cbn [ONION_LOG emit w_poller w_trace].
  rewrite bind_run. cbn [get_poller w_poller].
  rewrite (proj2 (Z.ltb_ge _ _) Hfd), Hh. cbn [is_nil orb ret].
  unfold failed_waits. cbn [repeat List.concat app].
  now rewrite <- app_assoc.
Qed.

(** C8.  The way out of the loop that is meant for a closed handle (the
    comment at the failed wait reads: this is normally closed [p->fd]) is
    never taken for it.  [onion_poller_free] closes the handle and leaves
    [p->fd] as [epoll_create] gave it, which is not negative; no later call
    can make [p->fd < 0] true.  So when the handle is closed (every
    [epoll_wait] fails from now on), [stop] is clear and the registry is
    not empty, the loop does not terminate: whatever the fuel, it is still
    running, having done nothing but wait and log, with [npollers] never
    decremented. *)
Theorem poll_loop_never_ends_on_closed_handle
    (E : environment) (w : world) :
  0 <= p_fd (w_poller w) ->
  p_stop (w_poller w) = 0 ->
  p_head (w_poller w) <> [] ->
  (forall tr, os_epoll_wait E (w_trace w ++ tr) = None) ->
  (forall tr p, others E tr p = p) ->
  (forall fuel,
     poll_loop E fuel w =
     OutOfFuel (mk_world (w_poller w)
                  (w_trace w ++ failed_waits (p_fd (w_poller w)) fuel))) /\
  (forall w0,
     p_fd (w_poller (world_of (onion_poller_free E w0))) = p_fd (w_poller w0)).
Proof.
  intros Hfd Hstop Hne Hwait Hothers. split.
  - intros fuel. destruct w as [p tr]. cbn [w_poller w_trace] in *.
    revert tr Hwait. induction fuel as [|fuel IH]; intros tr Hwait.
    + cbn. now rewrite app_nil_r.
    + cbn [poll_loop]. rewrite bind_run.
      rewrite (poll_iteration_failed_wait E p tr Hfd Hstop Hne);
        [| rewrite <- (app_nil_r tr); apply Hwait | apply Hothers].
      rewrite IH.
      * unfold failed_waits. cbn [repeat List.concat].
        now rewrite <- !app_assoc.
      * intros tr'. rewrite <- app_assoc. apply Hwait.
  - intros w0.
    apply (keeps_free (fun p => p_fd p = p_fd (w_poller w0)) E).
    + intros tr p H. now rewrite Hothers.
    + intros v p H. exact H.
    + intros b p H. exact H.
    + reflexivity.
Qed.

Lemma poll_loop_never_ends_witness :
  poll_loop quiet_env 3 closed_handle_world =
  OutOfFuel
    (mk_world (mk_poller 3 0 2 false 1 [el5; el6])
       [EvLog DEBUG "Free onion poller"; EvClose 3;
        EvEpollWait 3 10 (-1); EvLog DEBUG "Some error happened";
        EvEpollWait 3 10 (-1); EvLog DEBUG "Some error happened";
        EvEpollWait 3 10 (-1); EvLog DEBUG "Some error happened"]).
Proof.
  refine (proj1 (poll_loop_never_ends_on_closed_handle
                   quiet_env closed_handle_world _ eq_refl _ _ _) 3%nat).
  - cbn. lia.
  - discriminate.
  - reflexivity.
  - reflexivity.
Defined.

(** ** Stopping and starting the loop *)

(** X13.  [onion_poller_stop] ends a running loop at its next test: with the
    poller mutex free, the loop started right after the stop returns from
    its first test, [npollers] one less, without a call to [epoll_wait] and
    without running a callback, whatever the registry holds and whatever the
    environment would have answered. *)
Theorem stop_ends_the_loop_at_its_next_test
    (E : environment) (fuel : nat) (w : world) :
  p_mutex (w_poller w) = false ->
  (onion_poller_stop ;; poll_loop E (S fuel)) w =
  Done tt
    (mk_world
       (set_p_npollers (int_wrap (p_npollers (w_poller w) - 1))
                       (set_p_stop 1 (w_poller w)))
       (w_trace w ++ [EvLog DEBUG0 "Finished polling fds";
                      EvLog DEBUG0 "Npollers %d"])).
Proof.
  destruct w as [[epfd stop n mx np head] tr]. cbn [w_poller w_trace p_mutex].
  intros ->. unfold onion_poller_stop.
  rewrite bind_run. cbn [modify_poller w_poller w_trace set_p_stop p_fd p_stop
                         p_n p_mutex p_npollers p_head].
  cbn [poll_loop]. rewrite bind_run. unfold poll_iteration.
  rewrite bind_run. cbn [get_poller w_poller p_stop].
  run. change (1 =? 0) with false. cbn [negb orb].
  run. rewrite <- ?app_assoc. reflexivity.
Qed.

Lemma stop_ends_the_loop_witness :
  (onion_poller_stop ;; poll_loop (once_ready_env 0) 1) two_entries =
  Done tt
    (mk_world (mk_poller 3 1 2 false (-1) [el5; el6])
       [EvLog DEBUG0 "Finished polling fds"; EvLog DEBUG0 "Npollers %d"]).
Proof.
  exact (stop_ends_the_loop_at_its_next_test
           (once_ready_env 0) 0 two_entries eq_refl).
Defined.

(** X14.  "If no fd to poll, returns": on an empty registry
    [onion_poller_poll] (poller mutex free, fuel for one test) returns at
    once, without a call to [epoll_wait]; it has cleared [stop], and
    [npollers], counted up and down again, is what it was. *)
Theorem poll_on_empty_registry_returns_at_once
    (E : environment) (fuel : nat) (w : world) :
  p_mutex (w_poller w) = false ->
  p_head (w_poller w) = [] ->
  INT_MIN <= p_npollers (w_poller w) <= INT_MAX ->
  onion_poller_poll E (S fuel) w =
  Done tt
    (mk_world (set_p_stop 0 (w_poller w))
       (w_trace w ++ [EvLog DEBUG0 "Start poll of fds";
                      EvLog DEBUG0 "Npollers %d. %d listenings %p";
                      EvLog DEBUG0 "Finished polling fds";
                      EvLog DEBUG0 "Npollers %d"])).
Proof.
  destruct w as [[epfd stop n mx np head] tr].
  cbn [w_poller w_trace p_mutex p_head p_npollers].
  intros -> -> Hnp. unfold onion_poller_poll. run.
  cbn [poll_loop]. rewrite bind_run. unfold poll_iteration.
  rewrite bind_run. cbn [get_poller w_poller p_stop p_head is_nil].
  run. change (0 =? 0) with true. cbn [negb orb is_nil].
  run. rewrite <- ?app_assoc. cbn [app].
  now rewrite int_wrap_add_sub by assumption.
Qed.

Lemma poll_on_empty_registry_witness :
  onion_poller_poll quiet_env 1 fresh_world =
  Done tt
    (mk_world (w_poller fresh_world)
       [EvLog DEBUG0 "Start poll of fds";
        EvLog DEBUG0 "Npollers %d. %d listenings %p";
        EvLog DEBUG0 "Finished polling fds";
        EvLog DEBUG0 "Npollers %d"]).
Proof.
  refine (poll_on_empty_registry_returns_at_once
            quiet_env 0 fresh_world eq_refl eq_refl _).
  unfold INT_MIN, INT_MAX. cbn. lia.
Defined.

(** ** [onion_poller_free], in general *)

Lemma wait_pollers_bounded (E : environment) (n : nat) :
  forall w,
  exists k w',
    (k <= n)%nat /\
    wait_pollers E n w = Done tt w' /\
    w_trace w' = w_trace w ++ wait_rounds k /\
    ((k < n)%nat -> p_npollers (w_poller w') <= 0) /\
    (p_npollers (w_poller w) <= 0 -> w' = w).
Proof.
  induction n as [|n IH]; intros w.
  - exists 0%nat, w. cbn. rewrite app_nil_r.
    repeat split; [lia | intros H; inversion H].
  - cbn [wait_pollers]. rewrite bind_run. cbn [get_poller].
    destruct (Z.ltb_spec 0 (p_npollers (w_poller w))) as [Hpos|Hle].
    + rewrite bind_run. cbn [ONION_LOG emit]. rewrite bind_run.
      unfold usleep at 1. cbn [w_poller w_trace].
      match goal with
      | |- context [wait_pollers E n ?w1] =>
          destruct (IH w1) as (k & w' & Hk & Hrun & Htr & Hearly & _)
      end.
      exists (S k), w'. rewrite Hrun.
      split; [lia|]. split; [reflexivity|]. split; [|split].
      * rewrite Htr. cbn [w_trace]. unfold wait_rounds. cbn [repeat List.concat].
        now rewrite <- !app_assoc.
      * intros Hlt. apply Hearly. lia.
      * intros Hle. lia.
    + exists 0%nat, w. cbn [wait_rounds repeat List.concat]. rewrite app_nil_r.
      split; [lia|]. split; [reflexivity|]. split; [reflexivity|].
      split; [intros _; exact Hle | reflexivity].
Qed.

Lemma wait_pollers_stays_positive (E : environment) (n : nat) :
  (forall tr p, 0 < p_npollers p -> 0 < p_npollers (others E tr p)) ->
  forall w, 0 < p_npollers (w_poller w) ->
            0 < p_npollers (w_poller (world_of (wait_pollers E n w))).
Proof.
  intros Hothers. induction n as [|n IH]; intros w Hpos; [exact Hpos|].
  cbn [wait_pollers]. rewrite bind_run. cbn [get_poller].
  rewrite (proj2 (Z.ltb_lt _ _) Hpos).
  rewrite bind_run. cbn [ONION_LOG emit]. rewrite bind_run.
  unfold usleep at 1. cbn [w_poller w_trace].
  apply IH. cbn [w_poller]. now apply Hothers.
Qed.

(** The walk over the records sleeps nowhere, however it ends. *)
Lemma free_chain_never_sleeps (E : environment) (l : list onion_poller_el) :
  forall w, exists rest,
    w_trace (world_of (free_chain E l w)) = w_trace w ++ rest /\
    filter is_usleep rest = [].
Proof.
  induction l as [|e l IH]; intros [p tr].
  - exists []. cbn. now rewrite app_nil_r.
  - cbn [free_chain]. destruct (el_mutex e).
    + exists []. cbn. now rewrite app_nil_r.
    + cbn [when]. rewrite bind_run. cbn [ret].
      destruct (el_shutdown e =? 0); cbn [negb when].
      * rewrite bind_run. cbn [ret]. rewrite bind_run. cbn [emit w_poller w_trace].
        destruct (IH (mk_world p (tr ++ [EvFree (el_addr e)])))
          as (rest & Htr & Hf).
        exists (EvFree (el_addr e) :: rest). rewrite Htr. cbn [w_trace].
        split; [now rewrite <- app_assoc | exact Hf].
      * rewrite bind_run, call_hook_run. cbv zeta.
        destruct (hook_returns _).
        -- unfold after_hook. cbn [w_poller w_trace].
           rewrite bind_run. cbn [emit w_poller w_trace].
           match goal with
           | |- context [free_chain E l ?w1] =>
               destruct (IH w1) as (rest & Htr & Hf)
           end.
           exists (EvShutdown (el_shutdown e) (el_shutdown_data e)
                   :: EvFree (el_addr e) :: rest).
           rewrite Htr. cbn [w_trace].
           split; [now rewrite <- !app_assoc | exact Hf].
        -- exists [EvShutdown (el_shutdown e) (el_shutdown_data e)].
           split; reflexivity.
Qed.

Lemma free_runs (E : environment) (w : world) :
  onion_poller_free E w =
  let w1 := after_free_wait E w in
  if p_mutex (w_poller w1) then
    match free_chain E (p_head (w_poller w1))
            (mk_world (w_poller w1)
               (w_trace w1 ++
                [EvLog WARNING
                   "When cleaning the poller object, some poller is still active; not freeing memory"]))
    with
    | Done _ w2 =>
        Done tt (mk_world (set_p_mutex false (w_poller w2))
                          (w_trace w2 ++ [EvFreePoller; EvLog DEBUG0 "Done"]))
    | Fault why w2 => Fault why w2
    | Blocked w2 => Blocked w2
    | OutOfFuel w2 => OutOfFuel w2
    end
  else
    Done tt (mk_world (set_p_mutex true (w_poller w1))
                      (w_trace w1 ++ [EvLog DEBUG0 "Done"])).
Proof.
  unfold after_free_wait, onion_poller_free.
  destruct w as [p tr]. run. rewrite <- app_assoc. cbn [app].
  rewrite bind_run.
  destruct (wait_pollers_bounded E 10
              (mk_world (set_p_stop 1 p)
                 (tr ++ [EvLog DEBUG "Free onion poller"; EvClose (p_fd p)])))
    as (k & [p1 tr1] & _ & Hrun & _).
  rewrite Hrun. cbn [world_of w_poller w_trace]. cbv zeta.
  rewrite bind_run. unfold pthread_mutex_trylock_poller.
  rewrite bind_run. cbn [get_poller w_poller].
  destruct (p_mutex p1) eqn:Hpm.
  - cbn [ret]. change (0 <? EBUSY) with true. cbn [when].
    rewrite !bind_run. cbn [ONION_LOG emit get_poller w_poller w_trace].
    rewrite !bind_run. cbn [get_poller w_poller]. rewrite !bind_run.
    destruct (free_chain E (p_head p1) _) as [[] w2| | |]; try reflexivity.
    run. unfold ONION_LOG, emit. cbn [w_poller w_trace].
    rewrite <- ?app_assoc. reflexivity.
  - run. reflexivity.
Qed.

(** X15.  [onion_poller_free] waits for the poll threads a bounded time:
    however it ends and whatever the other threads do, it has logged, closed
    the handle, slept [k] times 100 ms for some [k <= 10], and never sleeps
    again after that.  It does not sleep at all if [npollers <= 0] at the
    start, and sleeps the full ten times if [npollers] is positive at the
    start and the other threads leave it positive. *)
Theorem free_waits_at_most_ten_times (E : environment) (w : world) :
  exists k rest,
    (k <= 10)%nat /\
    w_trace (world_of (onion_poller_free E w)) =
      w_trace w ++ [EvLog DEBUG "Free onion poller";
                    EvClose (p_fd (w_poller w))] ++ wait_rounds k ++ rest /\
    filter is_usleep rest = [] /\
    (p_npollers (w_poller w) <= 0 -> k = 0%nat) /\
    (0 < p_npollers (w_poller w) ->
     (forall tr p, 0 < p_npollers p -> 0 < p_npollers (others E tr p)) ->
     k = 10%nat).
Proof.
  pose (w0 := mk_world (set_p_stop 1 (w_poller w))
                (w_trace w ++ [EvLog DEBUG "Free onion poller";
                               EvClose (p_fd (w_poller w))])).
  destruct (wait_pollers_bounded E 10 w0)
    as (k & w' & Hk & Hrun & Htr & Hearly & Hnone).
  assert (Hw1 : after_free_wait E w = w').
  { unfold after_free_wait. fold w0. now rewrite Hrun. }
  assert (Hnp : p_npollers (w_poller w0) = p_npollers (w_poller w))
    by (destruct w as [[? ? ? ? ? ?] ?]; reflexivity).
  assert (Hrest : exists rest,
            w_trace (world_of (onion_poller_free E w)) = w_trace w' ++ rest /\
            filter is_usleep rest = []).
  { rewrite free_runs. cbv zeta. rewrite Hw1.
    destruct (p_mutex (w_poller w')).
    - match goal with
      | |- context [free_chain E ?l ?w1] =>
          destruct (free_chain_never_sleeps E l w1) as (rest & Hc & Hf);
          destruct (free_chain E l w1) as [[] w2|why w2|w2|w2]
      end; cbn [world_of w_trace] in Hc |- *.
      + exists ([EvLog WARNING
                   "When cleaning the poller object, some poller is still active; not freeing memory"]
                ++ rest ++ [EvFreePoller; EvLog DEBUG0 "Done"]).
        rewrite Hc, <- !app_assoc. split; [reflexivity|].
        cbn [app filter is_usleep]. rewrite filter_app, Hf. reflexivity.
      + exists ([EvLog WARNING
                   "When cleaning the poller object, some poller is still active; not freeing memory"]
                ++ rest).
        rewrite Hc, <- !app_assoc. split; [reflexivity|].
        cbn [app filter is_usleep]. exact Hf.
      + exists ([EvLog WARNING
                   "When cleaning the poller object, some poller is still active; not freeing memory"]
                ++ rest).
        rewrite Hc, <- !app_assoc. split; [reflexivity|].
        cbn [app filter is_usleep]. exact Hf.
      + exists ([EvLog WARNING
                   "When cleaning the poller object, some poller is still active; not freeing memory"]
                ++ rest).
        rewrite Hc, <- !app_assoc. split; [reflexivity|].
        cbn [app filter is_usleep]. exact Hf.
    - exists [EvLog DEBUG0 "Done"]. split; reflexivity. }
  destruct Hrest as (rest & Hfree & Hf).
  destruct (Z.leb_spec (p_npollers (w_poller w)) 0) as [Hle|Hgt].
  - assert (Hw' : w' = w0) by (apply Hnone; rewrite Hnp; exact Hle).
    exists 0%nat, rest. rewrite Hfree, Hw'.
    cbn [w0 w_trace wait_rounds repeat List.concat app].
    split; [lia|]. split; [now rewrite <- app_assoc|].
    split; [exact Hf|]. split; [reflexivity | lia].
  - exists k, rest. rewrite Hfree, Htr. cbn [w0 w_trace].
    split; [exact Hk|]. split; [now rewrite <- !app_assoc|].
    split; [exact Hf|]. split; [lia|].
    intros _ Hothers.
    destruct (Nat.eq_dec k 10) as [Heq|Hne]; [exact Heq|].
    exfalso.
    assert (Hlt : (k < 10)%nat) by lia.
    pose proof (Hearly Hlt) as Hdone.
    pose proof (wait_pollers_stays_positive E 10 Hothers w0) as Hpos.
    rewrite Hrun, Hnp in Hpos. cbn [world_of] in Hpos.
    specialize (Hpos Hgt). lia.
Qed.

Lemma same_but_stop_refl (p : onion_poller) : same_but_stop p p.
Proof. destruct p. reflexivity. Qed.

Lemma same_but_stop_hook hr (p p' : onion_poller) :
  same_but_stop (hook_writes hr p) p' -> same_but_stop p p'.
Proof.
  unfold same_but_stop, hook_writes. intros H.
  destruct (hook_stop hr); [|exact H].
  rewrite H at 1. destruct p. reflexivity.

Qed.

(** The walk over unlocked records whose hooks return. *)
Lemma free_chain_unlocked (E : environment) (l : list onion_poller_el) :
  Forall (fun e => el_mutex e = false) l ->
  hooks_return E l ->
  forall p tr, exists p',
    free_chain E l (mk_world p tr) =
      Done tt (mk_world p' (tr ++ flat_map free_chain_events l)) /\
    same_but_stop p p' /\
    (hooks_leave_stop E l -> p' = p).
Proof.
  induction 1 as [|e l Hm _ IH]; intros Hret p tr.
  - exists p. cbn. rewrite app_nil_r.
    split; [reflexivity|]. split; [apply same_but_stop_refl | reflexivity].
  - assert (Hret' : hooks_return E l)
      by (intros e' w' Hin; apply Hret; now right).
    cbn [free_chain flat_map]. rewrite Hm. unfold free_chain_events at 1.
    cbn [when]. rewrite bind_run. cbn [ret].
    destruct (Z.eqb_spec (el_shutdown e) 0) as [Hs|Hs]; cbn [negb when].
    + rewrite bind_run. cbn [ret]. rewrite bind_run. cbn [emit w_poller w_trace].
      destruct (IH Hret' p (tr ++ [EvFree (el_addr e)])) as (p' & Hrun & Hsame & Hq).
      exists p'. rewrite Hrun. cbn [app]. rewrite <- app_assoc.
      split; [reflexivity|]. split; [exact Hsame|].
      intros Hquiet. apply Hq. intros e' w' Hin. apply Hquiet. now right.
    + rewrite bind_run, call_hook_run. cbv zeta.
      rewrite (Hret e _ (or_introl eq_refl) Hs).
      unfold after_hook. cbn [w_poller w_trace].
      rewrite bind_run. cbn [emit w_poller w_trace].
      match goal with
      | |- context [hook_writes ?h p] => set (hr := h)
      end.
      destruct (IH Hret' (hook_writes hr p)
                  ((tr ++ [EvShutdown (el_shutdown e) (el_shutdown_data e)])
                   ++ [EvFree (el_addr e)]))
        as (p' & Hrun & Hsame & Hq).
      exists p'. rewrite Hrun. cbn [app]. rewrite <- !app_assoc. cbn [app].
      split; [reflexivity|]. split; [exact (same_but_stop_hook hr p p' Hsame)|].
      intros Hquiet. rewrite Hq.
      * unfold hook_writes, hr.
        now rewrite (Hquiet e _ (or_introl eq_refl) Hs).
      * intros e' w' Hin. apply Hquiet. now right.
Qed.

(** X16.  When [onion_poller_free] finds the poller mutex taken after its
    wait, it takes the cleanup branch: with every record unlocked and every
    hook returning, it logs the warning, then for each record of the
    registry, in registry order, calls the shutdown hook if the record has
    one and frees the record, then unlocks the poller mutex and frees the
    poller.  Nothing of the poller has changed on the way but the mutex and
    what the hooks wrote to [stop].  It makes no [epoll_ctl] call: the
    descriptors are not taken out of the interest list one by one. *)
Theorem free_cleanup_runs_hooks_and_frees_in_registry_order
    (E : environment) (w : world) :
  let w1 := after_free_wait E w in
  p_mutex (w_poller w1) = true ->
  Forall (fun e => el_mutex e = false) (p_head (w_poller w1)) ->
  hooks_return E (p_head (w_poller w1)) ->
  (exists stop',
     onion_poller_free E w =
       Done tt
         (mk_world (set_p_stop stop' (set_p_mutex false (w_poller w1)))
            (w_trace w1 ++
             [EvLog WARNING
                "When cleaning the poller object, some poller is still active; not freeing memory"]
             ++ flat_map free_chain_events (p_head (w_poller w1))
             ++ [EvFreePoller; EvLog DEBUG0 "Done"])) /\
     (hooks_leave_stop E (p_head (w_poller w1)) ->
      stop' = p_stop (w_poller w1))) /\
  filter is_rearm (flat_map free_chain_events (p_head (w_poller w1))) = [] /\
  forall ev, In ev (flat_map free_chain_events (p_head (w_poller w1))) ->
             is_shutdown ev = true \/ is_free ev = true.
Proof.
  cbv zeta. intros Hpm Hfree Hret. split; [|split].
  - rewrite free_runs. cbv zeta. rewrite Hpm.
    match goal with
    | |- context [free_chain E ?l (mk_world ?p ?tr)] =>
        destruct (free_chain_unlocked E l Hfree Hret p tr)
          as (p' & Hrun & Hsame & Hq)
    end.
    rewrite Hrun. exists (p_stop p'). cbn [w_poller w_trace]. split.
    + rewrite <- ?app_assoc. f_equal. f_equal.
      unfold same_but_stop in Hsame. rewrite Hsame at 1.
      destruct (w_poller (after_free_wait E w)). reflexivity.
    + intros Hquiet. now rewrite (Hq Hquiet).
  - clear Hpm Hfree Hret.
    induction (p_head (w_poller (after_free_wait E w))) as [|e l IH];
      [reflexivity|].
    cbn [flat_map]. rewrite filter_app, IH. unfold free_chain_events.
    destruct (el_shutdown e =? 0); reflexivity.
  - intros ev Hin. apply in_flat_map in Hin. destruct Hin as (e & _ & Hin).
    unfold free_chain_events in Hin.
    destruct (el_shutdown e =? 0); cbn in Hin.
    + destruct Hin as [<-|[]]. now right.
    + destruct Hin as [<-|[<-|[]]]; [now left | now right].
Qed.

Lemma free_cleanup_witness :
  onion_poller_free quiet_env contended_world =
  Done tt
    (mk_world (mk_poller 3 1 2 false 0 [el5; el6])
       [EvLog DEBUG "Free onion poller"; EvClose 3;
        EvLog WARNING
          "When cleaning the poller object, some poller is still active; not freeing memory";
        EvShutdown 11 12; EvFree 4097; EvShutdown 21 22; EvFree 4099;
        EvFreePoller; EvLog DEBUG0 "Done"]).
Proof.
  destruct (free_cleanup_runs_hooks_and_frees_in_registry_order
              quiet_env contended_world eq_refl)
    as ((stop' & Hrun & Hstop) & _).
  - repeat constructor.
  - intros e w _ _. reflexivity.
  - rewrite Hstop in Hrun by (intros e w _ _; reflexivity). exact Hrun.
Defined.

Lemma remove_poller_held (E : environment) (fd : Z) (w : world) :
  p_mutex (w_poller w) = true -> onion_poller_remove E fd w = Blocked w.
Proof.
  intros H. unfold onion_poller_remove, pthread_mutex_lock_poller.
  rewrite !bind_run. cbn [get_poller]. now rewrite H.
Qed.

Lemma registry_calls_block_on_held_poller_mutex (w : world) :
  p_mutex (w_poller w) = true ->
  (forall E fd, onion_poller_go E fd w = Blocked w) /\
  (forall fd f data, onion_poller_set_shutdown fd f data w = Blocked w) /\
  (forall fd timeout, onion_poller_set_timeout fd timeout w = Blocked w) /\
  (forall E fd, onion_poller_remove E fd w = Blocked w) /\
  (forall E fd f data r w', onion_poller_add E fd f data w <> Done r w').
Proof.
  intros H. split; [|split; [|split; [|split]]].
  - intros E fd. unfold onion_poller_go.
    now rewrite bind_run, find_fd_and_lock_poller_held.
  - intros fd f data. unfold onion_poller_set_shutdown.
    now rewrite bind_run, find_fd_and_lock_poller_held.
  - intros fd timeout. unfold onion_poller_set_timeout.
    now rewrite bind_run, find_fd_and_lock_poller_held.
  - intros E fd. now apply remove_poller_held.
  - intros E fd f data r w'. destruct w as [p tr]. cbn [w_poller] in H.
    rewrite add_runs. cbv zeta. rewrite H.
    destruct (add_address E _ =? 0); discriminate.
Qed.

(** X17.  When [onion_poller_free] finds the poller mutex free after its
    wait, [pthread_mutex_trylock] takes it and nothing gives it back:
    [onion_poller_free] returns having only logged, with the registry as it
    was, and leaves the poller mutex locked.  From then on
    [onion_poller_go], [onion_poller_set_shutdown],
    [onion_poller_set_timeout] and [onion_poller_remove] stop at the lock
    for every descriptor, and [onion_poller_add] never returns. *)
Theorem free_without_contention_leaves_the_poller_mutex_locked
    (E : environment) (w : world) :
  let w1 := after_free_wait E w in
  p_mutex (w_poller w1) = false ->
  exists w',
    onion_poller_free E w = Done tt w' /\
    w_poller w' = set_p_mutex true (w_poller w1) /\
    p_mutex (w_poller w') = true /\
    p_head (w_poller w') = p_head (w_poller w1) /\
    w_trace w' = w_trace w1 ++ [EvLog DEBUG0 "Done"] /\
    (forall E' fd, onion_poller_go E' fd w' = Blocked w') /\
    (forall fd f data, onion_poller_set_shutdown fd f data w' = Blocked w') /\
    (forall fd timeout, onion_poller_set_timeout fd timeout w' = Blocked w') /\
    (forall E' fd, onion_poller_remove E' fd w' = Blocked w') /\
    (forall E' fd f data r w'',
        onion_poller_add E' fd f data w' <> Done r w'').
Proof.
  cbv zeta. intros Hpm. rewrite free_runs. cbv zeta. rewrite Hpm.
  eexists. split; [reflexivity|]. cbn [w_poller w_trace].
  split; [reflexivity|]. split; [reflexivity|].
  split; [reflexivity|]. split; [reflexivity|].
  apply registry_calls_block_on_held_poller_mutex. reflexivity.
Qed.

Lemma free_without_contention_witness :
  exists w',
    onion_poller_free quiet_env two_entries = Done tt w' /\
    p_mutex (w_poller w') = true /\
    w_trace w' = [EvLog DEBUG "Free onion poller"; EvClose 3;
                  EvLog DEBUG0 "Done"] /\
    onion_poller_remove quiet_env 5 w' = Blocked w'.
Proof.
  destruct (free_without_contention_leaves_the_poller_mutex_locked
              quiet_env two_entries eq_refl)
    as (w' & Hrun & _ & Hpm & _ & Htr & _ & _ & _ & Hrm & _).
  exists w'. split; [exact Hrun|]. split; [exact Hpm|].
  split; [exact Htr | apply Hrm].
Defined.

(** ** Removing a record that is locked *)

(** X18.  [onion_poller_remove] unlinks the record before it takes the
    record's mutex.  If that mutex is held and never released (as after the
    failed registration of C10), the call stops inside
    [onion_poller_free_element] with the record already out of the
    registry, [n] not yet decremented, nothing sent to [epoll], no hook run,
    nothing freed, and the poller mutex still held; every later
    [onion_poller_go], [onion_poller_set_shutdown],
    [onion_poller_set_timeout] and [onion_poller_remove], for any
    descriptor, then stops at the poller mutex, and no
    [onion_poller_add] returns. *)
Theorem remove_of_locked_entry_blocks_holding_the_registry
    (E : environment) (w : world)
    (pre : list onion_poller_el) (el : onion_poller_el)
    (post : list onion_poller_el) :
  p_mutex (w_poller w) = false ->
  p_head (w_poller w) = pre ++ el :: post ->
  Forall (fun e => el_fd e <> el_fd el) pre ->
  el_mutex el = true ->
  exists w',
    onion_poller_remove E (el_fd el) w = Blocked w' /\
    p_head (w_poller w') = pre ++ post /\
    p_n (w_poller w') = p_n (w_poller w) /\
    p_mutex (w_poller w') = true /\
    w_trace w' =
      w_trace w ++
      [EvLog DEBUG0 "Trying to remove fd %d (%d)";
       EvLog DEBUG0 (if is_nil pre then "Removed from head %p"
                     else "Removed from tail %p")] /\
    (forall E' fd, onion_poller_go E' fd w' = Blocked w') /\
    (forall fd f data, onion_poller_set_shutdown fd f data w' = Blocked w') /\
    (forall fd timeout, onion_poller_set_timeout fd timeout w' = Blocked w') /\
    (forall E' fd, onion_poller_remove E' fd w' = Blocked w') /\
    (forall E' fd f data r w'',
        onion_poller_add E' fd f data w' <> Done r w'').
Proof.
  destruct w as [p tr]. cbn [w_poller w_trace]. intros Hpm Hh Hpre Hm.
  rewrite (remove_present_held E p tr pre el post) by assumption.
  eexists. split; [reflexivity|]. cbn [w_poller w_trace].
  split; [reflexivity|]. split; [destruct p; reflexivity|].
  split; [reflexivity|]. split; [reflexivity|].
  apply registry_calls_block_on_held_poller_mutex. reflexivity.
Qed.

Lemma remove_of_locked_entry_witness :
  exists w',
    onion_poller_remove quiet_env 6 stuck_world = Blocked w' /\
    p_head (w_poller w') = [el5] /\
    p_n (w_poller w') = 2 /\
    onion_poller_go quiet_env 5 w' = Blocked w'.
Proof.
  destruct (remove_of_locked_entry_blocks_holding_the_registry
              quiet_env stuck_world [el5] el6_stuck [])
    as (w' & Hrun & Hh & Hn & _ & _ & Hgo & _).
  - reflexivity.
  - reflexivity.
  - repeat constructor. discriminate.
  - reflexivity.
  - exists w'. split; [exact Hrun|]. split; [exact Hh|].
    split; [exact Hn | apply Hgo].
Defined.

(** ** A new poller *)

(** X19.  [onion_poller_new] writes the handle through the pointer
    [malloc] gave without looking at it: when [malloc] returns NULL it
    faults.  Otherwise it returns NULL exactly when [epoll_create] fails
    (it then logs the error and frees the block), and the poller it returns
    when [epoll_create] succeeds has the handle [epoll_create] gave, which
    is not negative, and holds no descriptor: [stop] is clear, [n] counts
    the empty registry, [onion_poller_go] returns 0 on it for every
    descriptor without changing it, and [onion_poller_poll] on it returns
    at once and leaves it as it was. *)
Theorem new_poller_is_empty_and_usable
    (E : environment) (n : Z) (tr : list event) :
  let a := os_malloc E tr in
  let fd := os_epoll_create E n in
  (a = 0 ->
   onion_poller_new E n tr = NewFault NullPointer (tr ++ [EvMalloc a])) /\
  ((exists tr', onion_poller_new E n tr = NewNull tr') <-> a <> 0 /\ fd < 0) /\
  (a <> 0 -> fd < 0 ->
   onion_poller_new E n tr =
     NewNull (tr ++ [EvMalloc a;
                     EvLog ERROR "Error creating the poller. %s";
                     EvFreePoller])) /\
  ((exists p tr', onion_poller_new E n tr = NewPoller p tr')
   <-> a <> 0 /\ 0 <= fd) /\
  (forall p tr',
     onion_poller_new E n tr = NewPoller p tr' ->
     tr' = tr ++ [EvMalloc a] /\
     p_fd p = fd /\ 0 <= p_fd p /\
     p_stop p = 0 /\ p_npollers p = 0 /\ p_head p = [] /\ count_ok p /\
     (forall E' d tr0,
        onion_poller_go E' d (mk_world p tr0) = Done 0 (mk_world p tr0)) /\
     (forall E' fuel tr0,
        exists w', onion_poller_poll E' (S fuel) (mk_world p tr0) = Done tt w' /\
                   w_poller w' = p)).
Proof.
  cbv zeta. unfold onion_poller_new.
  destruct (Z.eqb_spec (os_malloc E tr) 0) as [Ha|Ha].
  { split; [reflexivity|].
    split; [split; [intros [tr' H]; discriminate H | intros [H _]; contradiction]|].
    split; [intros H; contradiction|].
    split; [split; [intros (p & tr' & H); discriminate H
                   | intros [H _]; contradiction]|].
    intros p tr' H. discriminate H. }
  split; [intros H; contradiction|].
  destruct (Z.ltb_spec (os_epoll_create E n) 0) as [Hneg|Hpos].
  - split; [split; [intros _; split; assumption | intros _; eexists; reflexivity]|].
    split; [intros _ _; now rewrite <- app_assoc|].
    split; [split; [intros (p & tr' & H); discriminate H | intros [_ H]; lia]|].
    intros p tr' H. discriminate H.
  - split; [split; [intros [tr' H]; discriminate H | intros [_ H]; lia]|].
    split; [intros _ H; lia|].
    split; [split; [intros _; split; assumption
                   | intros _; eexists; eexists; reflexivity]|].
    intros p tr' H. inversion H; subst; clear H.
    cbn [p_fd p_stop p_npollers p_head].
    split; [reflexivity|]. split; [reflexivity|]. split; [exact Hpos|].
    split; [reflexivity|]. split; [reflexivity|]. split; [reflexivity|].
    split; [reflexivity|]. split.
    + intros E' d tr0. unfold onion_poller_go.
      rewrite bind_run, find_fd_and_lock_absent; [reflexivity | reflexivity |].
      intros [].
    + intros E' fuel tr0. eexists. split.
      * unfold onion_poller_poll. run.
        cbn [poll_loop]. rewrite bind_run. unfold poll_iteration.
        rewrite bind_run. cbn [get_poller w_poller p_stop p_head is_nil].
        run. change (0 =? 0) with true. cbn [negb orb is_nil].
        run. reflexivity.
      * reflexivity.
Qed.

Lemma new_poller_witness :
  onion_poller_new quiet_env 4 [] =
    NewPoller (w_poller fresh_world) [EvMalloc 4096] /\
  onion_poller_new null_malloc_env 4 [] = NewFault NullPointer [EvMalloc 0] /\
  (forall fd, onion_poller_go quiet_env fd fresh_world = Done 0 fresh_world).
Proof.
  destruct (new_poller_is_empty_and_usable quiet_env 4 [])
    as (_ & _ & _ & _ & H).
  destruct (H (w_poller fresh_world) [EvMalloc 4096] eq_refl)
    as (_ & _ & _ & _ & _ & _ & _ & Hgo & _).
  split; [reflexivity|].
  split; [exact (proj1 (new_poller_is_empty_and_usable null_malloc_env 4 [])
                   eq_refl)|].
  intros fd. apply Hgo.
Defined.

(** ** The loop and the last descriptor *)

(** X20.  The loop ends when the callback of the last descriptor asks for
    removal.  Let the registry hold one free record, [epoll_wait] report it,
    no other thread touch the poller meanwhile, and the callback return a
    negative value without touching the world.  Then the loop (poller mutex
    free, [stop] clear, fuel for two tests) runs the callback once and
    removes the descriptor: [EPOLL_CTL_DEL], then the shutdown hook if any.
    When the hook returns (or there is none) the record is freed, [n] is
    one less, and the second test of the loop, on the empty registry, ends
    it with [npollers] one less, without another [epoll_wait], whatever the
    hook wrote to [stop]; when the hook does not return, the loop stops
    inside it. *)
Theorem loop_ends_when_last_entry_asks_for_removal
    (E : environment) (fuel : nat) (w : world) (el : onion_poller_el) (n : Z) :
  p_mutex (w_poller w) = false ->
  p_stop (w_poller w) = 0 ->
  p_head (w_poller w) = [el] ->
  el_addr el <> 0 -> el_mutex el = false -> el_f el <> 0 ->
  os_epoll_wait E (w_trace w) = Some [el_addr el] ->
  w_poller (after_wait E w) = w_poller w ->
  let w1 :=
    mk_world (set_p_head [set_el_mutex true (reset_el_delta el)] (w_poller w))
             (w_trace (after_wait E w) ++ [EvCallback (el_f el) (el_data el)]) in
  call_f E (el_f el) (el_data el) w1 = (n, w1) ->
  n < 0 ->
  let p := w_poller w in
  let tr2 := w_trace w1 ++ [EvLog DEBUG0 "Trying to remove fd %d (%d)";
                            EvLog DEBUG0 "Removed from head %p"] in
  let del := [EvEpollCtl (p_fd p) Epoll.EPOLL_CTL_DEL (el_fd el) None]
             ++ (if os_epoll_ctl E tr2 Epoll.EPOLL_CTL_DEL (el_fd el) <? 0
                 then [EvLog ERROR "Error remove descriptor to listen to. %s"]
                 else []) in
  let hook := EvShutdown (el_shutdown el) (el_shutdown_data el) in
  let hr := call_shutdown E (el_shutdown el) (el_shutdown_data el)
              (mk_world (set_p_mutex true (set_p_head [] p))
                        (tr2 ++ del ++ [hook])) in
  let left (q : onion_poller) :=
    set_p_npollers (int_wrap (p_npollers p - 1))
      (set_p_n (int_wrap (p_n p - 1)) (set_p_head [] q)) in
  let finished := [EvLog DEBUG0 "Finished polling fds";
                   EvLog DEBUG0 "Npollers %d"] in
  poll_loop E (S (S fuel)) w =
    if el_shutdown el =? 0 then
      Done tt (mk_world (left p)
                 (tr2 ++ del ++ [EvFree (el_addr el)] ++ finished))
    else if hook_returns hr then
      Done tt (mk_world (left (hook_writes hr p))
                 (tr2 ++ del ++ [hook; EvFree (el_addr el)] ++ finished))
    else
      Blocked (mk_world (hook_writes hr (set_p_mutex true (set_p_head [] p)))
                        (tr2 ++ del ++ [hook])).
Proof.
  intros Hpm Hstop Hh H0 Hm Hf Hwait Hothers. cbv zeta. intros Hcall Hn.
  assert (Hwf : wf_registry ([] ++ el :: [])).
  { split; cbn; [repeat constructor; intros [] | intros [He|[]]; now apply H0]. }
  assert (Hpm1 : p_mutex (w_poller (after_wait E w)) = false)
    by (rewrite Hothers; exact Hpm).
  (* first turn *)
  cbn [poll_loop]. rewrite bind_run.
  rewrite (poll_iteration_cases E w Hpm Hpm1).
  unfold stop_or_empty. rewrite Hstop, Hh. cbn [Z.eqb negb is_nil orb].
  cbv zeta. rewrite Hwait. cbn [firstn dispatch_all].
  rewrite !bind_run.
  destruct (after_wait E w) as [p1 tr1] eqn:Haw.
  cbn [w_poller w_trace] in Hothers, Hcall, Hpm1 |- *. subst p1.
  rewrite (dispatch_until_callback E (w_poller w) tr1 [] el [] Hwf Hh Hm Hf).
  cbn [app]. rewrite Hcall.
  assert (Hwf1 : wf_registry ([] ++ set_el_mutex true (reset_el_delta el) :: []))
    by (apply (wf_registry_replace [] el); [assumption | reflexivity]).
  change (el_addr el) with (el_addr (set_el_mutex true (reset_el_delta el))).
  rewrite (after_callback_negative E n _ _ [] _ [] Hn);
    [| exact Hpm | exact Hwf1 | reflexivity | constructor].
  replace (set_el_mutex false (set_el_mutex true (reset_el_delta el)))
    with (reset_el_delta el)
    by (destruct el; cbn in *; subst; reflexivity).
  rewrite bind_run.
  rewrite (remove_present_written_out E _ _ [] (reset_el_delta el) []);
    [| exact Hpm | reflexivity | constructor
     | destruct el; cbn in *; assumption].
  cbv zeta. unfold unlinked, remove_logs.
  cbn [is_nil app el_fd el_shutdown el_shutdown_data el_addr reset_el_delta].
  destruct w as [[epfd stop n0 mx np head] tr].
  cbn [w_poller w_trace p_mutex p_stop p_head p_fd p_n p_npollers] in *.
  subst mx stop head. norm_poller.
  destruct (el_shutdown el =? 0).
  - (* second turn *)
    cbn [ret]. rewrite bind_run. unfold poll_iteration.
    rewrite bind_run. cbn [get_poller w_poller p_stop p_head is_nil].
    run. change (0 =? 0) with true. cbn [negb orb is_nil].
    run. repeat (progress (rewrite <- ?app_assoc; cbn [app])).
    reflexivity.
  - match goal with
    | |- context [hook_returns ?h] =>
        set (hr := h); destruct (hook_returns hr)
    end; [|reflexivity].
    cbn [ret]. rewrite bind_run. unfold poll_iteration.
    rewrite bind_run. cbn [get_poller w_poller].
    unfold hook_writes. destruct (hook_stop hr) as [v|].
    + norm_poller. cbn [is_nil orb]. rewrite Bool.orb_true_r.
      run. repeat (progress (rewrite <- ?app_assoc; cbn [app])).
      reflexivity.
    + norm_poller. cbn [is_nil orb]. rewrite Bool.orb_true_r.
      run. repeat (progress (rewrite <- ?app_assoc; cbn [app])).
      reflexivity.
Qed.

Lemma loop_ends_witness :
  poll_loop (once_ready_env (-1)) 2 one_entry =
  Done tt
    (mk_world (mk_poller 3 0 0 false 0 [])
       [EvEpollWait 3 10 (-1);
        EvCallback 77 88;
        EvLog DEBUG0 "Trying to remove fd %d (%d)";
        EvLog DEBUG0 "Removed from head %p";
        EvEpollCtl 3 Epoll.EPOLL_CTL_DEL 5 None;
        EvShutdown 11 12;
        EvFree 4097;
        EvLog DEBUG0 "Finished polling fds";
        EvLog DEBUG0 "Npollers %d"]).
Proof.
  refine (loop_ends_when_last_entry_asks_for_removal
            (once_ready_env (-1)) 0 one_entry el5 (-1)
            eq_refl eq_refl eq_refl _ eq_refl _ eq_refl eq_refl eq_refl _).
  - discriminate.
  - discriminate.
  - reflexivity.
Defined.
